(** * pulse-docs MCP server: credential resolution and service adapters

    A shallow embedding of the TypeScript sources of the MCP server
    (secrets.ts, integrations/supabase.ts, integrations/github.ts,
    integrations/gcloud.ts) and of the repository cloning script
    setup_repos.sh, followed by the properties of the specification that
    are checked against them.

    Conventions of the embedding.
    - A method of a class is a computation over the fields of [this]; it may
      mutate them, perform external calls and raise a JavaScript exception.
      Mutations made before an exception is raised persist, as in JavaScript.
    - Every external call (subprocess, network, file system, constructor of
      a client library) is answered by an oracle of the [World] the program
      runs in; the oracle may return or raise.  The call itself is recorded
      in the trace of the computation.
    - [await] only sequences: the program is single threaded and no claim
      below depends on interleaving.
    - Strings are byte strings (the UTF-8 text the process reads). *)

From Stdlib Require Import String Ascii List Bool ZArith PrimFloat.
From stdpp Require Import base option list gmap strings.

Local Open Scope stdpp_scope.

(** ** JavaScript values *)

Module Js.

(** A JavaScript [Error]: its message and, for HTTP client errors, the
    [status] property that github.ts inspects. *)
Record Error : Type := mkError { message : string; status : option Z }.

Definition error (msg : string) : Error := {| message := msg; status := None |}.

(** Raised by the runtime when a property of [undefined] is read or a
    non-function is called. *)
Definition TypeError (msg : string) : Error := error ("TypeError: " +:+ msg).

(** How an evaluation completes: normally, or by raising. *)
Inductive result (A : Type) : Type :=
| Ok (a : A)
| Throw (e : Error).
Arguments Ok {A} a.
Arguments Throw {A} e.

(** Values that travel through [Record<string, any>] arguments.  A number
    is an IEEE 754 binary64, an object is the list of its own enumerable
    entries in the order [Object.entries] yields them. *)
#[local] Set Warnings "-register-all".
Inductive Value : Type :=
| Undefined
| Null
| Bool (b : bool)
| Num (x : float)
| Str (s : string)
| Arr (items : list Value)
| Obj (entries : list (string * Value)).

(** [if (s)] on a string. *)
Definition str_truthy (s : string) : bool :=
  match s with EmptyString => false | String _ _ => true end.

(** [if (x)] on a number: 0, -0 and NaN are falsy. *)
Definition num_truthy (x : float) : bool :=
  negb (PrimFloat.is_zero x || PrimFloat.is_nan x).

(** [if (o?.f)] where the field is a string. *)
Definition opt_truthy (o : option string) : bool :=
  match o with Some s => str_truthy s | None => false end.

(** [ToBoolean]. *)
Definition truthy (v : Value) : bool :=
  match v with
  | Undefined | Null => false
  | Bool b => b
  | Num x => num_truthy x
  | Str s => str_truthy s
  | Arr _ | Obj _ => true
  end.

(** [typeof v === 'object'] (true of [null] as well). *)
Definition typeof_object (v : Value) : bool :=
  match v with
  | Null | Arr _ | Obj _ => true
  | _ => false
  end.

Fixpoint assoc (k : string) (l : list (string * Value)) : option Value :=
  match l with
  | [] => None
  | (k', v) :: l' => if decide (k = k') then Some v else assoc k l'
  end.

(** [v.k] on a value that is not [null] or [undefined]: a missing property
    reads as [undefined]. *)
Definition prop (v : Value) (k : string) : Value :=
  match v with
  | Obj l => default Undefined (assoc k l)
  | _ => Undefined
  end.

(** [v.k] in general: reading a property of [null] or [undefined] raises. *)
Definition get (v : Value) (k : string) : result Value :=
  match v with
  | Undefined | Null =>
      Throw (TypeError ("Cannot read properties of undefined (reading '" +:+ k +:+ "')"))
  | _ => Ok (prop v k)
  end.

(** [v?.k] *)
Definition get_opt (v : Value) (k : string) : Value :=
  match v with
  | Undefined | Null => Undefined
  | _ => prop v k
  end.

(** An optional argument as a value: a missing one is [undefined]. *)
Definition of_option {A} (f : A -> Value) (o : option A) : Value :=
  match o with Some a => f a | None => Undefined end.

Definition bind {A B} (r : result A) (f : A -> result B) : result B :=
  match r with Ok a => f a | Throw e => Throw e end.

Fixpoint traverse {A B} (f : A -> result B) (l : list A) : result (list B) :=
  match l with
  | [] => Ok []
  | a :: l' => bind (f a) (fun b => bind (traverse f l') (fun bs => Ok (b :: bs)))
  end.

(** [v.map(f)]: raises unless [v] is an array. *)
Definition array_map (f : Value -> result Value) (v : Value) : result Value :=
  match v with
  | Arr items => bind (traverse f items) (fun items' => Ok (Arr items'))
  | Undefined | Null =>
      Throw (TypeError "Cannot read properties of undefined (reading 'map')")
  | _ => Throw (TypeError "map is not a function")
  end.

(** [v?.map(f)] *)
Definition array_map_opt (f : Value -> result Value) (v : Value) : result Value :=
  match v with
  | Undefined | Null => Ok Undefined
  | _ => array_map f v
  end.

(** An object literal [{ k1: e1, ..., kn: en }], its fields evaluated in
    order. *)
Fixpoint literal (fields : list (string * result Value)) : result (list (string * Value)) :=
  match fields with
  | [] => Ok []
  | (k, e) :: fields' =>
      bind e (fun v => bind (literal fields') (fun rest => Ok ((k, v) :: rest)))
  end.

Definition object (fields : list (string * result Value)) : result Value :=
  bind (literal fields) (fun l => Ok (Obj l)).

(** [a || b] on numbers. *)
Definition num_or (a : option float) (b : float) : float :=
  match a with
  | Some x => if num_truthy x then x else b
  | None => b
  end.

(** [Array.prototype.join] on strings. *)
Fixpoint join (sep : string) (l : list string) : string :=
  match l with
  | [] => EmptyString
  | [x] => x
  | x :: l' => x +:+ sep +:+ join sep l'
  end.

(** [a || b] on strings. *)
Definition str_or (a : option string) (b : string) : string :=
  match a with
  | Some s => if str_truthy s then s else b
  | None => b
  end.

(** [String.prototype.trim].  A text is held as its UTF-8 bytes.  The
    white space and line terminators that [trim] strips are, in ASCII, the
    characters 9 to 13 and the space; beyond ASCII, U+00A0 (bytes C2 A0),
    U+1680 (E1 9A 80), U+2000 to U+200A (E2 80 80 to E2 80 8A), U+2028
    and U+2029 (E2 80 A8, E2 80 A9), U+202F (E2 80 AF), U+205F
    (E2 81 9F), U+3000 (E3 80 80) and U+FEFF (EF BB BF). *)
Definition wide_space2 (a b : ascii) : bool :=
  (N_of_ascii a =? 194)%N && (N_of_ascii b =? 160)%N.

Definition wide_space3 (a b c : ascii) : bool :=
  let x := N_of_ascii a in
  let y := N_of_ascii b in
  let z := N_of_ascii c in
  ((x =? 225) && (y =? 154) && (z =? 128)
   || (x =? 226) && (y =? 128)
      && ((128 <=? z) && (z <=? 138) || (z =? 168) || (z =? 169) || (z =? 175))
   || (x =? 226) && (y =? 129) && (z =? 159)
   || (x =? 227) && (y =? 128) && (z =? 128)
   || (x =? 239) && (y =? 187) && (z =? 191))%N.

(** Drops the white space at the head of [s]; [two] and [three] tell
    whether the next two or three bytes, in the order they are met, are
    one white-space character. *)
Fixpoint strip (two : ascii -> ascii -> bool) (three : ascii -> ascii -> ascii -> bool)
    (s : string) : string :=
  match s with
  | EmptyString => EmptyString
  | String c1 s1 =>
      if Ascii.is_space c1 then strip two three s1
      else
        match s1 with
        | String c2 s2 =>
            if two c1 c2 then strip two three s2
            else
              match s2 with
              | String c3 s3 => if three c1 c2 c3 then strip two three s3 else s
              | EmptyString => s
              end
        | EmptyString => s
        end
  end.

Definition trimStart (s : string) : string := strip wide_space2 wide_space3 s.

(** From the end the bytes of a character are met last to first. *)
Definition trimEnd (s : string) : string :=
  String.rev
    (strip (fun a b => wide_space2 b a) (fun a b c => wide_space3 c b a) (String.rev s)).

Definition trim (s : string) : string := trimEnd (trimStart s).

End Js.

(** ** Computations with state, exceptions and a trace of external calls *)

Module Eff.

Export Js (result(..)).

Section Monad.
Context {E S : Type}.

(** A computation maps the fields of [this] to their final value, the
    external calls made, and a returned value or a raised exception. *)
Definition M (A : Type) : Type := S -> S * list E * result A.

Definition ret {A} (a : A) : M A := fun s => (s, [], Ok a).

Definition throw {A} (e : Js.Error) : M A := fun s => (s, [], Throw e).

Definition bind {A B} (m : M A) (f : A -> M B) : M B :=
  fun s =>
    match m s with
    | (s1, t1, Ok a) =>
        match f a s1 with
        | (s2, t2, r) => (s2, t1 ++ t2, r)
        end
    | (s1, t1, Throw e) => (s1, t1, Throw e)
    end.

(** [try { body } catch (error) { handler }]. *)
Definition try_catch {A} (body : M A) (handler : Js.Error -> M A) : M A :=
  fun s =>
    match body s with
    | (s1, t1, Ok a) => (s1, t1, Ok a)
    | (s1, t1, Throw e) =>
        match handler e s1 with
        | (s2, t2, r) => (s2, t1 ++ t2, r)
        end
    end.

Definition get : M S := fun s => (s, [], Ok s).
Definition gets {A} (f : S -> A) : M A := fun s => (s, [], Ok (f s)).
Definition modify (f : S -> S) : M unit := fun s => (f s, [], Ok tt).

(** An external call: recorded, and answered by the world. *)
Definition external {A} (ev : E) (answer : result A) : M A :=
  fun s => (s, [ev], answer).

(** An effect with no answer ([console.error]). *)
Definition emit (ev : E) : M unit := fun s => (s, [ev], Ok tt).

Definition when (b : bool) (m : M unit) : M unit := if b then m else ret tt.

(** An evaluation that touches neither [this] nor the outside. *)
Definition lift {A} (r : result A) : M A := fun s => (s, [], r).

Definition final_state {A} (r : S * list E * result A) : S := fst (fst r).
Definition trace {A} (r : S * list E * result A) : list E := snd (fst r).
Definition outcome {A} (r : S * list E * result A) : result A := snd r.
End Monad.

Arguments M : clear implicits.

End Eff.

Import Eff.

Declare Scope eff_scope.
Delimit Scope eff_scope with eff.
Notation "x <- m ;; k" := (Eff.bind m (fun x => k))
  (at level 100, m at next level, right associativity) : eff_scope.
Notation "m ;; k" := (Eff.bind m (fun _ => k))
  (at level 100, right associativity) : eff_scope.

(** ** secrets.ts: the layered credential resolution *)

Module Secrets.

(** [interface Secrets] *)
Record SupabaseSecrets : Type :=
  { url : string; anonKey : string; serviceRoleKey : option string }.
Record GitHubSecrets : Type := { token : string }.
Record GCloudSecrets : Type :=
  { projectId : string; applicationCredentials : option string }.

(** [Partial<Secrets>] *)
Record Secrets : Type :=
  { supabase : option SupabaseSecrets;
    github : option GitHubSecrets;
    gcloud : option GCloudSecrets }.

(** The handle built by [new SecretManagerServiceClient()]. *)
Inductive SecretManagerServiceClient : Type := SecretClient.

(** The fields of a [SecretsManager]. *)
Record SecretsManager : Type :=
  { secrets : Secrets; secretClient : option SecretManagerServiceClient }.

(** What [accessSecretVersion] resolves to: a version whose payload and
    payload data may each be missing; [data] stands for the text that
    [data.toString()] yields. *)
Record SecretPayload : Type := { data : option string }.
Record SecretVersion : Type := { payload : option SecretPayload }.

(** What the resolver does to the outside, in order. *)
Inductive Event : Type :=
| ExecSync (command : string)
| ExistsSync (path : string)
| NewSecretManagerServiceClient
| AccessSecretVersion (name : string)
| ConsoleError (text : string) (error : Js.Error).

(** The environment the resolver runs in.  [fs] is bound to [fs.promises]
    by the import of secrets.ts, which has no [existsSync]: at run time
    that call raises a TypeError.  The oracle may return or raise, so the
    theorems cover the call as written and as it would run. *)
Record World : Type :=
  { execSync : string -> result string;
    existsSync : string -> result bool;
    newSecretManagerServiceClient : result SecretManagerServiceClient;
    accessSecretVersion : string -> result SecretVersion;
    env : gmap string string }.

Definition set_supabase (v : SupabaseSecrets) (this : SecretsManager) : SecretsManager :=
  {| secrets := {| supabase := Some v;
                   github := github (secrets this);
                   gcloud := gcloud (secrets this) |};
     secretClient := secretClient this |}.

Definition set_github (v : GitHubSecrets) (this : SecretsManager) : SecretsManager :=
  {| secrets := {| supabase := supabase (secrets this);
                   github := Some v;
                   gcloud := gcloud (secrets this) |};
     secretClient := secretClient this |}.

Definition set_gcloud (v : GCloudSecrets) (this : SecretsManager) : SecretsManager :=
  {| secrets := {| supabase := supabase (secrets this);
                   github := github (secrets this);
                   gcloud := Some v |};
     secretClient := secretClient this |}.

Definition set_secretClient (c : SecretManagerServiceClient) (this : SecretsManager)
  : SecretsManager :=
  {| secrets := secrets this; secretClient := Some c |}.

(** [this.secrets.gcloud.applicationCredentials = p]; raises when
    [this.secrets.gcloud] is undefined. *)
Definition set_applicationCredentials (p : string) : M Event SecretsManager unit :=
  (g <- gets (fun this => gcloud (secrets this)) ;;
   match g with
   | Some g =>
       modify (set_gcloud {| projectId := projectId g; applicationCredentials := Some p |})
   | None =>
       throw (Js.TypeError "Cannot set properties of undefined (setting 'applicationCredentials')")
   end)%eff.

(** The command line of the second probe; it holds a quoted format. *)
Definition dquote : string := String (ascii_of_nat 34) EmptyString.
Definition adc_path_command : string :=
  "gcloud info --format=" +:+ dquote
    +:+ "value(config.paths.application_default_credentials_path)" +:+ dquote.

Section Methods.
Context (w : World).

Local Abbreviation Mth := (M Event SecretsManager).

Definition console_error (text : string) (e : Js.Error) : Mth unit :=
  emit (ConsoleError text e).

(** [execSync(command, { encoding: 'utf8' })] *)
Definition exec (command : string) : Mth string :=
  external (ExecSync command) (execSync w command).

Definition initializeGCloud : Mth unit :=
  try_catch
    (out <- exec "gcloud config get-value project" ;;
     let projectId := Js.trim out in
     if Js.str_truthy projectId then
       modify (set_gcloud {| projectId := projectId; applicationCredentials := None |}) ;;
       out <- exec adc_path_command ;;
       let adcPath := Js.trim out in
       exists_ <- (if Js.str_truthy adcPath
                   then external (ExistsSync adcPath) (existsSync w adcPath)
                   else ret false) ;;
       when exists_ (set_applicationCredentials adcPath) ;;
       client <- external NewSecretManagerServiceClient (newSecretManagerServiceClient w) ;;
       modify (set_secretClient client)
     else ret tt)%eff
    (fun error => console_error "Failed to initialize gcloud:" error).

(** Field initialisers of the class. *)
Definition fresh : SecretsManager :=
  {| secrets := {| supabase := None; github := None; gcloud := None |};
     secretClient := None |}.

Definition constructor : Mth unit := initializeGCloud.

Definition getSecret (projectId secretId : string) : Mth (option string) :=
  try_catch
    (let name :=
       "projects/" +:+ projectId +:+ "/secrets/" +:+ secretId +:+ "/versions/latest" in
     client <- gets secretClient ;;
     match client with
     | None =>
         throw (Js.TypeError
                  "Cannot read properties of undefined (reading 'accessSecretVersion')")
     | Some _ =>
         version <- external (AccessSecretVersion name) (accessSecretVersion w name) ;;
         ret (payload version ≫= data)
     end)%eff
    (fun error =>
       console_error ("Failed to get secret " +:+ secretId +:+ ":") error ;;
       ret None)%eff.

Definition loadFromSecretManager : Mth unit :=
  try_catch
    (g <- gets (fun this => gcloud (secrets this)) ;;
     projectId <- match g with
                  | Some g => ret (projectId g)
                  | None =>
                      throw (Js.TypeError
                               "Cannot read properties of undefined (reading 'projectId')")
                  end ;;
     supabaseUrl <- getSecret projectId "supabase-url" ;;
     supabaseAnonKey <- getSecret projectId "supabase-anon-key" ;;
     supabaseServiceKey <- getSecret projectId "supabase-service-role-key" ;;
     match supabaseUrl, supabaseAnonKey with
     | Some u, Some k =>
         when (Js.str_truthy u && Js.str_truthy k)
           (modify (set_supabase
                      {| url := u; anonKey := k; serviceRoleKey := supabaseServiceKey |}))
     | _, _ => ret tt
     end ;;
     githubToken <- getSecret projectId "github-token" ;;
     match githubToken with
     | Some t => when (Js.str_truthy t) (modify (set_github {| token := t |}))
     | None => ret tt
     end)%eff
    (fun error => console_error "Failed to load from Secret Manager:" error).

Definition loadFromGCloudConfig : Mth unit :=
  try_catch
    (out <- exec "gcloud auth application-default print-access-token 2>/dev/null" ;;
     let githubToken := Js.trim out in
     current <- gets (fun this => token <$> github (secrets this)) ;;
     when (Js.str_truthy githubToken && negb (Js.opt_truthy current))
       (modify (set_github {| token := githubToken |})))%eff
    (fun _ => ret tt).

Definition loadFromEnvironment : Mth unit :=
  (s <- gets secrets ;;
   match env w !! "SUPABASE_URL" with
   | Some e =>
       when (negb (Js.opt_truthy (url <$> supabase s)) && Js.str_truthy e)
         (modify (set_supabase
                    {| url := e;
                       anonKey := Js.str_or (env w !! "SUPABASE_ANON_KEY") "";
                       serviceRoleKey := env w !! "SUPABASE_SERVICE_ROLE_KEY" |}))
   | None => ret tt
   end ;;
   s <- gets secrets ;;
   match env w !! "GITHUB_TOKEN" with
   | Some e =>
       when (negb (Js.opt_truthy (token <$> github s)) && Js.str_truthy e)
         (modify (set_github {| token := e |}))
   | None => ret tt
   end ;;
   s <- gets secrets ;;
   match env w !! "GCLOUD_PROJECT" with
   | Some e =>
       when (negb (Js.opt_truthy (projectId <$> gcloud s)) && Js.str_truthy e)
         (modify (set_gcloud
                    {| projectId := e;
                       applicationCredentials := gcloud s ≫= applicationCredentials |}))
   | None => ret tt
   end)%eff.

Definition loadSecrets : Mth unit :=
  (this <- get ;;
   when (bool_decide (is_Some (secretClient this))
         && Js.opt_truthy (projectId <$> gcloud (secrets this)))
     loadFromSecretManager ;;
   loadFromGCloudConfig ;;
   loadFromEnvironment)%eff.

End Methods.

Definition getSupabaseConfig (this : SecretsManager) : option SupabaseSecrets :=
  supabase (secrets this).

Definition getGitHubToken (this : SecretsManager) : option string :=
  token <$> github (secrets this).

Definition getGCloudConfig (this : SecretsManager) : option GCloudSecrets :=
  gcloud (secrets this).

Definition hasSupabase (this : SecretsManager) : bool :=
  Js.opt_truthy (url <$> supabase (secrets this))
  && Js.opt_truthy (anonKey <$> supabase (secrets this)).

Definition hasGitHub (this : SecretsManager) : bool :=
  Js.opt_truthy (token <$> github (secrets this)).

Definition hasGCloud (this : SecretsManager) : bool :=
  Js.opt_truthy (projectId <$> gcloud (secrets this)).

End Secrets.

(** ** integrations/supabase.ts: the database adapter *)

Module Supabase.

Record OrderBy : Type := { column : string; ascending : option bool }.

Record SupabaseQueryArgs : Type :=
  { table : string;
    select : option string;
    filter : option (list (string * Js.Value));
    limit : option float;
    orderBy : option OrderBy }.

Record SupabaseInsertArgs : Type :=
  { insert_table : string; insert_data : Js.Value }.

Record SupabaseUpdateArgs : Type :=
  { update_table : string;
    update_data : Js.Value;
    update_filter : list (string * Js.Value) }.

Record SupabaseDeleteArgs : Type :=
  { delete_table : string; delete_filter : list (string * Js.Value) }.

Record SupabaseRpcArgs : Type :=
  { functionName : string; params : option Js.Value }.

(** One call on the query builder of the client library. *)
Inductive Step : Type :=
| From (table : string)
| Select (columns : string)
| SelectReturning
| Insert (data : Js.Value)
| Update (data : Js.Value)
| Delete
| Is (column : string) (v : Js.Value)
| Eq (column : string) (v : Js.Value)
| Neq (column : string) (v : Js.Value)
| Gt (column : string) (v : Js.Value)
| Gte (column : string) (v : Js.Value)
| Lt (column : string) (v : Js.Value)
| Lte (column : string) (v : Js.Value)
| Like (column : string) (v : Js.Value)
| Ilike (column : string) (v : Js.Value)
| In (column : string) (v : Js.Value)
| Order (column : string) (ascending : bool)
| Limit (count : float).

(** A built query: the builder calls made on it, first to last.  Nothing
    is sent until the query is awaited. *)
Definition Query : Type := list Step.

Definition call (step : Step) (q : Query) : Query := q ++ [step].

(** The handle returned by [createClient(url, anonKey, options)]. *)
Inductive SupabaseClient : Type := Client (url anonKey : string).

(** What an awaited query resolves to. *)
Record Response : Type := { data : Js.Value; error : option Js.Error }.

Inductive Event : Type :=
| CreateClient (url anonKey : string)
| Send (q : Query)
| Rpc (fn : string) (args : Js.Value).

Record World : Type :=
  { createClient : string -> string -> result SupabaseClient;
    send : Query -> result Response;
    rpc_call : string -> Js.Value -> result Response }.

(** The fields of a [SupabaseIntegration], but for the reference to the
    secrets manager, which the methods take as [secretsManager]. *)
Record SupabaseIntegration : Type := { client : option SupabaseClient }.

Definition fresh : SupabaseIntegration := {| client := None |}.

Definition isAvailable (this : SupabaseIntegration) : bool :=
  bool_decide (is_Some (client this)).

(** The body of the [switch] on [value.operator]: the builder call of a
    supported operator; the [switch] has no default case. *)
Definition operator_call (operator : Js.Value) (key : string) (v : Js.Value)
  : option Step :=
  match operator with
  | Js.Str op =>
      if decide (op = "eq") then Some (Eq key v)
      else if decide (op = "neq") then Some (Neq key v)
      else if decide (op = "gt") then Some (Gt key v)
      else if decide (op = "gte") then Some (Gte key v)
      else if decide (op = "lt") then Some (Lt key v)
      else if decide (op = "lte") then Some (Lte key v)
      else if decide (op = "like") then Some (Like key v)
      else if decide (op = "ilike") then Some (Ilike key v)
      else if decide (op = "in") then Some (In key v)
      else None
  | _ => None
  end.

(** One round of the loop over [Object.entries(args.filter)] in [query]. *)
Definition apply_filter (query : Query) (entry : string * Js.Value) : Query :=
  let '(key, value) := entry in
  match value with
  | Js.Null => call (Is key Js.Null) query
  | _ =>
      if Js.typeof_object value && Js.truthy (Js.prop value "operator") then
        match operator_call (Js.prop value "operator") key (Js.prop value "value") with
        | Some step => call step query
        | None => query
        end
      else call (Eq key value) query
  end.

(** The query that [query] builds before awaiting it. *)
Definition build_query (args : SupabaseQueryArgs) : Query :=
  let query := call (Select (Js.str_or (select args) "*")) [From (table args)] in
  let query :=
    match filter args with
    | Some entries => fold_left apply_filter entries query
    | None => query
    end in
  let query :=
    match orderBy args with
    | Some o => call (Order (column o) (default true (ascending o))) query
    | None => query
    end in
  let query :=
    match limit args with
    | Some n => if Js.num_truthy n then call (Limit n) query else query
    | None => query
    end in
  query.

(** The loop of [update] and [delete]: equality on every entry. *)
Definition apply_eq (query : Query) (entry : string * Js.Value) : Query :=
  call (Eq (fst entry) (snd entry)) query.

Section Methods.
Context (w : World).

Local Abbreviation Mth := (M Event SupabaseIntegration).

Definition not_initialized : Js.Error := Js.error "Supabase client not initialized".

(** [const { data, error } = await query; if (error) throw ...; return data] *)
Definition unwrap (what : string) (r : Response) : Mth Js.Value :=
  match error r with
  | Some e => throw (Js.error ("Supabase " +:+ what +:+ " error: " +:+ Js.message e))
  | None => ret (data r)
  end.

Definition initialize (secretsManager : Secrets.SecretsManager) : Mth bool :=
  let config := Secrets.getSupabaseConfig secretsManager in
  match config with
  | Some c =>
      if negb (Js.str_truthy (Secrets.url c)) || negb (Js.str_truthy (Secrets.anonKey c))
      then ret false
      else
        (handle <- external (CreateClient (Secrets.url c) (Secrets.anonKey c))
                     (createClient w (Secrets.url c) (Secrets.anonKey c)) ;;
         modify (fun _ => {| client := Some handle |}) ;;
         ret true)%eff
  | None => ret false
  end.

Definition query (args : SupabaseQueryArgs) : Mth Js.Value :=
  (c <- gets client ;;
   match c with
   | None => throw not_initialized
   | Some _ =>
       let q := build_query args in
       r <- external (Send q) (send w q) ;;
       unwrap "query" r
   end)%eff.

Definition insert (args : SupabaseInsertArgs) : Mth Js.Value :=
  (c <- gets client ;;
   match c with
   | None => throw not_initialized
   | Some _ =>
       let q := call SelectReturning
                  (call (Insert (insert_data args)) [From (insert_table args)]) in
       r <- external (Send q) (send w q) ;;
       unwrap "insert" r
   end)%eff.

Definition update (args : SupabaseUpdateArgs) : Mth Js.Value :=
  (c <- gets client ;;
   match c with
   | None => throw not_initialized
   | Some _ =>
       let query := call (Update (update_data args)) [From (update_table args)] in
       let query := fold_left apply_eq (update_filter args) query in
       let q := call SelectReturning query in
       r <- external (Send q) (send w q) ;;
       unwrap "update" r
   end)%eff.

Definition delete (args : SupabaseDeleteArgs) : Mth Js.Value :=
  (c <- gets client ;;
   match c with
   | None => throw not_initialized
   | Some _ =>
       let query := call Delete [From (delete_table args)] in
       let query := fold_left apply_eq (delete_filter args) query in
       let q := call SelectReturning query in
       r <- external (Send q) (send w q) ;;
       unwrap "delete" r
   end)%eff.

Definition rpc (args : SupabaseRpcArgs) : Mth Js.Value :=
  (c <- gets client ;;
   match c with
   | None => throw not_initialized
   | Some _ =>
       let p := Js.of_option id (params args) in
       r <- external (Rpc (functionName args) p) (rpc_call w (functionName args) p) ;;
       match error r with
       | Some e => throw (Js.error ("Supabase RPC error: " +:+ Js.message e))
       | None => ret (data r)
       end
   end)%eff.

End Methods.

(** The names of the tools that [getTools] lists. *)
Definition tool_names : list string :=
  ["supabase_query"; "supabase_insert"; "supabase_update"; "supabase_delete";
   "supabase_rpc"].

End Supabase.

(** ** integrations/github.ts: the source-hosting adapter *)

Module GitHub.

Record GitHubRepoArgs : Type := { owner : string; repo : string }.

Record GitHubIssueArgs : Type :=
  { issue_repo : GitHubRepoArgs;
    issue_state : option string;
    issue_labels : option (list string);
    assignee : option string;
    creator : option string;
    issue_per_page : option float }.

Record GitHubCreateIssueArgs : Type :=
  { new_issue_repo : GitHubRepoArgs;
    new_issue_title : string;
    new_issue_body : option string;
    new_issue_labels : option (list string);
    assignees : option (list string) }.

Record GitHubPRArgs : Type :=
  { pr_repo : GitHubRepoArgs;
    pr_state : option string;
    pr_head : option string;
    pr_base : option string;
    pr_per_page : option float }.

Record GitHubCreatePRArgs : Type :=
  { new_pr_repo : GitHubRepoArgs;
    new_pr_title : string;
    new_pr_body : option string;
    new_pr_head : string;
    new_pr_base : string;
    draft : option bool }.

Record GitHubFileArgs : Type :=
  { file_repo : GitHubRepoArgs; path : string; ref : option string }.

Inductive SearchType : Type := repositories | code | issues | users.

Record GitHubSearchArgs : Type :=
  { query : string; type : SearchType; search_per_page : option float }.

(** The methods of the REST client that the adapter calls. *)
Inductive Endpoint : Type :=
| repos_get
| issues_listForRepo
| issues_create
| pulls_list
| pulls_create
| repos_getContent
| search_repos
| search_code
| search_issuesAndPullRequests
| search_users.

(** The handle built by [new Octokit({ auth })]. *)
Inductive Octokit : Type := OctokitClient (auth : string).

Inductive Event : Type :=
| NewOctokit (auth : string)
| Request (endpoint : Endpoint) (parameters : Js.Value).

(** [request] answers with the [data] of the response, or rejects;
    [fromBase64] is [Buffer.from(content, 'base64').toString('utf-8')]. *)
Record World : Type :=
  { newOctokit : string -> result Octokit;
    request : Endpoint -> Js.Value -> result Js.Value;
    fromBase64 : Js.Value -> result string }.

Record GitHubIntegration : Type := { octokit : option Octokit }.

Definition fresh : GitHubIntegration := {| octokit := None |}.

Definition isAvailable (this : GitHubIntegration) : bool :=
  bool_decide (is_Some (octokit this)).

Definition strings (l : list string) : Js.Value := Js.Arr (Js.Str <$> l).

Definition searchMethod (t : SearchType) : Endpoint :=
  match t with
  | repositories => search_repos
  | code => search_code
  | issues => search_issuesAndPullRequests
  | users => search_users
  end.

Definition repository_summary (data : Js.Value) : result Js.Value :=
  Js.object
    [("name", Js.get data "name");
     ("fullName", Js.get data "full_name");
     ("description", Js.get data "description");
     ("private", Js.get data "private");
     ("defaultBranch", Js.get data "default_branch");
     ("language", Js.get data "language");
     ("stars", Js.get data "stargazers_count");
     ("forks", Js.get data "forks_count");
     ("openIssues", Js.get data "open_issues_count");
     ("createdAt", Js.get data "created_at");
     ("updatedAt", Js.get data "updated_at");
     ("url", Js.get data "html_url")].

Definition label_name (l : Js.Value) : result Js.Value :=
  match l with
  | Js.Str _ => Ok l
  | _ => Js.get l "name"
  end.

Definition issue_summary (issue : Js.Value) : result Js.Value :=
  Js.object
    [("number", Js.get issue "number");
     ("title", Js.get issue "title");
     ("state", Js.get issue "state");
     ("body", Js.get issue "body");
     ("user", Js.bind (Js.get issue "user") (fun u => Ok (Js.get_opt u "login")));
     ("labels", Js.bind (Js.get issue "labels") (Js.array_map_opt label_name));
     ("assignees",
       Js.bind (Js.get issue "assignees")
         (Js.array_map_opt (fun a => Js.get a "login")));
     ("createdAt", Js.get issue "created_at");
     ("updatedAt", Js.get issue "updated_at");
     ("url", Js.get issue "html_url")].

Definition created_summary (data : Js.Value) : result Js.Value :=
  Js.object
    [("number", Js.get data "number");
     ("title", Js.get data "title");
     ("state", Js.get data "state");
     ("url", Js.get data "html_url")].

Definition pr_summary (pr : Js.Value) : result Js.Value :=
  Js.object
    [("number", Js.get pr "number");
     ("title", Js.get pr "title");
     ("state", Js.get pr "state");
     ("body", Js.get pr "body");
     ("user", Js.bind (Js.get pr "user") (fun u => Ok (Js.get_opt u "login")));
     ("head", Js.bind (Js.get pr "head") (fun h => Js.get h "ref"));
     ("base", Js.bind (Js.get pr "base") (fun b => Js.get b "ref"));
     ("draft", Js.get pr "draft");
     ("merged",
       Js.bind (Js.get pr "merged_at")
         (fun m => Ok (Js.Bool (match m with Js.Null => false | _ => true end))));
     ("createdAt", Js.get pr "created_at");
     ("updatedAt", Js.get pr "updated_at");
     ("url", Js.get pr "html_url")].

(** ['content' in data]: raises unless [data] is an object. *)
Definition has_content (data : Js.Value) : result bool :=
  match data with
  | Js.Obj l => Ok (bool_decide (is_Some (Js.assoc "content" l)))
  | Js.Arr _ => Ok false
  | _ => Throw (Js.TypeError "Cannot use 'in' operator to search for 'content'")
  end.

Definition is_file (data : Js.Value) : bool :=
  match Js.prop data "type" with
  | Js.Str t => bool_decide (t = "file")
  | _ => false
  end.

Section Methods.
Context (w : World).

Local Abbreviation Mth := (M Event GitHubIntegration).

Definition not_initialized : Js.Error := Js.error "GitHub client not initialized".

Definition repo_parameters (r : GitHubRepoArgs) : list (string * Js.Value) :=
  [("owner", Js.Str (owner r)); ("repo", Js.Str (repo r))].

Definition call (e : Endpoint) (parameters : Js.Value) : Mth Js.Value :=
  external (Request e parameters) (request w e parameters).

Definition initialize (secretsManager : Secrets.SecretsManager) : Mth bool :=
  match Secrets.getGitHubToken secretsManager with
  | Some token =>
      if negb (Js.str_truthy token) then ret false
      else
        (handle <- external (NewOctokit token) (newOctokit w token) ;;
         modify (fun _ => {| octokit := Some handle |}) ;;
         ret true)%eff
  | None => ret false
  end.

Definition getRepository (args : GitHubRepoArgs) : Mth Js.Value :=
  (o <- gets octokit ;;
   match o with
   | None => throw not_initialized
   | Some _ =>
       data <- call repos_get (Js.Obj (repo_parameters args)) ;;
       lift (repository_summary data)
   end)%eff.

Definition listIssues (args : GitHubIssueArgs) : Mth Js.Value :=
  (o <- gets octokit ;;
   match o with
   | None => throw not_initialized
   | Some _ =>
       data <- call issues_listForRepo
                 (Js.Obj (repo_parameters (issue_repo args) ++
                    [("state", Js.Str (Js.str_or (issue_state args) "open"));
                     ("labels",
                       Js.of_option (fun l => Js.Str (Js.join "," l)) (issue_labels args));
                     ("assignee", Js.of_option Js.Str (assignee args));
                     ("creator", Js.of_option Js.Str (creator args));
                     ("per_page", Js.Num (Js.num_or (issue_per_page args) 30))])) ;;
       lift (Js.array_map issue_summary data)
   end)%eff.

Definition createIssue (args : GitHubCreateIssueArgs) : Mth Js.Value :=
  (o <- gets octokit ;;
   match o with
   | None => throw not_initialized
   | Some _ =>
       data <- call issues_create
                 (Js.Obj (repo_parameters (new_issue_repo args) ++
                    [("title", Js.Str (new_issue_title args));
                     ("body", Js.of_option Js.Str (new_issue_body args));
                     ("labels", Js.of_option strings (new_issue_labels args));
                     ("assignees", Js.of_option strings (assignees args))])) ;;
       lift (created_summary data)
   end)%eff.

Definition listPullRequests (args : GitHubPRArgs) : Mth Js.Value :=
  (o <- gets octokit ;;
   match o with
   | None => throw not_initialized
   | Some _ =>
       data <- call pulls_list
                 (Js.Obj (repo_parameters (pr_repo args) ++
                    [("state", Js.Str (Js.str_or (pr_state args) "open"));
                     ("head", Js.of_option Js.Str (pr_head args));
                     ("base", Js.of_option Js.Str (pr_base args));
                     ("per_page", Js.Num (Js.num_or (pr_per_page args) 30))])) ;;
       lift (Js.array_map pr_summary data)
   end)%eff.

Definition createPullRequest (args : GitHubCreatePRArgs) : Mth Js.Value :=
  (o <- gets octokit ;;
   match o with
   | None => throw not_initialized
   | Some _ =>
       data <- call pulls_create
                 (Js.Obj (repo_parameters (new_pr_repo args) ++
                    [("title", Js.Str (new_pr_title args));
                     ("body", Js.of_option Js.Str (new_pr_body args));
                     ("head", Js.Str (new_pr_head args));
                     ("base", Js.Str (new_pr_base args));
                     ("draft", Js.of_option Js.Bool (draft args))])) ;;
       lift (created_summary data)
   end)%eff.

Definition getFileContent (args : GitHubFileArgs) : Mth Js.Value :=
  (o <- gets octokit ;;
   match o with
   | None => throw not_initialized
   | Some _ =>
       try_catch
         (data <- call repos_getContent
                    (Js.Obj (repo_parameters (file_repo args) ++
                       [("path", Js.Str (path args));
                        ("ref", Js.of_option Js.Str (ref args))])) ;;
          present <- lift (has_content data) ;;
          if present && is_file data then
            lift (Js.object
                    [("name", Js.get data "name");
                     ("path", Js.get data "path");
                     ("content",
                       Js.bind (Js.get data "content")
                         (fun c => Js.bind (fromBase64 w c) (fun s => Ok (Js.Str s))));
                     ("size", Js.get data "size");
                     ("sha", Js.get data "sha");
                     ("url", Js.get data "html_url")])
          else throw (Js.error "Path is not a file"))
         (fun error =>
            if bool_decide (Js.status error = Some 404%Z)
            then throw (Js.error ("File not found: " +:+ path args))
            else throw error)
   end)%eff.

Definition search (args : GitHubSearchArgs) : Mth Js.Value :=
  (o <- gets octokit ;;
   match o with
   | None => throw not_initialized
   | Some _ =>
       data <- call (searchMethod (type args))
                 (Js.Obj [("q", Js.Str (query args));
                          ("per_page", Js.Num (Js.num_or (search_per_page args) 30))]) ;;
       lift (Js.get data "items")
   end)%eff.

End Methods.

(** The names of the tools that [getTools] lists. *)
Definition tool_names : list string :=
  ["github_get_repo"; "github_list_issues"; "github_create_issue"; "github_list_prs";
   "github_create_pr"; "github_get_file"; "github_search"].

End GitHub.

(** ** integrations/gcloud.ts: the object-storage and secret-access adapter *)

Module GCloud.

Record GCloudStorageListArgs : Type :=
  { list_bucket : string;
    prefix : option string;
    delimiter : option string;
    maxResults : option float }.

Record GCloudStorageReadArgs : Type := { read_bucket : string; read_file : string }.

Record GCloudStorageWriteArgs : Type :=
  { write_bucket : string;
    write_file : string;
    content : string;
    contentType : option string }.

Record GCloudSecretArgs : Type := { secretId : string; version : option string }.

Record GCloudCommandArgs : Type := { command : string; args : option (list string) }.

(** The handles built by [new Storage({ projectId })] and
    [new SecretManagerServiceClient()]. *)
Inductive Storage : Type := StorageClient (projectId : string).

Inductive Event : Type :=
| NewStorage (projectId : string)
| NewSecretManagerServiceClient
| GetFiles (bucket : string) (options : Js.Value)
| Download (bucket file : string)
| Save (bucket file content contentType : string)
| AccessSecretVersion (name : string)
| ExecSync (command : string)
| ConsoleError (text : string) (error : Js.Error).

(** A subprocess or a request over the network, as opposed to building a
    handle or writing to the console. *)
Definition is_call (e : Event) : bool :=
  match e with
  | GetFiles _ _ | Download _ _ | Save _ _ _ _ | AccessSecretVersion _ | ExecSync _ => true
  | NewStorage _ | NewSecretManagerServiceClient | ConsoleError _ _ => false
  end.

(** [getFiles] answers with the files of the listing, [download] with the
    text of [content.toString('utf-8')]. *)
Record World : Type :=
  { newStorage : string -> result Storage;
    newSecretManagerServiceClient : result Secrets.SecretManagerServiceClient;
    getFiles : string -> Js.Value -> result Js.Value;
    download : string -> string -> result string;
    save : string -> string -> string -> string -> result unit;
    accessSecretVersion : string -> result Secrets.SecretVersion;
    execSync : string -> result string }.

Record GCloudIntegration : Type :=
  { storage : option Storage;
    secretClient : option Secrets.SecretManagerServiceClient;
    projectId : option string }.

Definition fresh : GCloudIntegration :=
  {| storage := None; secretClient := None; projectId := None |}.

Definition isAvailable (this : GCloudIntegration) : bool :=
  bool_decide (is_Some (storage this))
  && bool_decide (is_Some (secretClient this))
  && Js.opt_truthy (projectId this).

Definition set_projectId (p : string) (this : GCloudIntegration) : GCloudIntegration :=
  {| storage := storage this; secretClient := secretClient this; projectId := Some p |}.

Definition set_storage (h : Storage) (this : GCloudIntegration) : GCloudIntegration :=
  {| storage := Some h; secretClient := secretClient this; projectId := projectId this |}.

Definition set_secretClient (h : Secrets.SecretManagerServiceClient)
  (this : GCloudIntegration) : GCloudIntegration :=
  {| storage := storage this; secretClient := Some h; projectId := projectId this |}.

Definition file_summary (file : Js.Value) : result Js.Value :=
  Js.object
    [("name", Js.get file "name");
     ("size", Js.bind (Js.get file "metadata") (fun m => Js.get m "size"));
     ("contentType", Js.bind (Js.get file "metadata") (fun m => Js.get m "contentType"));
     ("created", Js.bind (Js.get file "metadata") (fun m => Js.get m "timeCreated"));
     ("updated", Js.bind (Js.get file "metadata") (fun m => Js.get m "updated"))].

Section Methods.
Context (w : World).

Local Abbreviation Mth := (M Event GCloudIntegration).

Definition storage_not_initialized : Js.Error :=
  Js.error "Google Cloud Storage client not initialized".

Definition secrets_not_initialized : Js.Error :=
  Js.error "Google Cloud Secret Manager client not initialized".

Definition initialize (secretsManager : Secrets.SecretsManager) : Mth bool :=
  match Secrets.getGCloudConfig secretsManager with
  | Some config =>
      if negb (Js.str_truthy (Secrets.projectId config)) then ret false
      else
        (modify (set_projectId (Secrets.projectId config)) ;;
         try_catch
           (s <- external (NewStorage (Secrets.projectId config))
                   (newStorage w (Secrets.projectId config)) ;;
            modify (set_storage s) ;;
            c <- external NewSecretManagerServiceClient
                   (newSecretManagerServiceClient w) ;;
            modify (set_secretClient c) ;;
            ret true)
           (fun error =>
              emit (ConsoleError "Failed to initialize Google Cloud clients:" error) ;;
              ret false))%eff
  | None => ret false
  end.

Definition listBucketContents (args : GCloudStorageListArgs) : Mth Js.Value :=
  (s <- gets storage ;;
   match s with
   | None => throw storage_not_initialized
   | Some _ =>
       let options :=
         Js.Obj [("prefix", Js.of_option Js.Str (prefix args));
                 ("delimiter", Js.of_option Js.Str (delimiter args));
                 ("maxResults", Js.of_option Js.Num (maxResults args))] in
       files <- external (GetFiles (list_bucket args) options)
                  (getFiles w (list_bucket args) options) ;;
       lift (Js.array_map file_summary files)
   end)%eff.

Definition readFile (args : GCloudStorageReadArgs) : Mth string :=
  (s <- gets storage ;;
   match s with
   | None => throw storage_not_initialized
   | Some _ =>
       external (Download (read_bucket args) (read_file args))
         (download w (read_bucket args) (read_file args))
   end)%eff.

Definition writeFile (args : GCloudStorageWriteArgs) : Mth unit :=
  (s <- gets storage ;;
   match s with
   | None => throw storage_not_initialized
   | Some _ =>
       let type := Js.str_or (contentType args) "text/plain" in
       external (Save (write_bucket args) (write_file args) (content args) type)
         (save w (write_bucket args) (write_file args) (content args) type)
   end)%eff.

Definition getSecret (args : GCloudSecretArgs) : Mth string :=
  (this <- get ;;
   match secretClient this, projectId this with
   | Some _, Some p =>
       if negb (Js.str_truthy p) then throw secrets_not_initialized
       else
         let version := Js.str_or (version args) "latest" in
         let name :=
           "projects/" +:+ p +:+ "/secrets/" +:+ secretId args
             +:+ "/versions/" +:+ version in
         secretVersion <- external (AccessSecretVersion name)
                            (accessSecretVersion w name) ;;
         let secretValue := Secrets.payload secretVersion ≫= Secrets.data in
         if Js.opt_truthy secretValue
         then ret (default "" secretValue)
         else throw (Js.error ("Secret " +:+ secretId args +:+ " not found or empty"))
   | _, _ => throw secrets_not_initialized
   end)%eff.

Definition executeGCloudCommand (args : GCloudCommandArgs) : Mth string :=
  try_catch
    (let fullCommand :=
       "gcloud " +:+ command args +:+ " "
         +:+ Js.str_or (Js.join " " <$> GCloud.args args) "" in
     output <- external (ExecSync fullCommand) (execSync w fullCommand) ;;
     ret (Js.trim output))%eff
    (fun error => throw (Js.error ("gcloud command failed: " +:+ Js.message error))).

End Methods.

(** The names of the tools that [getTools] lists. *)
Definition tool_names : list string :=
  ["gcloud_storage_list"; "gcloud_storage_read"; "gcloud_storage_write";
   "gcloud_secret_get"; "gcloud_command"].

End GCloud.

(** ** setup_repos.sh: cloning the project repositories *)

Module SetupRepos.

Definition BASE_URL : string := "https://github.com/anandroid".

(** The words of the array assignment, as the shell splits them: the
    comma written after the fifth name is part of that word. *)
Definition REPOS : list string :=
  ["pulse"; "pulse-ui"; "pulse-apis"; "pulse-type-registry"; "terraform-gcp,"; "n8n-sync"].

Inductive Event : Type :=
| Mkdir (dir : string)
| Cd (dir : string)
| Echo (line : string)
| GitClone (url dir : string).

(** Whether each external command exits with status 0. *)
Record World : Type :=
  { mkdir_p : string -> bool;
    cd : string -> bool;
    git_clone : string -> string -> bool }.

Definition clone_url (repo : string) : string := BASE_URL +:+ "/" +:+ repo +:+ ".git".

(** The [for] loop, run in the target directory whose sub-directories are
    [dirs].  Under [set -e] a failing [git clone] ends the script; a
    successful one creates the directory it was given.  The result is the
    sub-directories at the end, the commands run, and whether the loop
    ran to its end. *)
Fixpoint clone_loop (w : World) (repos : list string) (dirs : gset string)
  : gset string * list Event * bool :=
  match repos with
  | [] => (dirs, [], true)
  | repo :: rest =>
      if bool_decide (repo ∈ dirs) then
        match clone_loop w rest dirs with
        | (dirs', t, ok) =>
            (dirs',
             Echo ("[INFO] " +:+ repo +:+ " already exists, skipping clone")
               :: Echo "" :: t,
             ok)
        end
      else if git_clone w (clone_url repo) repo then
        match clone_loop w rest ({[ repo ]} ∪ dirs) with
        | (dirs', t, ok) =>
            (dirs',
             Echo ("[INFO] Cloning " +:+ repo +:+ "...")
               :: GitClone (clone_url repo) repo :: Echo "" :: t,
             ok)
        end
      else
        (dirs,
         [Echo ("[INFO] Cloning " +:+ repo +:+ "..."); GitClone (clone_url repo) repo],
         false)
  end.

(** The script, given its first argument and the sub-directories of the
    target directory. *)
Definition main (w : World) (arg1 : option string) (dirs : gset string)
  : gset string * list Event * bool :=
  let target_dir :=
    match arg1 with
    | Some (String c s) => String c s
    | _ => "."
    end in
  if negb (mkdir_p w target_dir) then (dirs, [Mkdir target_dir], false)
  else if negb (cd w target_dir) then (dirs, [Mkdir target_dir; Cd target_dir], false)
  else
    match clone_loop w REPOS dirs with
    | (dirs', t, true) =>
        (dirs',
         Mkdir target_dir :: Cd target_dir :: t
           ++ [Echo ("[INFO] All repositories are ready in " +:+ target_dir)],
         true)
    | (dirs', t, false) => (dirs', Mkdir target_dir :: Cd target_dir :: t, false)
    end.

(** The repositories for which [git clone] was run, and those reported as
    skipped, read off the commands. *)
Definition cloned (t : list Event) : list string :=
  omap (fun e => match e with GitClone _ dir => Some dir | _ => None end) t.

Definition clone_urls (t : list Event) : list string :=
  omap (fun e => match e with GitClone url _ => Some url | _ => None end) t.

End SetupRepos.

(** ** setup.sh: cloning with a temporary credential helper *)

Module Setup.

(** What the script can change: the global credential helper of git, the
    temporary files (with their content), and the sub-directories of the
    target directory. *)
Record Machine : Type :=
  { helper : option string;
    files : gmap string string;
    dirs : gset string }.

Inductive Event : Type :=
| EchoError (line : string)
| ConfigGet
| Mktemp
| Write (path content : string)
| ConfigSet (value : string)
| ConfigUnset
| ScriptDir
| Rm (path : string)
| Repos (e : SetupRepos.Event).

(** The environment variables, and whether each external command exits
    with status 0; [mktemp] answers with the path of the file it creates. *)
Record World : Type :=
  { GITHUB_USERNAME : option string;
    GITHUB_TOKEN : option string;
    mktemp : option string;
    write_ok : bool;
    config_set_ok : string -> bool;
    config_unset_ok : bool;
    script_dir_ok : bool;
    rm_ok : bool;
    repos : SetupRepos.World }.

(** [-n] of a variable expanded with an empty default. *)
Definition is_set (v : option string) : bool :=
  match v with
  | Some (String _ _) => true
  | _ => false
  end.

Definition set_helper (h : option string) (m : Machine) : Machine :=
  {| helper := h; files := files m; dirs := dirs m |}.

Definition set_file (path content : string) (m : Machine) : Machine :=
  {| helper := helper m; files := <[ path := content ]> (files m); dirs := dirs m |}.

Definition remove_file (path : string) (m : Machine) : Machine :=
  {| helper := helper m; files := delete path (files m); dirs := dirs m |}.

Definition set_dirs (d : gset string) (m : Machine) : Machine :=
  {| helper := helper m; files := files m; dirs := d |}.

Definition missing_credentials : string :=
  "[ERROR] GITHUB_USERNAME and GITHUB_TOKEN must be set in the environment".

(** The line written to the temporary file. *)
Definition credentials (w : World) : string :=
  "https://" +:+ default "" (GITHUB_USERNAME w) +:+ ":" +:+ default "" (GITHUB_TOKEN w)
    +:+ "@github.com" +:+ String (ascii_of_nat 10) EmptyString.

Definition store_helper (temp : string) : string := "store --file=" +:+ temp.

(** The function [cleanup], run by the [EXIT] trap.  Under [set -e] a
    failing command ends it, and the script then exits with a failure. *)
Definition cleanup (w : World) (original temp : string) (m : Machine)
  : Machine * list Event * bool :=
  let restored :=
    if is_set (Some original) then
      if config_set_ok w original
      then (set_helper (Some original) m, [ConfigSet original], true)
      else (m, [ConfigSet original], false)
    else
      (if config_unset_ok w then set_helper None m else m, [ConfigUnset], true) in
  match restored with
  | (m1, t1, true) =>
      if rm_ok w
      then (remove_file temp m1, t1 ++ [Rm temp], true)
      else (m1, t1 ++ [Rm temp], false)
  | (m1, t1, false) => (m1, t1, false)
  end.

(** The commands between the installation of the trap and the exit. *)
Definition body (w : World) (arg1 : option string) (temp : string) (m : Machine)
  : Machine * list Event * bool :=
  if negb (write_ok w) then (m, [Write temp (credentials w)], false)
  else
    let m1 := set_file temp (credentials w) m in
    if negb (config_set_ok w (store_helper temp))
    then (m1, [Write temp (credentials w); ConfigSet (store_helper temp)], false)
    else
      let m2 := set_helper (Some (store_helper temp)) m1 in
      if negb (script_dir_ok w)
      then (m2, [Write temp (credentials w); ConfigSet (store_helper temp); ScriptDir], false)
      else
        let target :=
          match arg1 with
          | Some (String c s) => String c s
          | _ => "."
          end in
        match SetupRepos.main (repos w) (Some target) (dirs m2) with
        | (dirs', t, ok) =>
            (set_dirs dirs' m2,
             [Write temp (credentials w); ConfigSet (store_helper temp); ScriptDir]
               ++ (Repos <$> t),
             ok)
        end.

(** The script: the final machine, the commands run, and whether it exits
    with status 0. *)
Definition main (w : World) (arg1 : option string) (m : Machine)
  : Machine * list Event * bool :=
  if negb (is_set (GITHUB_USERNAME w)) || negb (is_set (GITHUB_TOKEN w))
  then (m, [EchoError missing_credentials], false)
  else
    let original := default "" (helper m) in
    match mktemp w with
    | None => (m, [ConfigGet; Mktemp], false)
    | Some temp =>
        match body w arg1 temp (set_file temp "" m) with
        | (m2, t2, ok2) =>
            match cleanup w original temp m2 with
            | (m3, t3, ok3) => (m3, [ConfigGet; Mktemp] ++ t2 ++ t3, ok2 && ok3)
            end
        end
    end.

End Setup.

(** * Properties *)

(** ** The computations *)

Module EffFacts.

Section Facts.
Context {E S : Type}.
Implicit Types (s : S).

(** A [try] whose handler cannot raise does not raise. *)
Lemma outcome_try_catch {A} (body : M E S A) (handler : Js.Error -> M E S A) s :
  (forall e s', exists a, outcome (handler e s') = Ok a) ->
  exists a, outcome (try_catch body handler s) = Ok a.
Proof.
  intros Hh. unfold try_catch, outcome in *.
  destruct (body s) as [[s1 t1] [a|e]]; [by exists a|].
  destruct (Hh e s1) as [a Ha].
  destruct (handler e s1) as [[s2 t2] r2]. by exists a.
Qed.
End Facts.

End EffFacts.

(** Unfolds the combinators of a computation. *)
Ltac run :=
  unfold bind, try_catch, gets, get, modify, ret, throw, external, emit, when, lift,
    final_state, trace, outcome in *;
  simpl in *.

(** ** The secrets manager *)

Module SecretsTheory.
Import Secrets.

(** *** Vocabulary of the statements *)

(** The fully qualified name under which a secret is requested. *)
Definition secret_name (p id : string) : string :=
  "projects/" +:+ p +:+ "/secrets/" +:+ id +:+ "/versions/latest".

(** What the managed store yields for a secret: its text, or nothing when
    the request fails or the version carries no data. *)
Definition resolved (w : World) (p id : string) : option string :=
  match accessSecretVersion w (secret_name p id) with
  | Ok v => payload v ≫= data
  | Throw _ => None
  end.

(** What one fetch does to the outside. *)
Definition fetch_trace (w : World) (p id : string) : list Event :=
  AccessSecretVersion (secret_name p id)
    :: match accessSecretVersion w (secret_name p id) with
       | Ok _ => []
       | Throw e => [ConsoleError ("Failed to get secret " +:+ id +:+ ":") e]
       end.

(** The names requested from the managed store, in order. *)
Definition requested (t : list Event) : list string :=
  omap (fun e => match e with AccessSecretVersion n => Some n | _ => None end) t.

(** The managed-store stage, given the project it reads from. *)
Definition store_fill (w : World) (p : string) (this : SecretsManager) : SecretsManager :=
  let this1 :=
    match resolved w p "supabase-url", resolved w p "supabase-anon-key" with
    | Some u, Some k =>
        if Js.str_truthy u && Js.str_truthy k
        then set_supabase
               {| url := u; anonKey := k;
                  serviceRoleKey := resolved w p "supabase-service-role-key" |} this
        else this
    | _, _ => this
    end in
  match resolved w p "github-token" with
  | Some t => if Js.str_truthy t then set_github {| token := t |} this1 else this1
  | None => this1
  end.

Definition store_trace (w : World) (p : string) : list Event :=
  fetch_trace w p "supabase-url" ++ fetch_trace w p "supabase-anon-key"
    ++ fetch_trace w p "supabase-service-role-key" ++ fetch_trace w p "github-token".

Definition token_command : string :=
  "gcloud auth application-default print-access-token 2>/dev/null".

(** The local-CLI stage. *)
Definition cli_fill (w : World) (this : SecretsManager) : SecretsManager :=
  match execSync w token_command with
  | Ok out =>
      if Js.str_truthy (Js.trim out) && negb (Js.opt_truthy (getGitHubToken this))
      then set_github {| token := Js.trim out |} this
      else this
  | Throw _ => this
  end.

(** The environment stage: its three steps. *)
Definition env_supabase (w : World) (this : SecretsManager) : SecretsManager :=
  match env w !! "SUPABASE_URL" with
  | Some e =>
      if negb (Js.opt_truthy (url <$> supabase (secrets this))) && Js.str_truthy e
      then set_supabase
             {| url := e;
                anonKey := Js.str_or (env w !! "SUPABASE_ANON_KEY") "";
                serviceRoleKey := env w !! "SUPABASE_SERVICE_ROLE_KEY" |} this
      else this
  | None => this
  end.

Definition env_github (w : World) (this : SecretsManager) : SecretsManager :=
  match env w !! "GITHUB_TOKEN" with
  | Some e =>
      if negb (Js.opt_truthy (token <$> github (secrets this))) && Js.str_truthy e
      then set_github {| token := e |} this
      else this
  | None => this
  end.

Definition env_gcloud (w : World) (this : SecretsManager) : SecretsManager :=
  match env w !! "GCLOUD_PROJECT" with
  | Some e =>
      if negb (Js.opt_truthy (projectId <$> gcloud (secrets this))) && Js.str_truthy e
      then set_gcloud
             {| projectId := e;
                applicationCredentials :=
                  gcloud (secrets this) ≫= applicationCredentials |} this
      else this
  | None => this
  end.

Definition env_fill (w : World) (this : SecretsManager) : SecretsManager :=
  env_gcloud w (env_github w (env_supabase w this)).

(** Whether [loadSecrets] enters the managed-store stage. *)
Definition store_enabled (this : SecretsManager) : bool :=
  bool_decide (is_Some (secretClient this))
  && Js.opt_truthy (projectId <$> gcloud (secrets this)).

Definition after_store (w : World) (this : SecretsManager) : SecretsManager :=
  if store_enabled this then final_state (loadFromSecretManager w this) else this.

Definition after_cli (w : World) (this : SecretsManager) : SecretsManager :=
  cli_fill w (after_store w this).

Definition after_env (w : World) (this : SecretsManager) : SecretsManager :=
  env_fill w (after_cli w this).

(** The credential fields of the snapshot. *)
Inductive Field : Type :=
| Url | AnonKey | ServiceRoleKey | Token | ProjectId | ApplicationCredentials.

(** The value of a field, when it is set. *)
Definition field (f : Field) (this : SecretsManager) : option string :=
  match f with
  | Url => url <$> supabase (secrets this)
  | AnonKey => anonKey <$> supabase (secrets this)
  | ServiceRoleKey => supabase (secrets this) ≫= serviceRoleKey
  | Token => token <$> github (secrets this)
  | ProjectId => projectId <$> gcloud (secrets this)
  | ApplicationCredentials => gcloud (secrets this) ≫= applicationCredentials
  end.

(** Every sub-record that is present has a non-empty key field: the
    constructor establishes this and every stage keeps it. *)
Definition well_formed (this : SecretsManager) : bool :=
  match supabase (secrets this) with Some c => Js.str_truthy (url c) | None => true end
  && match github (secrets this) with Some c => Js.str_truthy (token c) | None => true end
  && match gcloud (secrets this) with Some c => Js.str_truthy (projectId c) | None => true end.

Definition version_of (text : string) : SecretVersion :=
  {| payload := Some {| data := Some text |} |}.

Definition newline : string := String (ascii_of_nat 10) EmptyString.

(** No cloud CLI, no managed store; the given environment. *)
Definition world_without_cli (variables : gmap string string) : World :=
  {| execSync := fun _ => Throw (Js.error "gcloud: command not found");
     existsSync := fun _ => Throw (Js.TypeError "fs.existsSync is not a function");
     newSecretManagerServiceClient := Ok SecretClient;
     accessSecretVersion := fun _ => Throw (Js.error "5 NOT_FOUND");
     env := variables |}.

(** A cloud CLI configured for project demo, with no default credentials
    and no access token; the given managed store and environment. *)
Definition world_with_store (store : gmap string string) (variables : gmap string string)
  : World :=
  {| execSync := fun c =>
       if decide (c = "gcloud config get-value project") then Ok ("demo" +:+ newline)
       else if decide (c = adc_path_command) then Ok newline
       else Throw (Js.error "Command failed");
     existsSync := fun _ => Throw (Js.TypeError "fs.existsSync is not a function");
     newSecretManagerServiceClient := Ok SecretClient;
     accessSecretVersion := fun n =>
       match store !! n with
       | Some text => Ok (version_of text)
       | None => Throw (Js.error "5 NOT_FOUND")
       end;
     env := variables |}.

(** The store holds the database URL and public key; the environment
    names another database. *)
Definition world_store_and_env : World :=
  world_with_store
    {[ "projects/demo/secrets/supabase-url/versions/latest" := "https://store.example";
       "projects/demo/secrets/supabase-anon-key/versions/latest" := "store-key" ]}
    {[ "SUPABASE_URL" := "https://env.example";
       "SUPABASE_ANON_KEY" := "env-key";
       "GITHUB_TOKEN" := "env-token" ]}.

(** The store holds only the source-hosting token: the three database
    secrets fail to resolve. *)
Definition world_token_only : World :=
  world_with_store
    {[ "projects/demo/secrets/github-token/versions/latest" := "store-token" ]} ∅.

Definition demo_project : GCloudSecrets :=
  {| projectId := "demo"; applicationCredentials := None |}.

(** What the constructor leaves in the worlds with a store. *)
Definition constructed_demo : SecretsManager :=
  {| secrets := {| supabase := None; github := None; gcloud := Some demo_project |};
     secretClient := Some SecretClient |}.

(** Whether a failure was caught and written to the console. *)
Definition logged (t : list Event) : bool :=
  existsb (fun e => match e with ConsoleError _ _ => true | _ => false end) t.


(** A world with no cloud CLI whose environment gives the database URL
    and no public key. *)
Definition world_url_only : World :=
  world_without_cli {[ "SUPABASE_URL" := "https://db.example" ]}.

(** *** Lemmas and claims *)

Lemma getSecret_run w p id this c :
  secretClient this = Some c ->
  getSecret w p id this = (this, fetch_trace w p id, Ok (resolved w p id)).
Proof.
  intros Hc. unfold getSecret, fetch_trace, resolved, secret_name. run.
  rewrite Hc. destruct (accessSecretVersion w _); reflexivity.
Qed.


#[local] Arguments getSecret : simpl never.

Lemma loadFromSecretManager_run w this c g :
  secretClient this = Some c ->
  gcloud (secrets this) = Some g ->
  loadFromSecretManager w this
  = (store_fill w (projectId g) this, store_trace w (projectId g), Ok tt).
Proof.
  intros Hc Hg.
  unfold loadFromSecretManager, store_fill, store_trace, try_catch, bind, gets. simpl.
  rewrite Hg. simpl.
  rewrite !(getSecret_run w _ _ this c Hc).
  destruct (resolved w (projectId g) "supabase-url") as [u|];
    destruct (resolved w (projectId g) "supabase-anon-key") as [k|]; simpl;
    try destruct (Js.str_truthy u); try destruct (Js.str_truthy k); simpl;
    (erewrite getSecret_run by (simpl; eassumption));
    destruct (resolved w (projectId g) "github-token") as [t|]; simpl;
    try destruct (Js.str_truthy t); simpl;
    rewrite ?app_nil_r, <- ?app_assoc; reflexivity.
Qed.

(** Closes [outcome (try_catch body handler s) = Ok tt] when the handler
    only logs or returns. *)
Ltac absorbed :=
  match goal with
  | |- outcome (try_catch ?b ?h ?s) = Ok tt =>
      let H := fresh in
      destruct (EffFacts.outcome_try_catch b h s) as [[] H];
      [intros ? ?; by exists tt | exact H]
  end.


Lemma loadFromSecretManager_ok w this : outcome (loadFromSecretManager w this) = Ok tt.
Proof. unfold loadFromSecretManager. absorbed. Qed.

Lemma loadFromGCloudConfig_ok w this : outcome (loadFromGCloudConfig w this) = Ok tt.
Proof. unfold loadFromGCloudConfig. absorbed. Qed.

Lemma loadFromGCloudConfig_run w this :
  loadFromGCloudConfig w this
  = (cli_fill w this, [ExecSync token_command], Ok tt).
Proof.
  unfold loadFromGCloudConfig, cli_fill, getGitHubToken, exec, token_command. run.
  destruct (execSync w _) as [out|e]; simpl; [|reflexivity].
  destruct (Js.str_truthy (Js.trim out) && _); reflexivity.
Qed.

Lemma loadFromEnvironment_run w this :
  loadFromEnvironment w this = (env_fill w this, [], Ok tt).
Proof.
  unfold loadFromEnvironment, env_fill, env_gcloud, env_github, env_supabase. run.
  destruct (env w !! "SUPABASE_URL") as [e1|]; [destruct (negb _ && _)|]; simpl;
    (destruct (env w !! "GITHUB_TOKEN") as [e2|]; [destruct (negb _ && _)|]); simpl;
    (destruct (env w !! "GCLOUD_PROJECT") as [e3|]; [destruct (negb _ && _)|]); simpl;
    reflexivity.
Qed.

Lemma loadSecrets_run w this :
  loadSecrets w this
  = (after_env w this,
     (if store_enabled this then trace (loadFromSecretManager w this) else [])
       ++ [ExecSync token_command],
     Ok tt).
Proof.
  unfold loadSecrets, after_env, after_cli, after_store, store_enabled.
  unfold bind at 1. unfold get at 1. unfold bind at 1.
  unfold when.
  destruct (bool_decide (is_Some (secretClient this)) && _).
  - pose proof (loadFromSecretManager_ok w this) as Hok.
    destruct (loadFromSecretManager w this) as [[s1 t1] r1] eqn:E1.
    unfold outcome in Hok. simpl in Hok. subst r1.
    unfold bind at 1. rewrite loadFromGCloudConfig_run.
    rewrite loadFromEnvironment_run. simpl. rewrite ?app_nil_r. reflexivity.
  - unfold ret at 1. unfold bind at 1. rewrite loadFromGCloudConfig_run.
    rewrite loadFromEnvironment_run. reflexivity.
Qed.

(** Splits [this] and the invariant into their parts. *)
Ltac open_fields this H :=
  destruct this as [[[[u k sk]|] [[tk]|] [[pj ac]|]] cl];
  unfold well_formed in H; simpl in H;
  repeat (apply andb_prop in H; destruct H as [H ?]).

(** Rewrites with the non-emptiness facts at hand. *)
Ltac use_truthy :=
  repeat match goal with
         | Ht : Js.str_truthy _ = true |- _ => rewrite Ht; clear Ht
         end.

Lemma fresh_well_formed : well_formed fresh = true.
Proof. reflexivity. Qed.

Lemma initializeGCloud_well_formed w : well_formed (final_state (constructor w fresh)) = true.
Proof.
  unfold constructor, initializeGCloud, exec, fresh, set_applicationCredentials. run.
  destruct (execSync w "gcloud config get-value project") as [out|e]; [|reflexivity].
  simpl. destruct (Js.str_truthy (Js.trim out)) eqn:Hp; [|reflexivity]. simpl.
  destruct (execSync w adc_path_command) as [out2|e]; simpl.
  2: { unfold well_formed. simpl. by rewrite Hp. }
  destruct (Js.str_truthy (Js.trim out2)); simpl.
  - destruct (existsSync w _) as [[]|]; simpl;
      try destruct (newSecretManagerServiceClient w); simpl;
      unfold well_formed; simpl; by rewrite Hp.
  - destruct (newSecretManagerServiceClient w); simpl;
      unfold well_formed; simpl; by rewrite Hp.
Qed.

Lemma store_fill_well_formed w p this :
  well_formed this = true -> well_formed (store_fill w p this) = true.
Proof.
  intros H. unfold store_fill.
  destruct (resolved w p "supabase-url") as [u'|];
    destruct (resolved w p "supabase-anon-key") as [k'|];
    try destruct (Js.str_truthy u') eqn:Hu; try destruct (Js.str_truthy k') eqn:Hk;
    destruct (resolved w p "github-token") as [t'|];
    try destruct (Js.str_truthy t') eqn:Ht; simpl;
    open_fields this H; unfold well_formed; simpl;
    rewrite ?Hu, ?Ht; simpl; by repeat (apply andb_true_intro; split).
Qed.

Lemma after_store_well_formed w this :
  well_formed this = true -> well_formed (after_store w this) = true.
Proof.
  intros H. unfold after_store, store_enabled.
  destruct (secretClient this) as [c|] eqn:Hc; [|done].
  destruct (gcloud (secrets this)) as [g|] eqn:Hg; [|done].
  destruct (_ && _); [|done].
  rewrite (loadFromSecretManager_run w this c g Hc Hg). simpl.
  by apply store_fill_well_formed.
Qed.

Lemma cli_fill_well_formed w this :
  well_formed this = true -> well_formed (cli_fill w this) = true.
Proof.
  intros H. unfold cli_fill.
  destruct (execSync w token_command) as [out|]; [|done].
  destruct (Js.str_truthy (Js.trim out)) eqn:Ht; [|done].
  destruct (negb _); [|done]. simpl.
  open_fields this H; unfold well_formed; simpl; rewrite ?Ht; simpl;
    by repeat (apply andb_true_intro; split).
Qed.

(** The local-CLI stage changes no field that is set. *)
Lemma cli_fill_keeps w this f v :
  well_formed this = true ->
  field f this = Some v -> field f (cli_fill w this) = Some v.
Proof.
  intros H Hf. unfold cli_fill, getGitHubToken.
  destruct (execSync w token_command) as [out|]; [|done].
  destruct (Js.str_truthy (Js.trim out)); [|done].
  open_fields this H; simpl in *; use_truthy; simpl;
    destruct f; simpl in *; done.
Qed.

(** The environment stage changes no field that is set. *)
Lemma env_supabase_keeps w this f v :
  well_formed this = true ->
  field f this = Some v -> field f (env_supabase w this) = Some v.
Proof.
  intros H Hf. unfold env_supabase.
  destruct (env w !! "SUPABASE_URL") as [e|]; [|done].
  open_fields this H; simpl in *; use_truthy; simpl; try done;
    (destruct (Js.str_truthy e); [|done]); destruct f; simpl in *; done.
Qed.

Lemma env_github_keeps w this f v :
  well_formed this = true ->
  field f this = Some v -> field f (env_github w this) = Some v.
Proof.
  intros H Hf. unfold env_github.
  destruct (env w !! "GITHUB_TOKEN") as [e|]; [|done].
  open_fields this H; simpl in *; use_truthy; simpl; try done;
    (destruct (Js.str_truthy e); [|done]); destruct f; simpl in *; done.
Qed.

Lemma env_gcloud_keeps w this f v :
  well_formed this = true ->
  field f this = Some v -> field f (env_gcloud w this) = Some v.
Proof.
  intros H Hf. unfold env_gcloud.
  destruct (env w !! "GCLOUD_PROJECT") as [e|]; [|done].
  open_fields this H; simpl in *; use_truthy; simpl; try done;
    (destruct (Js.str_truthy e); [|done]); destruct f; simpl in *; done.
Qed.

Lemma env_supabase_well_formed w this :
  well_formed this = true -> well_formed (env_supabase w this) = true.
Proof.
  intros H. unfold env_supabase.
  destruct (env w !! "SUPABASE_URL") as [e|]; [|done].
  destruct (negb _); [|done]. simpl.
  destruct (Js.str_truthy e) eqn:He; [|done].
  open_fields this H; unfold well_formed; simpl; use_truthy; done.
Qed.

Lemma env_github_well_formed w this :
  well_formed this = true -> well_formed (env_github w this) = true.
Proof.
  intros H. unfold env_github.
  destruct (env w !! "GITHUB_TOKEN") as [e|]; [|done].
  destruct (negb _); [|done]. simpl.
  destruct (Js.str_truthy e) eqn:He; [|done].
  open_fields this H; unfold well_formed; simpl; use_truthy; done.
Qed.

Lemma env_gcloud_well_formed w this :
  well_formed this = true -> well_formed (env_gcloud w this) = true.
Proof.
  intros H. unfold env_gcloud.
  destruct (env w !! "GCLOUD_PROJECT") as [e|]; [|done].
  destruct (negb _); [|done]. simpl.
  destruct (Js.str_truthy e) eqn:He; [|done].
  open_fields this H; unfold well_formed; simpl; use_truthy; done.
Qed.

Lemma env_fill_keeps w this f v :
  well_formed this = true ->
  field f this = Some v -> field f (env_fill w this) = Some v.
Proof.
  intros H Hf. unfold env_fill.
  apply env_gcloud_keeps;
    [by apply env_github_well_formed, env_supabase_well_formed|].
  apply env_github_keeps; [by apply env_supabase_well_formed|].
  by apply env_supabase_keeps.
Qed.

Lemma env_fill_well_formed w this :
  well_formed this = true -> well_formed (env_fill w this) = true.
Proof.
  intros H. by apply env_gcloud_well_formed, env_github_well_formed,
    env_supabase_well_formed.
Qed.

Lemma constructed_store_and_env :
  final_state (constructor world_store_and_env fresh) = constructed_demo.
Proof. vm_compute. reflexivity. Qed.

(** C1.  When the managed-store stage resolved both the database URL and
    the public key (each a non-empty text), the database record holds
    these two values after that stage, the environment stage leaves a
    record holding them as it is, and [getSupabaseConfig] returns them
    after the whole load: whatever the environment variables say. *)
Theorem store_database_survives_env (w : World) (this : SecretsManager) c g u k :
  secretClient this = Some c ->
  gcloud (secrets this) = Some g ->
  Js.str_truthy (projectId g) = true ->
  resolved w (projectId g) "supabase-url" = Some u -> Js.str_truthy u = true ->
  resolved w (projectId g) "supabase-anon-key" = Some k -> Js.str_truthy k = true ->
  let stored :=
    {| url := u; anonKey := k;
       serviceRoleKey := resolved w (projectId g) "supabase-service-role-key" |} in
  getSupabaseConfig (final_state (loadFromSecretManager w this)) = Some stored
  /\ (forall this',
        getSupabaseConfig this' = Some stored ->
        getSupabaseConfig (final_state (loadFromEnvironment w this')) = Some stored)
  /\ getSupabaseConfig (final_state (loadSecrets w this)) = Some stored.
Proof.
  intros Hc Hg Hp Hu Hut Hk Hkt stored.
  assert (Henv : forall this',
             getSupabaseConfig this' = Some stored ->
             getSupabaseConfig (env_fill w this') = Some stored).
  { intros [[sb gh gc] cl]. unfold getSupabaseConfig. simpl. intros ->.
    unfold env_fill, env_gcloud, env_github, env_supabase. simpl. rewrite Hut. simpl.
    destruct (env w !! "SUPABASE_URL"); simpl;
      (destruct (env w !! "GITHUB_TOKEN"); simpl; [destruct (negb _ && _)|]); simpl;
      (destruct (env w !! "GCLOUD_PROJECT"); simpl; [destruct (negb _ && _)|]);
      reflexivity. }
  assert (Hstore : getSupabaseConfig (store_fill w (projectId g) this) = Some stored).
  { unfold store_fill. rewrite Hu, Hk, Hut, Hkt. simpl.
    destruct (resolved w (projectId g) "github-token") as [t|];
      [destruct (Js.str_truthy t)|]; reflexivity. }
  split; [|split].
  - rewrite (loadFromSecretManager_run w this c g Hc Hg). exact Hstore.
  - intros this' H. rewrite loadFromEnvironment_run. by apply Henv.
  - rewrite loadSecrets_run. simpl. unfold after_env. apply Henv.
    unfold after_cli, after_store, store_enabled. rewrite Hc, Hg. simpl. rewrite Hp.
    rewrite (loadFromSecretManager_run w this c g Hc Hg). simpl.
    unfold cli_fill. destruct (execSync w token_command) as [out|]; [|exact Hstore].
    destruct (_ && _); exact Hstore.
Qed.

Lemma store_database_survives_env_witness :
  env world_store_and_env !! "SUPABASE_URL" = Some "https://env.example"
  /\ env world_store_and_env !! "SUPABASE_ANON_KEY" = Some "env-key"
  /\ getSupabaseConfig (final_state (loadSecrets world_store_and_env constructed_demo))
     = Some {| url := "https://store.example"; anonKey := "store-key";
               serviceRoleKey := None |}.
Proof.
  split; [reflexivity|]. split; [reflexivity|].
  exact (proj2 (proj2
    (store_database_survives_env world_store_and_env constructed_demo
       SecretClient demo_project "https://store.example" "store-key"
       eq_refl eq_refl eq_refl eq_refl eq_refl eq_refl eq_refl))).
Defined.

(** C3.  Starting from a snapshot that satisfies the invariant (as the
    constructor leaves it), let [s1], [s2] and [s3] be the fields after
    the managed-store stage, the local-CLI stage and the environment
    stage of [loadSecrets].  A field that is set after an earlier stage
    has the same value after every later stage: a later stage changes
    only fields that are still unset. *)
Theorem later_stages_only_fill_gaps (w : World) (this : SecretsManager) :
  well_formed this = true ->
  let s1 := final_state (when (store_enabled this) (loadFromSecretManager w) this) in
  let s2 := final_state (loadFromGCloudConfig w s1) in
  let s3 := final_state (loadFromEnvironment w s2) in
  final_state (loadSecrets w this) = s3
  /\ forall (f : Field) (v : string),
      (field f s1 = Some v -> field f s2 = Some v /\ field f s3 = Some v)
      /\ (field f s2 = Some v -> field f s3 = Some v).
Proof.
  intros Hwf s1 s2 s3.
  assert (E1 : s1 = after_store w this).
  { unfold s1, after_store, when. by destruct (store_enabled this). }
  assert (E2 : s2 = after_cli w this).
  { unfold s2. rewrite loadFromGCloudConfig_run, E1. reflexivity. }
  assert (E3 : s3 = after_env w this).
  { unfold s3. rewrite loadFromEnvironment_run, E2. reflexivity. }
  split; [rewrite loadSecrets_run; by rewrite E3|].
  pose proof (after_store_well_formed w this Hwf) as Hwf1.
  pose proof (cli_fill_well_formed w _ Hwf1) as Hwf2.
  intros f v. rewrite E1, E2, E3. unfold after_env, after_cli.
  split.
  - intros H1. pose proof (cli_fill_keeps w _ f v Hwf1 H1) as H2.
    split; [exact H2|]. by apply env_fill_keeps.
  - intros H2. by apply env_fill_keeps.
Qed.

Lemma later_stages_only_fill_gaps_witness :
  field Url (final_state (loadFromSecretManager world_store_and_env constructed_demo))
  = Some "https://store.example"
  /\ field Url (final_state (loadSecrets world_store_and_env constructed_demo))
     = Some "https://store.example"
  /\ field Token (final_state (loadFromSecretManager world_store_and_env constructed_demo))
     = None
  /\ field Token (final_state (loadSecrets world_store_and_env constructed_demo))
     = Some "env-token".
Proof.
  destruct (later_stages_only_fill_gaps world_store_and_env constructed_demo eq_refl)
    as [Hfinal Hkeep].
  destruct (Hkeep Url "https://store.example") as [H1 _].
  split; [reflexivity|]. split.
  - rewrite Hfinal. exact (proj2 (H1 eq_refl)).
  - split; reflexivity.
Defined.

(** C5.  In the managed-store stage, entered with a store handle and a
    project, all four secrets are requested, in order, whichever of the
    requests fail, and the stage returns normally.  A request that fails
    is caught inside its own fetch, which logs and returns nothing.  The
    token is stored as soon as its own request resolved, and the database
    record as soon as the URL and the public key resolved, whatever
    happened to the other requests. *)
Theorem sibling_fetches_are_independent (w : World) (this : SecretsManager) c g :
  secretClient this = Some c ->
  gcloud (secrets this) = Some g ->
  let p := projectId g in
  let r := loadFromSecretManager w this in
  requested (trace r)
  = [secret_name p "supabase-url"; secret_name p "supabase-anon-key";
     secret_name p "supabase-service-role-key"; secret_name p "github-token"]
  /\ outcome r = Ok tt
  /\ (forall id e,
        accessSecretVersion w (secret_name p id) = Throw e ->
        getSecret w p id this
        = (this,
           [AccessSecretVersion (secret_name p id);
            ConsoleError ("Failed to get secret " +:+ id +:+ ":") e],
           Ok None))
  /\ (forall t,
        resolved w p "github-token" = Some t -> Js.str_truthy t = true ->
        getGitHubToken (final_state r) = Some t)
  /\ (forall u k,
        resolved w p "supabase-url" = Some u -> Js.str_truthy u = true ->
        resolved w p "supabase-anon-key" = Some k -> Js.str_truthy k = true ->
        getSupabaseConfig (final_state r)
        = Some {| url := u; anonKey := k;
                  serviceRoleKey := resolved w p "supabase-service-role-key" |}).
Proof.
  intros Hc Hg p r. unfold r. rewrite (loadFromSecretManager_run w this c g Hc Hg).
  fold p. simpl. repeat split.
  - unfold store_trace, fetch_trace, requested.
    destruct (accessSecretVersion w (secret_name p "supabase-url"));
      destruct (accessSecretVersion w (secret_name p "supabase-anon-key"));
      destruct (accessSecretVersion w (secret_name p "supabase-service-role-key"));
      destruct (accessSecretVersion w (secret_name p "github-token")); reflexivity.
  - intros id e He. rewrite (getSecret_run w p id this c Hc).
    unfold fetch_trace, resolved. rewrite He. reflexivity.
  - intros t Ht Htt. unfold store_fill, getGitHubToken. rewrite Ht, Htt.
    reflexivity.
  - intros u k Hu Hut Hk Hkt. unfold store_fill. rewrite Hu, Hk, Hut, Hkt. simpl.
    destruct (resolved w p "github-token") as [t|];
      [destruct (Js.str_truthy t)|]; reflexivity.
Qed.

Lemma sibling_fetches_are_independent_witness :
  resolved world_token_only "demo" "supabase-url" = None
  /\ resolved world_token_only "demo" "supabase-anon-key" = None
  /\ resolved world_token_only "demo" "supabase-service-role-key" = None
  /\ getGitHubToken (final_state (loadFromSecretManager world_token_only constructed_demo))
     = Some "store-token".
Proof.
  repeat (split; [reflexivity|]).
  destruct (sibling_fetches_are_independent world_token_only constructed_demo
              SecretClient demo_project eq_refl eq_refl) as (_ & _ & _ & Htoken & _).
  exact (Htoken "store-token" eq_refl eq_refl).
Defined.

Lemma loadSecrets_well_formed w this :
  well_formed this = true -> well_formed (final_state (loadSecrets w this)) = true.
Proof.
  intros H. rewrite loadSecrets_run. simpl.
  by apply env_fill_well_formed, cli_fill_well_formed, after_store_well_formed.
Qed.




(** C8, as the code has it.  When the environment stage populates the
    database record from the URL variable while the public-key variable
    is absent, the record holds the URL and an empty public key, and
    [hasSupabase] returns false: it requires both to be non-empty. *)
Theorem env_database_without_key_is_unavailable (w : World) (this : SecretsManager) e :
  Js.opt_truthy (url <$> supabase (secrets this)) = false ->
  env w !! "SUPABASE_URL" = Some e -> Js.str_truthy e = true ->
  env w !! "SUPABASE_ANON_KEY" = None ->
  let this' := final_state (loadFromEnvironment w this) in
  getSupabaseConfig this'
  = Some {| url := e; anonKey := "";
            serviceRoleKey := env w !! "SUPABASE_SERVICE_ROLE_KEY" |}
  /\ hasSupabase this' = false.
Proof.
  intros Hunset He Het Hk this'. unfold this'.
  rewrite loadFromEnvironment_run. simpl.
  unfold env_fill, env_gcloud, env_github, env_supabase.
  rewrite He, Hk, Hunset, Het. simpl.
  destruct (env w !! "GITHUB_TOKEN"); simpl; [destruct (negb _ && _)|]; simpl;
    (destruct (env w !! "GCLOUD_PROJECT"); simpl; [destruct (negb _ && _)|]); simpl;
    unfold hasSupabase; simpl; rewrite Het; done.
Qed.

Lemma env_database_without_key_is_unavailable_witness :
  getSupabaseConfig (final_state (loadFromEnvironment world_url_only fresh))
  = Some {| url := "https://db.example"; anonKey := ""; serviceRoleKey := None |}
  /\ hasSupabase (final_state (loadFromEnvironment world_url_only fresh)) = false.
Proof.
  exact (env_database_without_key_is_unavailable world_url_only fresh
           "https://db.example" eq_refl eq_refl eq_refl eq_refl).
Defined.

(** C8 as the specification words it fails: with the URL variable set and
    the public-key variable absent, after construction and load the
    database record was populated from the environment with an empty
    public key, and [hasSupabase] is false, not true. *)
Lemma env_database_without_key_counterexample :
  env world_url_only !! "SUPABASE_URL" = Some "https://db.example"
  /\ env world_url_only !! "SUPABASE_ANON_KEY" = None
  /\ getSupabaseConfig
       (final_state (loadSecrets world_url_only
                       (final_state (constructor world_url_only fresh))))
     = Some {| url := "https://db.example"; anonKey := ""; serviceRoleKey := None |}
  /\ hasSupabase
       (final_state (loadSecrets world_url_only
                       (final_state (constructor world_url_only fresh))))
     = false.
Proof. repeat split. Qed.

End SecretsTheory.

(** ** The database adapter *)

Module SupabaseTheory.
Import Supabase.

(** *** Vocabulary of the statements *)

(** The operator tags that the [switch] of [query] has a case for. *)
Definition supported : list string :=
  ["eq"; "neq"; "gt"; "gte"; "lt"; "lte"; "like"; "ilike"; "in"].

(** A tag the [switch] has no case for: any value but a supported text. *)
Definition unsupported (operator : Js.Value) : Prop :=
  forall op, operator = Js.Str op -> op ∉ supported.

(** The builder calls that a list of filter entries adds to a query. *)
Definition predicates (entries : list (string * Js.Value)) : Query :=
  fold_left apply_filter entries [].

(** The builder calls that open a query, and those that follow its
    filters. *)
Definition opening (args : SupabaseQueryArgs) : Query :=
  [From (table args); Select (Js.str_or (select args) "*")].

Definition ordering (args : SupabaseQueryArgs) : Query :=
  match orderBy args with
  | Some o => [Order (column o) (default true (ascending o))]
  | None => []
  end.

Definition limiting (args : SupabaseQueryArgs) : Query :=
  match limit args with
  | Some n => if Js.num_truthy n then [Limit n] else []
  | None => []
  end.

Definition with_filter (entries : list (string * Js.Value)) (args : SupabaseQueryArgs)
  : SupabaseQueryArgs :=
  {| table := table args; select := select args; filter := Some entries;
     limit := limit args; orderBy := orderBy args |}.

Definition with_limit (n : option float) (args : SupabaseQueryArgs) : SupabaseQueryArgs :=
  {| table := table args; select := select args; filter := filter args;
     limit := n; orderBy := orderBy args |}.

(** The arguments of a query on table [players] with no selection, order
    or limit. *)
Definition players : SupabaseQueryArgs :=
  {| table := "players"; select := None; filter := None; limit := None; orderBy := None |}.

Definition tag (operator : string) (v : Js.Value) : list (string * Js.Value) :=
  [("operator", Js.Str operator); ("value", v)].

(** *** Lemmas and claims *)

Lemma apply_filter_app q1 q2 entry :
  apply_filter (q1 ++ q2) entry = q1 ++ apply_filter q2 entry.
Proof.
  destruct entry as [key value]. unfold apply_filter, call.
  destruct value; simpl; try (by rewrite app_assoc);
    repeat case_match; by rewrite ?app_assoc.
Qed.

Lemma fold_apply_filter_app entries q1 q2 :
  fold_left apply_filter entries (q1 ++ q2) = q1 ++ fold_left apply_filter entries q2.
Proof.
  revert q2. induction entries as [|entry entries IH]; intros q2; simpl; [done|].
  by rewrite apply_filter_app, IH.
Qed.

Lemma fold_apply_filter entries q :
  fold_left apply_filter entries q = q ++ predicates entries.
Proof.
  unfold predicates. rewrite <- fold_apply_filter_app. by rewrite app_nil_r.
Qed.

Lemma predicates_cons entry entries :
  predicates (entry :: entries) = apply_filter [] entry ++ predicates entries.
Proof. unfold predicates at 1. simpl. apply fold_apply_filter. Qed.

Lemma predicates_app before after :
  predicates (before ++ after) = predicates before ++ predicates after.
Proof.
  unfold predicates at 1. rewrite fold_left_app.
  fold (predicates before). apply fold_apply_filter.
Qed.

(** The filters are applied one entry after the other, in the order of the
    entries, between the opening calls and the ordering and limit. *)
Lemma build_query_shape args :
  build_query args
  = opening args ++ predicates (default [] (filter args)) ++ ordering args ++ limiting args.
Proof.
  unfold build_query, opening, ordering, limiting, call. simpl.
  destruct (filter args) as [entries|]; simpl;
    rewrite ?fold_apply_filter;
    destruct (orderBy args) as [o|]; destruct (limit args) as [n|];
    try destruct (Js.num_truthy n); simpl; rewrite <- ?app_assoc; simpl;
    rewrite ?app_nil_r; reflexivity.
Qed.

Lemma operator_call_unsupported operator key v :
  unsupported operator -> operator_call operator key v = None.
Proof.
  intros H. unfold operator_call. destruct operator as [| |b|x|op|l|l]; try done.
  specialize (H op eq_refl). unfold supported in H.
  repeat (case_decide as E;
          [exfalso; apply H; rewrite E;
           repeat (first [apply list_elem_of_here | apply list_elem_of_further])
          |clear E]).
  reflexivity.
Qed.

Lemma query_sends w args this c :
  client this = Some c ->
  trace (query w args this) = [Send (build_query args)].
Proof.
  intros Hc. unfold query, unwrap. run. rewrite Hc.
  destruct (send w (build_query args)) as [r|e]; [destruct (error r)|]; reflexivity.
Qed.

(** C6.  For a filter map whose entries are [before], then [key] with an
    object value, then [after]: when the object is tagged with operator
    gte, the built query carries, between the predicates of [before] and
    those of [after], a greater-or-equal predicate on [key] with the
    tagged value; when the object carries a tag (a truthy [operator]
    property, as the code tests it) for which the [switch] has no case,
    the entry adds no predicate, and the built query is the one built
    from the other entries alone; when the [operator] property of the
    object is missing or not truthy, the object is not taken as tagged,
    and [key] is compared by equality with the whole object. *)
Theorem operator_tagged_filters (args : SupabaseQueryArgs)
    (before after : list (string * Js.Value)) (key : string)
    (fields : list (string * Js.Value)) :
  let value := Js.Obj fields in
  let built := build_query (with_filter (before ++ (key, value) :: after) args) in
  (Js.prop value "operator" = Js.Str "gte" ->
   built = opening args ++ predicates before
             ++ [Gte key (Js.prop value "value")]
             ++ predicates after ++ ordering args ++ limiting args)
  /\ (Js.truthy (Js.prop value "operator") = true ->
      unsupported (Js.prop value "operator") ->
      built = opening args ++ predicates before
                ++ predicates after ++ ordering args ++ limiting args
      /\ built = build_query (with_filter (before ++ after) args))
  /\ (Js.truthy (Js.prop value "operator") = false ->
      built = opening args ++ predicates before
                ++ [Eq key value]
                ++ predicates after ++ ordering args ++ limiting args).
Proof.
  intros value built. subst built value. rewrite !build_query_shape. simpl.
  rewrite !predicates_app, predicates_cons.
  change (opening (with_filter _ args)) with (opening args).
  change (ordering (with_filter _ args)) with (ordering args).
  change (limiting (with_filter _ args)) with (limiting args).
  split; [|split].
  - intros Hop. unfold apply_filter. simpl in Hop |- *.
    rewrite Hop. simpl. by rewrite <- !app_assoc.
  - intros Htag Hun. unfold apply_filter. simpl in Htag, Hun |- *.
    rewrite Htag. simpl. rewrite (operator_call_unsupported _ _ _ Hun).
    change (opening (with_filter (before ++ after) args)) with (opening args).
    change (ordering (with_filter (before ++ after) args)) with (ordering args).
    change (limiting (with_filter (before ++ after) args)) with (limiting args).
    simpl. by rewrite <- !app_assoc.
  - intros Hfalsy. unfold apply_filter. simpl in Hfalsy |- *.
    rewrite Hfalsy. simpl. by rewrite <- !app_assoc.
Qed.

Lemma operator_tagged_filters_witness :
  build_query
    (with_filter
       ([("team", Js.Str "red")]
          ++ ("score", Js.Obj (tag "gte" (Js.Num 10))) :: [("age", Js.Obj (tag "lt" (Js.Num 30)))])
       players)
  = [From "players"; Select "*"; Eq "team" (Js.Str "red"); Gte "score" (Js.Num 10);
     Lt "age" (Js.Num 30)]
  /\ build_query
       (with_filter
          ([("team", Js.Str "red")]
             ++ ("score", Js.Obj (tag "between" (Js.Num 10)))
             :: [("age", Js.Obj (tag "lt" (Js.Num 30)))])
          players)
     = [From "players"; Select "*"; Eq "team" (Js.Str "red"); Lt "age" (Js.Num 30)]
  /\ build_query
       (with_filter
          ([("team", Js.Str "red")]
             ++ ("score", Js.Obj [("min", Js.Num 10)])
             :: [("age", Js.Obj (tag "lt" (Js.Num 30)))])
          players)
     = [From "players"; Select "*"; Eq "team" (Js.Str "red");
        Eq "score" (Js.Obj [("min", Js.Num 10)]); Lt "age" (Js.Num 30)].
Proof.
  split; [|split].
  - exact (proj1 (operator_tagged_filters players [("team", Js.Str "red")]
                    [("age", Js.Obj (tag "lt" (Js.Num 30)))] "score"
                    (tag "gte" (Js.Num 10))) eq_refl).
  - refine (proj1 (proj1 (proj2 (operator_tagged_filters players [("team", Js.Str "red")]
                                   [("age", Js.Obj (tag "lt" (Js.Num 30)))] "score"
                                   (tag "between" (Js.Num 10)))) eq_refl _)).
    intros op Hop. injection Hop as <-. unfold supported. intros H.
    repeat (apply elem_of_cons in H as [H|H]; [discriminate H|]).
    by apply elem_of_nil in H.
  - exact (proj2 (proj2 (operator_tagged_filters players [("team", Js.Str "red")]
                           [("age", Js.Obj (tag "lt" (Js.Num 30)))] "score"
                           [("min", Js.Num 10)])) eq_refl).
Defined.

(** C6 as the specification words it fails for a tag that is not truthy.
    The empty text is an operator outside the supported set, yet the
    entry tagged with it is not left without a predicate: [score] is
    compared by equality with the whole object, and the built query is
    not the one built from the other entry alone. *)
Lemma empty_operator_tag_is_compared_by_equality :
  ("" ∉ supported)
  /\ unsupported (Js.prop (Js.Obj (tag "" (Js.Num 10))) "operator")
  /\ build_query
       (with_filter [("team", Js.Str "red"); ("score", Js.Obj (tag "" (Js.Num 10)))]
          players)
     = [From "players"; Select "*"; Eq "team" (Js.Str "red");
        Eq "score" (Js.Obj (tag "" (Js.Num 10)))]
  /\ build_query (with_filter [("team", Js.Str "red")] players)
     = [From "players"; Select "*"; Eq "team" (Js.Str "red")].
Proof.
  assert (Hempty : "" ∉ supported).
  { unfold supported. intros H.
    repeat (apply elem_of_cons in H as [H|H]; [discriminate H|]).
    by apply elem_of_nil in H. }
  split; [exact Hempty|]. split; [|split; reflexivity].
  intros op Hop. simpl in Hop. injection Hop as <-. exact Hempty.
Qed.

(** C7.  A filter entry whose value is [null] adds exactly one builder
    call, an is-null predicate on its key, and no equality predicate: in
    the built query it stands between the predicates of the entries before
    it and those of the entries after it. *)
Theorem null_filter_is_an_is_null_predicate (args : SupabaseQueryArgs)
    (before after : list (string * Js.Value)) (key : string) :
  apply_filter [] (key, Js.Null) = [Is key Js.Null]
  /\ build_query (with_filter (before ++ (key, Js.Null) :: after) args)
     = opening args ++ predicates before ++ [Is key Js.Null]
         ++ predicates after ++ ordering args ++ limiting args.
Proof.
  split; [reflexivity|].
  rewrite build_query_shape. simpl. rewrite predicates_app, predicates_cons.
  change (opening (with_filter _ args)) with (opening args).
  change (ordering (with_filter _ args)) with (ordering args).
  change (limiting (with_filter _ args)) with (limiting args).
  simpl. by rewrite <- !app_assoc.
Qed.

(** C10.  A row limit of 0 (or of -0) is not applied: the query built, and
    so the request that [query] makes and its result, are those of the
    same arguments with no limit.  In general the limit call is added
    exactly when the supplied number is truthy, so it is never added for
    a zero. *)
Theorem zero_limit_is_not_applied (w : World) (args : SupabaseQueryArgs)
    (this : SupabaseIntegration) (n : float) :
  build_query (with_limit (Some 0%float) args) = build_query (with_limit None args)
  /\ build_query (with_limit (Some (-0)%float) args) = build_query (with_limit None args)
  /\ query w (with_limit (Some 0%float) args) this = query w (with_limit None args) this
  /\ build_query (with_limit (Some n) args)
     = (if Js.num_truthy n
        then build_query (with_limit None args) ++ [Limit n]
        else build_query (with_limit None args))
  /\ (if PrimFloat.is_zero n then Js.num_truthy n = false else True).
Proof.
  assert (Hz : build_query (with_limit (Some 0%float) args)
               = build_query (with_limit None args)).
  { unfold build_query. simpl.
    destruct (filter args); destruct (orderBy args); reflexivity. }
  split; [exact Hz|]. split.
  { unfold build_query. simpl.
    destruct (filter args); destruct (orderBy args); reflexivity. }
  split; [unfold query; by rewrite Hz|]. split.
  - unfold build_query, call. simpl.
    destruct (Js.num_truthy n); reflexivity.
  - unfold Js.num_truthy. destruct (PrimFloat.is_zero n); done.
Qed.

End SupabaseTheory.

(** ** The adapters before initialisation *)

Module AdaptersTheory.


(** *** Vocabulary of the statements *)


(** The computation raises [e] at once: nothing is called and no field
    changes. *)
Definition fails_with {E S A : Type} (m : M E S A) (this : S) (e : Js.Error) : Prop :=
  m this = (this, [], Throw e).

(** The command line that [executeGCloudCommand] runs. *)
Definition full_command (a : GCloud.GCloudCommandArgs) : string :=
  "gcloud " +:+ GCloud.command a +:+ " "
    +:+ Js.str_or (Js.join " " <$> GCloud.args a) "".

Definition unreachable : Js.Error := Js.error "network unreachable".

Definition supabase_world : Supabase.World :=
  {| Supabase.createClient := fun u k => Ok (Supabase.Client u k);
     Supabase.send := fun _ => Throw unreachable;
     Supabase.rpc_call := fun _ _ => Throw unreachable |}.

Definition github_world : GitHub.World :=
  {| GitHub.newOctokit := fun t => Ok (GitHub.OctokitClient t);
     GitHub.request := fun _ _ => Throw unreachable;
     GitHub.fromBase64 := fun _ => Throw (Js.TypeError "not a string") |}.

(** The cloud CLI is installed and answers every command with its version. *)
Definition gcloud_world : GCloud.World :=
  {| GCloud.newStorage := fun p => Ok (GCloud.StorageClient p);
     GCloud.newSecretManagerServiceClient := Ok Secrets.SecretClient;
     GCloud.getFiles := fun _ _ => Throw unreachable;
     GCloud.download := fun _ _ => Throw unreachable;
     GCloud.save := fun _ _ _ _ => Throw unreachable;
     GCloud.accessSecretVersion := fun _ => Throw unreachable;
     GCloud.execSync := fun _ =>
       Ok ("Google Cloud SDK 470.0.0" +:+ String (ascii_of_nat 10) EmptyString) |}.

Definition version_command : GCloud.GCloudCommandArgs :=
  {| GCloud.command := "version"; GCloud.args := None |}.

(** *** Lemmas and claims *)

Lemma supabase_guard w this :
  Supabase.client this = None ->
  (forall a, fails_with (Supabase.query w a) this Supabase.not_initialized)
  /\ (forall a, fails_with (Supabase.insert w a) this Supabase.not_initialized)
  /\ (forall a, fails_with (Supabase.update w a) this Supabase.not_initialized)
  /\ (forall a, fails_with (Supabase.delete w a) this Supabase.not_initialized)
  /\ (forall a, fails_with (Supabase.rpc w a) this Supabase.not_initialized).
Proof.
  intros H. unfold fails_with, Supabase.query, Supabase.insert, Supabase.update,
    Supabase.delete, Supabase.rpc. run. rewrite H. done.
Qed.

Lemma github_guard w this :
  GitHub.octokit this = None ->
  (forall a, fails_with (GitHub.getRepository w a) this GitHub.not_initialized)
  /\ (forall a, fails_with (GitHub.listIssues w a) this GitHub.not_initialized)
  /\ (forall a, fails_with (GitHub.createIssue w a) this GitHub.not_initialized)
  /\ (forall a, fails_with (GitHub.listPullRequests w a) this GitHub.not_initialized)
  /\ (forall a, fails_with (GitHub.createPullRequest w a) this GitHub.not_initialized)
  /\ (forall a, fails_with (GitHub.getFileContent w a) this GitHub.not_initialized)
  /\ (forall a, fails_with (GitHub.search w a) this GitHub.not_initialized).
Proof.
  intros H. unfold fails_with, GitHub.getRepository, GitHub.listIssues,
    GitHub.createIssue, GitHub.listPullRequests, GitHub.createPullRequest,
    GitHub.getFileContent, GitHub.search. run. rewrite H. done.
Qed.

Lemma gcloud_storage_guard w this :
  GCloud.storage this = None ->
  (forall a, fails_with (GCloud.listBucketContents w a) this GCloud.storage_not_initialized)
  /\ (forall a, fails_with (GCloud.readFile w a) this GCloud.storage_not_initialized)
  /\ (forall a, fails_with (GCloud.writeFile w a) this GCloud.storage_not_initialized).
Proof.
  intros H. unfold fails_with, GCloud.listBucketContents, GCloud.readFile,
    GCloud.writeFile. run. rewrite H. done.
Qed.

Lemma gcloud_secret_guard w this a :
  GCloud.secretClient this = None \/ Js.opt_truthy (GCloud.projectId this) = false ->
  fails_with (GCloud.getSecret w a) this GCloud.secrets_not_initialized.
Proof.
  intros H. unfold fails_with, GCloud.getSecret. run.
  destruct (GCloud.secretClient this) as [c|]; [|done].
  destruct H as [H|H]; [done|].
  destruct (GCloud.projectId this) as [p|]; [|done].
  simpl in H. by rewrite H.
Qed.

Lemma supabase_initialize_missing w sm this :
  Secrets.hasSupabase sm = false ->
  Supabase.initialize w sm this = (this, [], Ok false).
Proof.
  unfold Secrets.hasSupabase, Supabase.initialize, Secrets.getSupabaseConfig.
  destruct (Secrets.supabase (Secrets.secrets sm)) as [c|]; simpl; [|done].
  intros H. destruct (Js.str_truthy (Secrets.url c)); simpl in *; [|done].
  by rewrite H.
Qed.

Lemma github_initialize_missing w sm this :
  Secrets.hasGitHub sm = false ->
  GitHub.initialize w sm this = (this, [], Ok false).
Proof.
  unfold Secrets.hasGitHub, GitHub.initialize, Secrets.getGitHubToken.
  destruct (Secrets.github (Secrets.secrets sm)) as [c|]; simpl; [|done].
  by intros ->.
Qed.

Lemma gcloud_initialize_missing w sm this :
  Secrets.hasGCloud sm = false ->
  GCloud.initialize w sm this = (this, [], Ok false).
Proof.
  unfold Secrets.hasGCloud, GCloud.initialize, Secrets.getGCloudConfig.
  destruct (Secrets.gcloud (Secrets.secrets sm)) as [c|]; simpl; [|done].
  by intros ->.
Qed.

(** An [initialize] of the database adapter that does not return true
    leaves an unset handle unset. *)
Lemma supabase_initialize_unsuccessful w sm this :
  Supabase.client this = None ->
  outcome (Supabase.initialize w sm this) <> Ok true ->
  Supabase.client (final_state (Supabase.initialize w sm this)) = None.
Proof.
  intros Hc. unfold Supabase.initialize.
  destruct (Secrets.getSupabaseConfig sm) as [c|]; [|done].
  destruct (negb _ || negb _); [done|]. run.
  destruct (Supabase.createClient w _ _); simpl; [|done].
  intros H. by destruct H.
Qed.

Lemma github_initialize_unsuccessful w sm this :
  GitHub.octokit this = None ->
  outcome (GitHub.initialize w sm this) <> Ok true ->
  GitHub.octokit (final_state (GitHub.initialize w sm this)) = None.
Proof.
  intros Hc. unfold GitHub.initialize.
  destruct (Secrets.getGitHubToken sm) as [t|]; [|done].
  destruct (negb _); [done|]. run.
  destruct (GitHub.newOctokit w _); simpl; [|done].
  intros H. by destruct H.
Qed.

Lemma executeGCloudCommand_trace w a this :
  trace (GCloud.executeGCloudCommand w a this) = [GCloud.ExecSync (full_command a)]
  /\ final_state (GCloud.executeGCloudCommand w a this) = this.
Proof.
  unfold GCloud.executeGCloudCommand, full_command. run.
  destruct (GCloud.execSync w _); done.
Qed.

(** C2, as the code has it.  Every operational method of the three
    adapters other than [executeGCloudCommand], invoked while the client
    handle it needs is unset, raises the adapter's not-initialized error at
    once: no call is made and no field changes.  The handles are unset
    from construction; an [initialize] that finds its credentials missing
    returns false and changes nothing; for the database and source-hosting
    adapters an [initialize] that does not return true leaves the handle
    unset.  [executeGCloudCommand] has no such guard: in every state it
    runs the gcloud subprocess. *)
Theorem uninitialized_operations_fail :
  (forall w this, Supabase.client this = None ->
     (forall a, fails_with (Supabase.query w a) this Supabase.not_initialized)
     /\ (forall a, fails_with (Supabase.insert w a) this Supabase.not_initialized)
     /\ (forall a, fails_with (Supabase.update w a) this Supabase.not_initialized)
     /\ (forall a, fails_with (Supabase.delete w a) this Supabase.not_initialized)
     /\ (forall a, fails_with (Supabase.rpc w a) this Supabase.not_initialized))
  /\ (forall w this, GitHub.octokit this = None ->
     (forall a, fails_with (GitHub.getRepository w a) this GitHub.not_initialized)
     /\ (forall a, fails_with (GitHub.listIssues w a) this GitHub.not_initialized)
     /\ (forall a, fails_with (GitHub.createIssue w a) this GitHub.not_initialized)
     /\ (forall a, fails_with (GitHub.listPullRequests w a) this GitHub.not_initialized)
     /\ (forall a, fails_with (GitHub.createPullRequest w a) this GitHub.not_initialized)
     /\ (forall a, fails_with (GitHub.getFileContent w a) this GitHub.not_initialized)
     /\ (forall a, fails_with (GitHub.search w a) this GitHub.not_initialized))
  /\ (forall w this, GCloud.storage this = None ->
     (forall a, fails_with (GCloud.listBucketContents w a) this
                  GCloud.storage_not_initialized)
     /\ (forall a, fails_with (GCloud.readFile w a) this GCloud.storage_not_initialized)
     /\ (forall a, fails_with (GCloud.writeFile w a) this GCloud.storage_not_initialized))
  /\ (forall w this a,
       GCloud.secretClient this = None \/ Js.opt_truthy (GCloud.projectId this) = false ->
       fails_with (GCloud.getSecret w a) this GCloud.secrets_not_initialized)
  /\ (Supabase.client Supabase.fresh = None
      /\ GitHub.octokit GitHub.fresh = None
      /\ GCloud.storage GCloud.fresh = None
      /\ GCloud.secretClient GCloud.fresh = None)
  /\ (forall w sm this, Secrets.hasSupabase sm = false ->
       Supabase.initialize w sm this = (this, [], Ok false))
  /\ (forall w sm this, Secrets.hasGitHub sm = false ->
       GitHub.initialize w sm this = (this, [], Ok false))
  /\ (forall w sm this, Secrets.hasGCloud sm = false ->
       GCloud.initialize w sm this = (this, [], Ok false))
  /\ (forall w sm this, Supabase.client this = None ->
       outcome (Supabase.initialize w sm this) <> Ok true ->
       Supabase.client (final_state (Supabase.initialize w sm this)) = None)
  /\ (forall w sm this, GitHub.octokit this = None ->
       outcome (GitHub.initialize w sm this) <> Ok true ->
       GitHub.octokit (final_state (GitHub.initialize w sm this)) = None)
  /\ (forall w a this,
       trace (GCloud.executeGCloudCommand w a this) = [GCloud.ExecSync (full_command a)])
  /\ (Js.message Supabase.not_initialized = "Supabase client not initialized"
      /\ Js.message GitHub.not_initialized = "GitHub client not initialized"
      /\ Js.message GCloud.storage_not_initialized
         = "Google Cloud Storage client not initialized"
      /\ Js.message GCloud.secrets_not_initialized
         = "Google Cloud Secret Manager client not initialized").
Proof.
  split; [exact supabase_guard|].
  split; [exact github_guard|].
  split; [exact gcloud_storage_guard|].
  split; [intros w this a; apply gcloud_secret_guard|].
  split; [done|].
  split; [exact supabase_initialize_missing|].
  split; [exact github_initialize_missing|].
  split; [exact gcloud_initialize_missing|].
  split; [exact supabase_initialize_unsuccessful|].
  split; [exact github_initialize_unsuccessful|].
  split; [intros w a this; apply executeGCloudCommand_trace|].
  done.
Qed.

Lemma uninitialized_operations_fail_witness :
  Supabase.query supabase_world SupabaseTheory.players Supabase.fresh
  = (Supabase.fresh, [], Throw (Js.error "Supabase client not initialized"))
  /\ GitHub.search github_world
       {| GitHub.query := "pulse"; GitHub.type := GitHub.code;
          GitHub.search_per_page := None |} GitHub.fresh
     = (GitHub.fresh, [], Throw (Js.error "GitHub client not initialized"))
  /\ GCloud.readFile gcloud_world
       {| GCloud.read_bucket := "assets"; GCloud.read_file := "logo.png" |} GCloud.fresh
     = (GCloud.fresh, [], Throw (Js.error "Google Cloud Storage client not initialized"))
  /\ GCloud.getSecret gcloud_world
       {| GCloud.secretId := "github-token"; GCloud.version := None |} GCloud.fresh
     = (GCloud.fresh, [],
        Throw (Js.error "Google Cloud Secret Manager client not initialized"))
  /\ Supabase.initialize supabase_world Secrets.fresh Supabase.fresh
     = (Supabase.fresh, [], Ok false).
Proof.
  destruct uninitialized_operations_fail
    as (Hs & Hg & Hc & Hsec & _ & Hinit & _).
  split; [exact (proj1 (Hs supabase_world Supabase.fresh eq_refl) _)|].
  split.
  { destruct (Hg github_world GitHub.fresh eq_refl) as (_ & _ & _ & _ & _ & _ & H).
    exact (H _). }
  split.
  { destruct (Hc gcloud_world GCloud.fresh eq_refl) as (_ & H & _). exact (H _). }
  split; [exact (Hsec gcloud_world GCloud.fresh _ (or_introl eq_refl))|].
  exact (Hinit supabase_world Secrets.fresh Supabase.fresh eq_refl).
Defined.

(** C2 as the specification words it fails for [executeGCloudCommand]: on
    an adapter that was never initialised (and reports itself unavailable)
    it runs the gcloud subprocess and returns its output. *)
Lemma gcloud_command_runs_uninitialized :
  GCloud.isAvailable GCloud.fresh = false
  /\ In "gcloud_command" GCloud.tool_names
  /\ GCloud.executeGCloudCommand gcloud_world version_command GCloud.fresh
     = (GCloud.fresh, [GCloud.ExecSync "gcloud version "], Ok "Google Cloud SDK 470.0.0")
  /\ GCloud.is_call (GCloud.ExecSync "gcloud version ") = true.
Proof. repeat split. simpl. tauto. Qed.

End AdaptersTheory.

(** ** The cloning script *)

Module SetupReposTheory.
Import SetupRepos.

(** *** Vocabulary of the statements *)

(** The six repositories of the project, as README.md names them. *)
Definition expected : list string :=
  ["pulse"; "pulse-ui"; "pulse-apis"; "pulse-type-registry"; "terraform-gcp"; "n8n-sync"].

Definition commands (r : gset string * list Event * bool) : list Event := snd (fst r).
Definition completed (r : gset string * list Event * bool) : bool := snd r.

(** The lines by which the loop reports a repository as skipped. *)
Definition is_skip_report (e : Event) : bool :=
  match e with
  | Echo line =>
      String.prefix (String.rev " already exists, skipping clone") (String.rev line)
  | _ => false
  end.

Definition skip_reports (t : list Event) : list Event := List.filter is_skip_report t.

(** Every command succeeds. *)
Definition all_succeed : World :=
  {| mkdir_p := fun _ => true; cd := fun _ => true; git_clone := fun _ _ => true |}.

(** *** Lemmas and claims *)

Lemma filter_missing_after_clone (repo : string) (rest : list string) (dirs : gset string) :
  repo ∉ rest ->
  filter (fun r => r ∉ {[ repo ]} ∪ dirs) rest = filter (fun r => r ∉ dirs) rest.
Proof.
  induction rest as [|r rest IH]; intros Hnotin; [done|].
  apply not_elem_of_cons in Hnotin as [Hne Hnotin].
  rewrite !filter_cons, (IH Hnotin).
  destruct (decide (r ∉ dirs)) as [Hr|Hr].
  - rewrite decide_True; [done|].
    apply not_elem_of_union. split; [|done]. by apply not_elem_of_singleton.
  - rewrite decide_False; [done|].
    intros H. apply not_elem_of_union in H as [_ H]. by apply Hr.
Qed.

(** When every clone succeeds, the loop runs to its end and clones exactly
    the listed names that are not directories yet, in order. *)
Lemma clone_loop_all_succeed (w : World) (repos : list string) (dirs : gset string) :
  NoDup repos ->
  (forall url dir, git_clone w url dir = true) ->
  cloned (commands (clone_loop w repos dirs)) = filter (fun r => r ∉ dirs) repos
  /\ completed (clone_loop w repos dirs) = true.
Proof.
  intros Hnd Hok. revert dirs.
  induction repos as [|repo rest IH]; intros dirs; [done|].
  apply NoDup_cons in Hnd as [Hnotin Hnd]. simpl.
  rewrite filter_cons. destruct (decide (repo ∈ dirs)) as [Hin|Hin].
  - rewrite bool_decide_true by done. rewrite decide_False by (intros H; by apply H).
    destruct (IH Hnd dirs) as [IH1 IH2].
    destruct (clone_loop w rest dirs) as [[d t] ok]. done.
  - rewrite bool_decide_false by done. rewrite decide_True by done. rewrite Hok.
    destruct (IH Hnd ({[ repo ]} ∪ dirs)) as [IH1 IH2].
    destruct (clone_loop w rest ({[ repo ]} ∪ dirs)) as [[d t] ok].
    unfold commands, completed, cloned in *. simpl in *.
    split; [|done]. f_equal. etrans; [exact IH1|]. by apply filter_missing_after_clone.
Qed.

Lemma REPOS_NoDup : NoDup REPOS.
Proof. apply (bool_decide_unpack _). by vm_compute. Qed.

(** C9 at the directory the script gets wrong.  In a target directory
    whose only sub-directory is terraform-gcp, one of the six expected
    repositories, with every command succeeding, the script reports no
    repository as skipped and runs [git clone] six times: for the five
    other repositories and for a repository named with a trailing comma,
    the fifth word of [REPOS]. *)
Theorem existing_terraform_gcp_is_not_skipped :
  In "terraform-gcp" expected
  /\ skip_reports (commands (main all_succeed None {[ "terraform-gcp" ]})) = []
  /\ cloned (commands (main all_succeed None {[ "terraform-gcp" ]}))
     = ["pulse"; "pulse-ui"; "pulse-apis"; "pulse-type-registry"; "terraform-gcp,";
        "n8n-sync"]
  /\ In "https://github.com/anandroid/terraform-gcp,.git"
       (clone_urls (commands (main all_succeed None {[ "terraform-gcp" ]})))
  /\ skip_reports (commands (main all_succeed None {[ "pulse-ui" ]}))
     = [Echo "[INFO] pulse-ui already exists, skipping clone"]
  /\ cloned (commands (main all_succeed None {[ "pulse-ui" ]}))
     = ["pulse"; "pulse-apis"; "pulse-type-registry"; "terraform-gcp,"; "n8n-sync"].
Proof.
  split; [simpl; tauto|].
  split; [by vm_compute|].
  split; [by vm_compute|].
  split; [vm_compute; tauto|].
  split; by vm_compute.
Qed.

End SetupReposTheory.

(** * Further properties of the code *)

(** ** The secrets manager: what a load amounts to *)

Module SecretsMore.
Import Secrets SecretsTheory.

(** *** Vocabulary of the statements *)

(** A text that counts as present: set and not empty. *)
Definition nonempty (o : option string) : option string :=
  match o with
  | Some s => if Js.str_truthy s then Some s else None
  | None => None
  end.

(** The first text of a list of candidates that is present. *)
Fixpoint first_nonempty (candidates : list (option string)) : option string :=
  match candidates with
  | [] => None
  | c :: rest =>
      match nonempty c with
      | Some s => Some s
      | None => first_nonempty rest
      end
  end.

(** The project whose store a load reads, when it reads one. *)
Definition store_project (this : SecretsManager) : option string :=
  if store_enabled this then projectId <$> gcloud (secrets this) else None.

(** The database record that the managed store gives: both the URL and the
    public key must be present. *)
Definition store_database (w : World) (this : SecretsManager) : option SupabaseSecrets :=
  match store_project this with
  | Some p =>
      match nonempty (resolved w p "supabase-url"),
            nonempty (resolved w p "supabase-anon-key") with
      | Some u, Some k =>
          Some {| url := u; anonKey := k;
                  serviceRoleKey := resolved w p "supabase-service-role-key" |}
      | _, _ => None
      end
  | None => None
  end.

(** The database record that the environment gives: the URL must be
    present, a missing public key reads as the empty text. *)
Definition env_database (w : World) : option SupabaseSecrets :=
  match nonempty (env w !! "SUPABASE_URL") with
  | Some e =>
      Some {| url := e;
              anonKey := Js.str_or (env w !! "SUPABASE_ANON_KEY") "";
              serviceRoleKey := env w !! "SUPABASE_SERVICE_ROLE_KEY" |}
  | None => None
  end.

(** The token that each source gives. *)
Definition store_token (w : World) (this : SecretsManager) : option string :=
  match store_project this with
  | Some p => resolved w p "github-token"
  | None => None
  end.

Definition cli_token (w : World) : option string :=
  match execSync w token_command with
  | Ok out => Some (Js.trim out)
  | Throw _ => None
  end.

(** The cloud context that the environment gives. *)
Definition env_cloud (w : World) : option GCloudSecrets :=
  match nonempty (env w !! "GCLOUD_PROJECT") with
  | Some e => Some {| projectId := e; applicationCredentials := None |}
  | None => None
  end.

(** The states a manager can be in: as constructed in some world, then
    loaded any number of times, each time in any world. *)
Inductive reachable : SecretsManager -> Prop :=
| reachable_new (w : World) : reachable (final_state (constructor w fresh))
| reachable_load (w : World) (this : SecretsManager) :
    reachable this -> reachable (final_state (loadSecrets w this)).

(** The store handle exists only together with a project. *)
Definition handle_has_project (this : SecretsManager) : Prop :=
  is_Some (secretClient this) -> hasGCloud this = true.

(** The command by which the constructor asks for the project. *)
Definition project_command : string := "gcloud config get-value project".

(** Neither the cloud CLI nor a store; the environment names a project
    and a token, and no database. *)
Definition world_env_only : World :=
  world_without_cli {[ "GCLOUD_PROJECT" := "demo"; "GITHUB_TOKEN" := "abc123" ]}.

(** A cloud CLI configured for project demo that reports a path of default
    credentials, with the file system access as the source imports it. *)
Definition world_with_adc : World :=
  {| execSync := fun c =>
       if decide (c = project_command) then Ok ("demo" +:+ newline)
       else if decide (c = adc_path_command)
            then Ok ("/home/dev/.config/gcloud/application_default_credentials.json"
                       +:+ newline)
            else Throw (Js.error "Command failed");
     existsSync := fun _ => Throw (Js.TypeError "fs.existsSync is not a function");
     newSecretManagerServiceClient := Ok SecretClient;
     accessSecretVersion := fun _ => Ok (version_of "unused");
     env := ∅ |}.

(** *** Lemmas *)

Lemma nonempty_truthy o s : nonempty o = Some s -> o = Some s /\ Js.str_truthy s = true.
Proof.
  destruct o as [x|]; simpl; [|done].
  destruct (Js.str_truthy x) eqn:E; [|done]. intros [= <-]. done.
Qed.

Lemma nonempty_None o : nonempty o = None -> Js.opt_truthy o = false.
Proof. destruct o as [x|]; simpl; [|done]. by destruct (Js.str_truthy x). Qed.

Lemma loadFromSecretManager_state w this :
  store_enabled this = true ->
  exists c g, secretClient this = Some c /\ gcloud (secrets this) = Some g
    /\ Js.str_truthy (projectId g) = true
    /\ store_project this = Some (projectId g)
    /\ loadFromSecretManager w this
       = (store_fill w (projectId g) this, store_trace w (projectId g), Ok tt).
Proof.
  intros Hen. unfold store_project. rewrite Hen. unfold store_enabled in Hen.
  destruct (secretClient this) as [c|] eqn:Hc; [|done].
  destruct (gcloud (secrets this)) as [g|] eqn:Hg; [|done].
  simpl in Hen. exists c, g. repeat split; try done.
  by apply loadFromSecretManager_run with c.
Qed.

Lemma loadSecrets_final w this : final_state (loadSecrets w this) = after_env w this.
Proof. by rewrite loadSecrets_run. Qed.

(** What each stage does to each sub-record. *)
Lemma store_fill_supabase w p s :
  supabase (secrets (store_fill w p s))
  = match nonempty (resolved w p "supabase-url"),
          nonempty (resolved w p "supabase-anon-key") with
    | Some u, Some k =>
        Some {| url := u; anonKey := k;
                serviceRoleKey := resolved w p "supabase-service-role-key" |}
    | _, _ => supabase (secrets s)
    end.
Proof.
  unfold store_fill, nonempty.
  destruct (resolved w p "supabase-url") as [u|]; [destruct (Js.str_truthy u)|];
    (destruct (resolved w p "supabase-anon-key") as [k|]; [destruct (Js.str_truthy k)|]);
    (destruct (resolved w p "github-token") as [t|]; [destruct (Js.str_truthy t)|]);
    reflexivity.
Qed.

Lemma store_fill_github w p s :
  github (secrets (store_fill w p s))
  = match nonempty (resolved w p "github-token") with
    | Some t => Some {| token := t |}
    | None => github (secrets s)
    end.
Proof.
  unfold store_fill, nonempty.
  destruct (resolved w p "supabase-url") as [u|]; [destruct (Js.str_truthy u)|];
    (destruct (resolved w p "supabase-anon-key") as [k|]; [destruct (Js.str_truthy k)|]);
    (destruct (resolved w p "github-token") as [t|]; [destruct (Js.str_truthy t)|]);
    reflexivity.
Qed.

Lemma store_fill_rest w p s :
  gcloud (secrets (store_fill w p s)) = gcloud (secrets s)
  /\ secretClient (store_fill w p s) = secretClient s.
Proof.
  unfold store_fill.
  destruct (resolved w p "supabase-url") as [u|]; [destruct (Js.str_truthy u)|];
    (destruct (resolved w p "supabase-anon-key") as [k|]; [destruct (Js.str_truthy k)|]);
    (destruct (resolved w p "github-token") as [t|]; [destruct (Js.str_truthy t)|]);
    done.
Qed.

Lemma cli_fill_github w s :
  github (secrets (cli_fill w s))
  = if Js.opt_truthy (token <$> github (secrets s)) then github (secrets s)
    else match nonempty (cli_token w) with
         | Some t => Some {| token := t |}
         | None => github (secrets s)
         end.
Proof.
  unfold cli_fill, cli_token, nonempty, getGitHubToken.
  destruct (execSync w token_command) as [out|]; simpl.
  - destruct (Js.str_truthy (Js.trim out));
      destruct (Js.opt_truthy (token <$> github (secrets s))); reflexivity.
  - by destruct (Js.opt_truthy _).
Qed.

Lemma cli_fill_rest w s :
  supabase (secrets (cli_fill w s)) = supabase (secrets s)
  /\ gcloud (secrets (cli_fill w s)) = gcloud (secrets s)
  /\ secretClient (cli_fill w s) = secretClient s.
Proof.
  unfold cli_fill. destruct (execSync w token_command); [|done].
  by destruct (_ && _).
Qed.

Lemma env_supabase_parts w s :
  supabase (secrets (env_supabase w s))
  = (if Js.opt_truthy (url <$> supabase (secrets s)) then supabase (secrets s)
     else match env_database w with
          | Some c => Some c
          | None => supabase (secrets s)
          end)
  /\ github (secrets (env_supabase w s)) = github (secrets s)
  /\ gcloud (secrets (env_supabase w s)) = gcloud (secrets s)
  /\ secretClient (env_supabase w s) = secretClient s.
Proof.
  unfold env_supabase, env_database, nonempty.
  destruct (Js.opt_truthy (url <$> supabase (secrets s)));
    (destruct (env w !! "SUPABASE_URL") as [e|]; [destruct (Js.str_truthy e)|]); done.
Qed.

Lemma env_github_parts w s :
  github (secrets (env_github w s))
  = (if Js.opt_truthy (token <$> github (secrets s)) then github (secrets s)
     else match nonempty (env w !! "GITHUB_TOKEN") with
          | Some t => Some {| token := t |}
          | None => github (secrets s)
          end)
  /\ supabase (secrets (env_github w s)) = supabase (secrets s)
  /\ gcloud (secrets (env_github w s)) = gcloud (secrets s)
  /\ secretClient (env_github w s) = secretClient s.
Proof.
  unfold env_github, nonempty.
  destruct (Js.opt_truthy (token <$> github (secrets s)));
    (destruct (env w !! "GITHUB_TOKEN") as [e|]; [destruct (Js.str_truthy e)|]); done.
Qed.

Lemma env_gcloud_parts w s :
  gcloud (secrets (env_gcloud w s))
  = (if Js.opt_truthy (projectId <$> gcloud (secrets s)) then gcloud (secrets s)
     else match nonempty (env w !! "GCLOUD_PROJECT") with
          | Some e =>
              Some {| projectId := e;
                      applicationCredentials :=
                        gcloud (secrets s) ≫= applicationCredentials |}
          | None => gcloud (secrets s)
          end)
  /\ supabase (secrets (env_gcloud w s)) = supabase (secrets s)
  /\ github (secrets (env_gcloud w s)) = github (secrets s)
  /\ secretClient (env_gcloud w s) = secretClient s.
Proof.
  unfold env_gcloud, nonempty.
  destruct (Js.opt_truthy (projectId <$> gcloud (secrets s)));
    (destruct (env w !! "GCLOUD_PROJECT") as [e|]; [destruct (Js.str_truthy e)|]); done.
Qed.

Lemma env_fill_supabase w s :
  supabase (secrets (env_fill w s))
  = if Js.opt_truthy (url <$> supabase (secrets s)) then supabase (secrets s)
    else match env_database w with
         | Some c => Some c
         | None => supabase (secrets s)
         end.
Proof.
  unfold env_fill.
  destruct (env_gcloud_parts w (env_github w (env_supabase w s))) as (_ & -> & _).
  destruct (env_github_parts w (env_supabase w s)) as (_ & -> & _).
  by destruct (env_supabase_parts w s) as (-> & _).
Qed.

Lemma env_fill_github w s :
  github (secrets (env_fill w s))
  = if Js.opt_truthy (token <$> github (secrets s)) then github (secrets s)
    else match nonempty (env w !! "GITHUB_TOKEN") with
         | Some t => Some {| token := t |}
         | None => github (secrets s)
         end.
Proof.
  unfold env_fill.
  destruct (env_gcloud_parts w (env_github w (env_supabase w s))) as (_ & _ & -> & _).
  destruct (env_github_parts w (env_supabase w s)) as (-> & _).
  by destruct (env_supabase_parts w s) as (_ & -> & _).
Qed.

Lemma env_fill_gcloud w s :
  gcloud (secrets (env_fill w s))
  = if Js.opt_truthy (projectId <$> gcloud (secrets s)) then gcloud (secrets s)
    else match nonempty (env w !! "GCLOUD_PROJECT") with
         | Some e =>
             Some {| projectId := e;
                     applicationCredentials :=
                       gcloud (secrets s) ≫= applicationCredentials |}
         | None => gcloud (secrets s)
         end.
Proof.
  unfold env_fill.
  destruct (env_gcloud_parts w (env_github w (env_supabase w s))) as (-> & _).
  destruct (env_github_parts w (env_supabase w s)) as (_ & _ & -> & _).
  by destruct (env_supabase_parts w s) as (_ & _ & -> & _).
Qed.

Lemma env_fill_secretClient w s : secretClient (env_fill w s) = secretClient s.
Proof.
  unfold env_fill.
  destruct (env_gcloud_parts w (env_github w (env_supabase w s))) as (_ & _ & _ & ->).
  destruct (env_github_parts w (env_supabase w s)) as (_ & _ & _ & ->).
  by destruct (env_supabase_parts w s) as (_ & _ & _ & ->).
Qed.

Lemma after_store_parts w this :
  supabase (secrets (after_store w this))
  = match store_database w this with
    | Some c => Some c
    | None => supabase (secrets this)
    end
  /\ github (secrets (after_store w this))
     = match nonempty (store_token w this) with
       | Some t => Some {| token := t |}
       | None => github (secrets this)
       end
  /\ gcloud (secrets (after_store w this)) = gcloud (secrets this)
  /\ secretClient (after_store w this) = secretClient this.
Proof.
  unfold after_store, store_database, store_token.
  destruct (store_enabled this) eqn:Hen.
  - destruct (loadFromSecretManager_state w this Hen) as (c & g & Hc & Hg & Hp & Hsp & Hrun).
    rewrite Hsp, Hrun. unfold final_state. simpl fst.
    rewrite store_fill_supabase, store_fill_github.
    destruct (store_fill_rest w (projectId g) this) as [-> ->].
    repeat split.
    destruct (nonempty (resolved w (projectId g) "supabase-url"));
      destruct (nonempty (resolved w (projectId g) "supabase-anon-key")); done.
  - unfold store_project. rewrite Hen. done.
Qed.

Lemma well_formed_parts this :
  well_formed this = true ->
  (forall c, supabase (secrets this) = Some c -> Js.str_truthy (url c) = true)
  /\ (forall c, github (secrets this) = Some c -> Js.str_truthy (token c) = true)
  /\ (forall c, gcloud (secrets this) = Some c -> Js.str_truthy (projectId c) = true).
Proof.
  intros H. open_fields this H; simpl; repeat split; intros c [= <-]; done.
Qed.

(** The sub-records after a whole load. *)
Lemma load_parts w this :
  well_formed this = true ->
  supabase (secrets (after_env w this))
  = match store_database w this with
    | Some c => Some c
    | None =>
        match supabase (secrets this) with
        | Some c => Some c
        | None => env_database w
        end
    end
  /\ token <$> github (secrets (after_env w this))
     = first_nonempty [store_token w this; token <$> github (secrets this);
                       cli_token w; env w !! "GITHUB_TOKEN"]
  /\ gcloud (secrets (after_env w this))
     = match gcloud (secrets this) with
       | Some g => Some g
       | None => env_cloud w
       end
  /\ secretClient (after_env w this) = secretClient this.
Proof.
  intros Hwf. destruct (well_formed_parts this Hwf) as (Hsb & Hgh & Hgc).
  unfold after_env, after_cli.
  rewrite env_fill_supabase, env_fill_github, env_fill_gcloud, env_fill_secretClient.
  rewrite cli_fill_github.
  destruct (cli_fill_rest w (after_store w this)) as (-> & -> & ->).
  destruct (after_store_parts w this) as (-> & -> & -> & ->).
  split; [|split; [|split]].
  - destruct (store_database w this) as [c|] eqn:Hsd.
    + assert (Js.str_truthy (url c) = true) as Hu.
      { unfold store_database in Hsd. destruct (store_project this); [|done].
        destruct (nonempty (resolved w s "supabase-url")) as [u|] eqn:Eu; [|done].
        destruct (nonempty (resolved w s "supabase-anon-key")); [|done].
        injection Hsd as <-. simpl. by apply nonempty_truthy in Eu as [_ ?]. }
      simpl. by rewrite Hu.
    + destruct (supabase (secrets this)) as [c|] eqn:Hc; simpl.
      * by rewrite (Hsb c eq_refl).
      * by destruct (env_database w).
  - simpl. destruct (nonempty (store_token w this)) as [t|] eqn:Hst; simpl.
    + apply nonempty_truthy in Hst as [_ Ht]. by repeat (rewrite Ht; simpl).
    + destruct (github (secrets this)) as [c|] eqn:Hc; simpl.
      * by repeat (rewrite (Hgh c eq_refl); simpl).
      * destruct (nonempty (cli_token w)) as [t|] eqn:Hct; simpl.
        { apply nonempty_truthy in Hct as [_ Ht]. by repeat (rewrite Ht; simpl). }
        by destruct (nonempty (env w !! "GITHUB_TOKEN")).
  - unfold env_cloud. destruct (gcloud (secrets this)) as [g|] eqn:Hg; simpl.
    + by rewrite (Hgc g eq_refl).
    + by destruct (nonempty (env w !! "GCLOUD_PROJECT")).
  - reflexivity.
Qed.

Lemma manager_ext (s1 s2 : SecretsManager) :
  supabase (secrets s1) = supabase (secrets s2) ->
  token <$> github (secrets s1) = token <$> github (secrets s2) ->
  gcloud (secrets s1) = gcloud (secrets s2) ->
  secretClient s1 = secretClient s2 ->
  s1 = s2.
Proof.
  destruct s1 as [[sb1 [[t1]|] gc1] c1], s2 as [[sb2 [[t2]|] gc2] c2]; simpl;
    intros -> H -> ->; by simplify_eq.
Qed.

Lemma first_nonempty_nonempty l : nonempty (first_nonempty l) = first_nonempty l.
Proof.
  induction l as [|c l IH]; simpl; [done|].
  destruct (nonempty c) as [x|] eqn:E; [|done].
  apply nonempty_truthy in E as [_ E]. simpl. by rewrite E.
Qed.

Lemma constructor_handle w : handle_has_project (final_state (constructor w fresh)).
Proof.
  unfold handle_has_project, constructor, initializeGCloud, exec, fresh,
    set_applicationCredentials, hasGCloud. run.
  destruct (execSync w "gcloud config get-value project") as [out|e]; simpl;
    [|by intros []].
  destruct (Js.str_truthy (Js.trim out)) eqn:Hp; simpl; [|by intros []].
  destruct (execSync w adc_path_command) as [out2|e]; simpl; [|done].
  destruct (Js.str_truthy (Js.trim out2)); simpl;
    [destruct (existsSync w _) as [[]|]; simpl|];
    try destruct (newSecretManagerServiceClient w); simpl; done.
Qed.

Lemma load_handle w this :
  well_formed this = true ->
  handle_has_project this ->
  handle_has_project (final_state (loadSecrets w this)).
Proof.
  intros Hwf H. rewrite loadSecrets_final. unfold handle_has_project, hasGCloud in *.
  destruct (load_parts w this Hwf) as (_ & _ & -> & ->).
  intros Hc. specialize (H Hc).
  destruct (gcloud (secrets this)); done.
Qed.

Lemma reachable_invariant this :
  reachable this -> well_formed this = true /\ handle_has_project this.
Proof.
  induction 1 as [w|w this _ [IH1 IH2]].
  - split; [apply initializeGCloud_well_formed|apply constructor_handle].
  - split; [by apply loadSecrets_well_formed|by apply load_handle].
Qed.

Lemma store_project_stable w this :
  well_formed this = true ->
  handle_has_project this ->
  store_project (after_env w this) = store_project this.
Proof.
  intros Hwf H. unfold store_project, store_enabled.
  destruct (load_parts w this Hwf) as (_ & _ & -> & ->).
  unfold handle_has_project, hasGCloud in H.
  destruct (secretClient this) as [c|]; [|done].
  specialize (H (ltac:(by eexists))).
  destruct (gcloud (secrets this)); done.
Qed.

(** *** Properties *)

(** X1.  After a load that starts from a snapshot satisfying the invariant,
    each credential comes from the first source that has it.  The database
    record is the one of the managed store when the store gave both the
    URL and the public key, else the record held before the load, else
    the one of the environment.  The token is the first non-empty text
    among: the store, the token held before, the cloud CLI, the
    environment.  The cloud context is the one held before, else the one
    of the environment. *)
Theorem load_takes_the_first_source (w : World) (this : SecretsManager) :
  well_formed this = true ->
  getSupabaseConfig (final_state (loadSecrets w this))
  = match store_database w this with
    | Some c => Some c
    | None =>
        match getSupabaseConfig this with
        | Some c => Some c
        | None => env_database w
        end
    end
  /\ getGitHubToken (final_state (loadSecrets w this))
     = first_nonempty [store_token w this; getGitHubToken this; cli_token w;
                       env w !! "GITHUB_TOKEN"]
  /\ getGCloudConfig (final_state (loadSecrets w this))
     = match getGCloudConfig this with
       | Some g => Some g
       | None => env_cloud w
       end.
Proof.
  intros Hwf. rewrite loadSecrets_final.
  destruct (load_parts w this Hwf) as (H1 & H2 & H3 & _).
  unfold getSupabaseConfig, getGitHubToken, getGCloudConfig. by rewrite H1, H2, H3.
Qed.

Lemma load_takes_the_first_source_witness :
  getSupabaseConfig (final_state (loadSecrets world_store_and_env constructed_demo))
  = Some {| url := "https://store.example"; anonKey := "store-key";
            serviceRoleKey := None |}
  /\ getGitHubToken (final_state (loadSecrets world_store_and_env constructed_demo))
     = Some "env-token"
  /\ getGCloudConfig (final_state (loadSecrets world_store_and_env constructed_demo))
     = Some demo_project.
Proof.
  exact (load_takes_the_first_source world_store_and_env constructed_demo eq_refl).
Defined.

(** X2.  When no command of the cloud CLI can be run, construction followed
    by a load leaves exactly what the environment gives: the database
    record, the token and the cloud context are those of the environment
    variables, the availability predicates are true exactly for the
    variables that are set and non-empty (for the database: both the URL
    and the public key), and the managed store is never contacted. *)
Theorem without_cli_the_environment_decides (w : World) :
  (forall c, exists e, execSync w c = Throw e) ->
  let constructed := final_state (constructor w fresh) in
  let loaded := final_state (loadSecrets w constructed) in
  getSupabaseConfig loaded = env_database w
  /\ getGitHubToken loaded = nonempty (env w !! "GITHUB_TOKEN")
  /\ getGCloudConfig loaded = env_cloud w
  /\ hasSupabase loaded
     = Js.opt_truthy (env w !! "SUPABASE_URL") && Js.opt_truthy (env w !! "SUPABASE_ANON_KEY")
  /\ hasGitHub loaded = Js.opt_truthy (env w !! "GITHUB_TOKEN")
  /\ hasGCloud loaded = Js.opt_truthy (env w !! "GCLOUD_PROJECT")
  /\ requested (trace (loadSecrets w constructed)) = [].
Proof.
  intros Hfail constructed loaded.
  assert (Hnew : constructed = fresh).
  { unfold constructed, constructor, initializeGCloud, exec. run.
    by destruct (Hfail "gcloud config get-value project") as [e ->]. }
  assert (Hcli : cli_token w = None).
  { unfold cli_token. by destruct (Hfail token_command) as [e ->]. }
  unfold loaded. rewrite Hnew. rewrite loadSecrets_run. unfold trace. simpl snd.
  change (final_state (after_env w fresh, _, _)) with (after_env w fresh).
  destruct (load_parts w fresh eq_refl) as (H1 & H2 & H3 & _).
  unfold getSupabaseConfig, getGitHubToken, getGCloudConfig, hasSupabase, hasGitHub,
    hasGCloud.
  rewrite H1, H2, H3. simpl. rewrite Hcli. simpl.
  repeat split.
  - by destruct (nonempty (env w !! "GITHUB_TOKEN")).
  - unfold env_database, nonempty.
    destruct (env w !! "SUPABASE_URL") as [u|]; simpl; [|done].
    destruct (Js.str_truthy u) eqn:Eu; simpl; rewrite ?Eu; simpl; [|done].
    destruct (env w !! "SUPABASE_ANON_KEY") as [k|]; simpl; [|done].
    destruct (Js.str_truthy k) eqn:Ek; simpl; by rewrite ?Ek.
  - unfold nonempty. destruct (env w !! "GITHUB_TOKEN") as [t|]; simpl; [|done].
    destruct (Js.str_truthy t) eqn:E; simpl; by rewrite ?E.
  - unfold env_cloud, nonempty. destruct (env w !! "GCLOUD_PROJECT") as [p|]; simpl; [|done].
    destruct (Js.str_truthy p) eqn:E; simpl; by rewrite ?E.
Qed.

Lemma without_cli_the_environment_decides_witness :
  getGCloudConfig
    (final_state (loadSecrets world_env_only (final_state (constructor world_env_only fresh))))
  = Some {| projectId := "demo"; applicationCredentials := None |}
  /\ getGitHubToken
       (final_state (loadSecrets world_env_only
                       (final_state (constructor world_env_only fresh))))
     = Some "abc123"
  /\ hasSupabase
       (final_state (loadSecrets world_env_only
                       (final_state (constructor world_env_only fresh))))
     = false.
Proof.
  destruct (without_cli_the_environment_decides world_env_only
              (fun c => ex_intro _ (Js.error "gcloud: command not found") eq_refl))
    as (_ & Htoken & Hcloud & Hdb & _).
  split; [exact Hcloud|]. split; [exact Htoken|]. exact Hdb.
Defined.

(** X3.  In a fixed world a second load changes nothing: from every state
    a manager can reach, loading twice leaves the same fields as loading
    once. *)
Theorem loading_twice_is_loading_once (w : World) (this : SecretsManager) :
  reachable this ->
  final_state (loadSecrets w (final_state (loadSecrets w this)))
  = final_state (loadSecrets w this).
Proof.
  intros Hr. destruct (reachable_invariant this Hr) as [Hwf Hh].
  rewrite !loadSecrets_final.
  pose proof (loadSecrets_well_formed w this Hwf) as Hwf'.
  rewrite loadSecrets_final in Hwf'.
  destruct (load_parts w (after_env w this) Hwf') as (H1 & H2 & H3 & H4).
  destruct (load_parts w this Hwf) as (G1 & G2 & G3 & G4).
  assert (Hsd : store_database w (after_env w this) = store_database w this).
  { unfold store_database. by rewrite store_project_stable. }
  assert (Hst : store_token w (after_env w this) = store_token w this).
  { unfold store_token. by rewrite store_project_stable. }
  apply manager_ext.
  - rewrite H1, Hsd, G1. destruct (store_database w this); [done|].
    destruct (supabase (secrets this)); [done|]. by destruct (env_database w).
  - rewrite H2, Hst, G2. simpl.
    destruct (nonempty (store_token w this)) as [t|]; [done|].
    set (r := match nonempty (token <$> github (secrets this)) with
              | Some s => Some s
              | None => _
              end).
    change r with (first_nonempty [token <$> github (secrets this); cli_token w;
                                   env w !! "GITHUB_TOKEN"]).
    rewrite first_nonempty_nonempty. simpl.
    destruct (nonempty (token <$> github (secrets this))); [done|].
    destruct (nonempty (cli_token w)); [done|].
    by destruct (nonempty (env w !! "GITHUB_TOKEN")).
  - rewrite H3, G3. destruct (gcloud (secrets this)); [done|]. by destruct (env_cloud w).
  - by rewrite H4, G4.
Qed.

Lemma loading_twice_is_loading_once_witness :
  final_state
    (loadSecrets world_store_and_env
       (final_state
          (loadSecrets world_store_and_env
             (final_state (constructor world_store_and_env fresh)))))
  = final_state
      (loadSecrets world_store_and_env
         (final_state (constructor world_store_and_env fresh))).
Proof.
  exact (loading_twice_is_loading_once world_store_and_env _
           (reachable_new world_store_and_env)).
Defined.

(** X4.  In every state a manager can reach (constructed, then loaded any
    number of times, in any worlds): a database record that is present has
    a non-empty URL; a token is returned exactly when [hasGitHub] holds and
    a cloud context exactly when [hasGCloud] holds; and a store handle
    exists only together with a cloud context. *)
Theorem reachable_snapshots_are_consistent (this : SecretsManager) :
  reachable this ->
  (forall c, getSupabaseConfig this = Some c -> Js.str_truthy (url c) = true)
  /\ hasGitHub this = bool_decide (is_Some (getGitHubToken this))
  /\ hasGCloud this = bool_decide (is_Some (getGCloudConfig this))
  /\ (is_Some (secretClient this) -> is_Some (getGCloudConfig this)).
Proof.
  intros Hr. destruct (reachable_invariant this Hr) as [Hwf Hh].
  destruct (well_formed_parts this Hwf) as (Hsb & Hgh & Hgc).
  unfold handle_has_project, hasGitHub, hasGCloud, getGitHubToken, getGCloudConfig,
    getSupabaseConfig in *.
  split; [exact Hsb|].
  split.
  { destruct (github (secrets this)) as [c|]; [|done]. simpl. by rewrite (Hgh c eq_refl). }
  split.
  { destruct (gcloud (secrets this)) as [c|]; [|done]. simpl. by rewrite (Hgc c eq_refl). }
  intros Hc. specialize (Hh Hc). destruct (gcloud (secrets this)); [by eexists|done].
Qed.

Lemma reachable_snapshots_are_consistent_witness :
  hasGitHub
    (final_state (loadSecrets world_env_only (final_state (constructor world_env_only fresh))))
  = bool_decide
      (is_Some
         (getGitHubToken
            (final_state (loadSecrets world_env_only
                            (final_state (constructor world_env_only fresh)))))).
Proof.
  exact (proj1 (proj2
    (reachable_snapshots_are_consistent _
       (reachable_load world_env_only _ (reachable_new world_env_only))))).
Defined.

(** X5.  With the file system access that secrets.ts imports, every call
    of [existsSync] raises.  Then, whenever the cloud CLI reports a project
    and a non-empty path of default credentials, the constructor keeps the
    project, records no credentials path, logs the failure and builds no
    store handle; a load that follows never contacts the managed store. *)
Theorem credentials_path_disables_the_store (w : World) (out1 out2 : string) :
  (forall p, exists e, existsSync w p = Throw e) ->
  execSync w project_command = Ok out1 -> Js.str_truthy (Js.trim out1) = true ->
  execSync w adc_path_command = Ok out2 -> Js.str_truthy (Js.trim out2) = true ->
  let constructed := final_state (constructor w fresh) in
  constructed
  = {| secrets := {| supabase := None; github := None;
                     gcloud := Some {| projectId := Js.trim out1;
                                       applicationCredentials := None |} |};
       secretClient := None |}
  /\ logged (trace (constructor w fresh)) = true
  /\ requested (trace (loadSecrets w constructed)) = [].
Proof.
  intros Hfs H1 Ht1 H2 Ht2 constructed.
  assert (Hnew : constructor w fresh
                 = ({| secrets := {| supabase := None; github := None;
                                     gcloud := Some {| projectId := Js.trim out1;
                                                       applicationCredentials := None |} |};
                       secretClient := None |},
                    [ExecSync project_command; ExecSync adc_path_command;
                     ExistsSync (Js.trim out2);
                     ConsoleError "Failed to initialize gcloud:"
                       (match existsSync w (Js.trim out2) with
                        | Throw e => e
                        | Ok _ => Js.error ""
                        end)],
                    Ok tt)).
  { unfold constructor, initializeGCloud, exec, project_command in *. run.
    rewrite H1. simpl. rewrite Ht1. simpl. rewrite H2. simpl. rewrite Ht2. simpl.
    by destruct (Hfs (Js.trim out2)) as [e ->]. }
  unfold constructed. rewrite Hnew. unfold final_state, trace. simpl fst. simpl snd.
  split; [reflexivity|]. split; [reflexivity|].
  rewrite loadSecrets_run. reflexivity.
Qed.

Lemma credentials_path_disables_the_store_witness :
  secretClient (final_state (constructor world_with_adc fresh)) = None
  /\ requested
       (trace (loadSecrets world_with_adc (final_state (constructor world_with_adc fresh))))
     = [].
Proof.
  destruct (credentials_path_disables_the_store world_with_adc _ _
              (fun p => ex_intro _ _ eq_refl) eq_refl eq_refl eq_refl eq_refl)
    as (Hstate & _ & Hreq).
  split; [by rewrite Hstate|exact Hreq].
Defined.

End SecretsMore.

(** ** The database adapter: how filters become predicates *)

Module SupabaseMore.
Import Supabase SupabaseTheory.

(** *** Vocabulary of the statements *)

(** The column that a builder call constrains, for the calls that a filter
    entry can add. *)
Definition step_column (step : Step) : option string :=
  match step with
  | Is c _ | Eq c _ | Neq c _ | Gt c _ | Gte c _ | Lt c _ | Lte c _
  | Like c _ | Ilike c _ | In c _ => Some c
  | _ => None
  end.

(** The equality predicates of the loop of [update] and [delete]. *)
Definition equalities (entries : list (string * Js.Value)) : Query :=
  (fun entry => Eq (fst entry) (snd entry)) <$> entries.

(** A value that [query] compares by equality: not [null], and not an
    object carrying a truthy [operator] property. *)
Definition plain (v : Js.Value) : bool :=
  match v with
  | Js.Null => false
  | _ => negb (Js.typeof_object v && Js.truthy (Js.prop v "operator"))
  end.

Definition initialized : SupabaseIntegration :=
  {| client := Some (Client "https://db.example" "key") |}.

(** *** Lemmas *)

Lemma fold_apply_eq entries q :
  fold_left apply_eq entries q = q ++ equalities entries.
Proof.
  revert q. induction entries as [|entry entries IH]; intros q; simpl.
  - by rewrite app_nil_r.
  - rewrite IH. unfold apply_eq, call. by rewrite <- app_assoc.
Qed.

Lemma apply_filter_one (entry : string * Js.Value) :
  apply_filter [] entry = []
  \/ exists step, apply_filter [] entry = [step] /\ step_column step = Some (fst entry).
Proof.
  destruct entry as [key value]. unfold apply_filter, call.
  destruct value as [| |b|x|s|items|fields]; simpl; try (right; eexists; by split).
  destruct (Js.truthy _); [|right; eexists; by split].
  unfold operator_call.
  destruct (default Js.Undefined (Js.assoc "operator" fields)); try by left.
  repeat (case_decide; [right; eexists; by split|]). by left.
Qed.

(** *** Properties *)

(** X6.  On an initialised adapter, [update] and [delete] send one request
    whose query compares every filter entry by equality, in the order of
    the entries, whatever the value: a [null] or an operator-tagged object
    is compared by equality too, and an empty filter adds no predicate at
    all. *)
Theorem update_and_delete_filter_by_equality (w : World) (this : SupabaseIntegration)
    (u : SupabaseUpdateArgs) (d : SupabaseDeleteArgs) :
  is_Some (client this) ->
  trace (update w u this)
  = [Send ([From (update_table u); Update (update_data u)]
             ++ equalities (update_filter u) ++ [SelectReturning])]
  /\ trace (delete w d this)
     = [Send ([From (delete_table d); Delete]
                ++ equalities (delete_filter d) ++ [SelectReturning])].
Proof.
  intros [c Hc]. unfold update, delete, unwrap, call. run. rewrite Hc.
  rewrite !fold_apply_eq. rewrite <- !app_assoc. simpl.
  split.
  - destruct (send w _) as [r|]; [destruct (error r)|]; reflexivity.
  - destruct (send w _) as [r|]; [destruct (error r)|]; reflexivity.
Qed.

Lemma update_and_delete_filter_by_equality_witness :
  trace (update AdaptersTheory.supabase_world
           {| update_table := "players"; update_data := Js.Obj [("active", Js.Bool false)];
              update_filter := [("left_at", Js.Null)] |} initialized)
  = [Send [From "players"; Update (Js.Obj [("active", Js.Bool false)]);
           Eq "left_at" Js.Null; SelectReturning]]
  /\ trace (delete AdaptersTheory.supabase_world
             {| delete_table := "players"; delete_filter := [] |} initialized)
     = [Send [From "players"; Delete; SelectReturning]].
Proof.
  exact (update_and_delete_filter_by_equality AdaptersTheory.supabase_world initialized
           {| update_table := "players"; update_data := Js.Obj [("active", Js.Bool false)];
              update_filter := [("left_at", Js.Null)] |}
           {| delete_table := "players"; delete_filter := [] |}
           (ex_intro _ _ eq_refl)).
Defined.

(** X7.  The query that [query] builds is made of its two opening calls,
    then the predicates of the filter, then the ordering and the limit.
    Each filter entry adds at most one predicate, on its own key and in
    its own place: the columns of the predicates are a sub-list of the
    keys of the filter, in the same order. *)
Theorem filters_stay_on_their_keys (args : SupabaseQueryArgs) :
  let entries := default [] (filter args) in
  build_query args
  = opening args ++ predicates entries ++ ordering args ++ limiting args
  /\ Forall (fun step => is_Some (step_column step)) (predicates entries)
  /\ sublist (omap step_column (predicates entries)) (fst <$> entries).
Proof.
  intros entries. split; [apply build_query_shape|].
  clearbody entries. induction entries as [|entry entries [IH1 IH2]].
  - split; [constructor|]. reflexivity.
  - rewrite predicates_cons.
    destruct (apply_filter_one entry) as [->|(step & -> & Hcol)]; simpl.
    + split; [done|]. by apply sublist_cons.
    + split; [constructor; [by rewrite Hcol|done]|].
      rewrite Hcol. simpl. by apply sublist_skip.
Qed.

(** X8.  A filter value that is neither [null] nor an object with a truthy
    [operator] property is compared by equality: this holds of every
    boolean, number, text and array, and of [undefined].  Tagging such a
    value with the operator eq builds the same predicate. *)
Theorem plain_values_filter_by_equality (q : Query) (key : string) (v : Js.Value) :
  plain v = true ->
  apply_filter q (key, v) = q ++ [Eq key v]
  /\ apply_filter q (key, Js.Obj (tag "eq" v)) = apply_filter q (key, v).
Proof.
  intros Hplain.
  assert (H : apply_filter q (key, v) = q ++ [Eq key v]).
  { unfold apply_filter, call. unfold plain in Hplain.
    destruct v; try done; apply negb_true_iff in Hplain; by rewrite Hplain. }
  split; [exact H|]. by rewrite H.
Qed.

Lemma plain_values_filter_by_equality_witness :
  build_query
    (with_filter [("tags", Js.Arr [Js.Str "a"; Js.Str "b"]); ("active", Js.Bool true);
                  ("meta", Js.Obj [("operator", Js.Str "")])] players)
  = [From "players"; Select "*"; Eq "tags" (Js.Arr [Js.Str "a"; Js.Str "b"]);
     Eq "active" (Js.Bool true); Eq "meta" (Js.Obj [("operator", Js.Str "")])]
  /\ apply_filter [] ("active", Js.Obj (tag "eq" (Js.Bool true)))
     = [Eq "active" (Js.Bool true)].
Proof.
  split; [reflexivity|].
  destruct (plain_values_filter_by_equality [] "active" (Js.Bool true) eq_refl) as [H1 H2].
  by rewrite H2, H1.
Defined.

End SupabaseMore.

(** ** The adapters: initialisation and the operations behind the guard *)

Module AdaptersMore.
Import AdaptersTheory.

(** *** Vocabulary of the statements *)

(** A secrets manager holding the three kinds of credentials. *)
Definition loaded_manager : Secrets.SecretsManager :=
  {| Secrets.secrets :=
       {| Secrets.supabase :=
            Some {| Secrets.url := "https://db.example"; Secrets.anonKey := "key";
                    Secrets.serviceRoleKey := None |};
          Secrets.github := Some {| Secrets.token := "abc123" |};
          Secrets.gcloud :=
            Some {| Secrets.projectId := "demo";
                    Secrets.applicationCredentials := None |} |};
     Secrets.secretClient := None |}.

(** The database client library refuses to build a client. *)
Definition world_no_client : Supabase.World :=
  {| Supabase.createClient := fun _ _ => Throw (Js.error "Invalid URL");
     Supabase.send := fun _ => Throw unreachable;
     Supabase.rpc_call := fun _ _ => Throw unreachable |}.

(** The storage client can be built, the secret-manager client cannot. *)
Definition world_half_built : GCloud.World :=
  {| GCloud.newStorage := fun p => Ok (GCloud.StorageClient p);
     GCloud.newSecretManagerServiceClient := Throw (Js.error "Could not load credentials");
     GCloud.getFiles := fun _ _ => Throw unreachable;
     GCloud.download := fun _ _ => Ok "contents";
     GCloud.save := fun _ _ _ _ => Throw unreachable;
     GCloud.accessSecretVersion := fun _ => Throw unreachable;
     GCloud.execSync := fun _ => Throw unreachable |}.

(** The adapter that the half-built world leaves behind. *)
Definition half_built : GCloud.GCloudIntegration :=
  {| GCloud.storage := Some (GCloud.StorageClient "demo");
     GCloud.secretClient := None;
     GCloud.projectId := Some "demo" |}.

(** The name under which the cloud adapter requests a secret. *)
Definition version_name (p : string) (a : GCloud.GCloudSecretArgs) : string :=
  "projects/" +:+ p +:+ "/secrets/" +:+ GCloud.secretId a
    +:+ "/versions/" +:+ Js.str_or (GCloud.version a) "latest".

(** A store that holds one secret, with text [text]. *)
Definition world_one_secret (name text : string) : GCloud.World :=
  {| GCloud.newStorage := fun p => Ok (GCloud.StorageClient p);
     GCloud.newSecretManagerServiceClient := Ok Secrets.SecretClient;
     GCloud.getFiles := fun _ _ => Throw unreachable;
     GCloud.download := fun _ _ => Throw unreachable;
     GCloud.save := fun _ _ _ _ => Throw unreachable;
     GCloud.accessSecretVersion := fun n =>
       if decide (n = name)
       then Ok {| Secrets.payload := Some {| Secrets.data := Some text |} |}
       else Throw (Js.error "5 NOT_FOUND");
     GCloud.execSync := fun _ => Throw unreachable |}.

Definition cloud_ready : GCloud.GCloudIntegration :=
  {| GCloud.storage := Some (GCloud.StorageClient "demo");
     GCloud.secretClient := Some Secrets.SecretClient;
     GCloud.projectId := Some "demo" |}.

(** The parameters with which [getFileContent] asks for a path. *)
Definition file_parameters (a : GitHub.GitHubFileArgs) : Js.Value :=
  Js.Obj (GitHub.repo_parameters (GitHub.file_repo a)
            ++ [("path", Js.Str (GitHub.path a));
                ("ref", Js.of_option Js.Str (GitHub.ref a))]).

(** What [getFileContent] returns for a file. *)
Definition file_summary (data : Js.Value) (text : string) : Js.Value :=
  Js.Obj [("name", Js.prop data "name"); ("path", Js.prop data "path");
          ("content", Js.Str text); ("size", Js.prop data "size");
          ("sha", Js.prop data "sha"); ("url", Js.prop data "html_url")].

Definition github_ready : GitHub.GitHubIntegration :=
  {| GitHub.octokit := Some (GitHub.OctokitClient "abc123") |}.

Definition not_found : Js.Error := {| Js.message := "Not Found"; Js.status := Some 404%Z |}.

(** The host answers every request with a 404 error. *)
Definition world_not_found : GitHub.World :=
  {| GitHub.newOctokit := fun t => Ok (GitHub.OctokitClient t);
     GitHub.request := fun _ _ => Throw not_found;
     GitHub.fromBase64 := fun _ => Throw (Js.TypeError "not a string") |}.

Definition readme : GitHub.GitHubFileArgs :=
  {| GitHub.file_repo := {| GitHub.owner := "anandroid"; GitHub.repo := "pulse" |};
     GitHub.path := "README.md"; GitHub.ref := None |}.

Definition with_issue_page (n : option float) (a : GitHub.GitHubIssueArgs)
  : GitHub.GitHubIssueArgs :=
  {| GitHub.issue_repo := GitHub.issue_repo a; GitHub.issue_state := GitHub.issue_state a;
     GitHub.issue_labels := GitHub.issue_labels a; GitHub.assignee := GitHub.assignee a;
     GitHub.creator := GitHub.creator a; GitHub.issue_per_page := n |}.

Definition with_issue_state (st : option string) (a : GitHub.GitHubIssueArgs)
  : GitHub.GitHubIssueArgs :=
  {| GitHub.issue_repo := GitHub.issue_repo a; GitHub.issue_state := st;
     GitHub.issue_labels := GitHub.issue_labels a; GitHub.assignee := GitHub.assignee a;
     GitHub.creator := GitHub.creator a; GitHub.issue_per_page := GitHub.issue_per_page a |}.

Definition with_pr_page (n : option float) (a : GitHub.GitHubPRArgs) : GitHub.GitHubPRArgs :=
  {| GitHub.pr_repo := GitHub.pr_repo a; GitHub.pr_state := GitHub.pr_state a;
     GitHub.pr_head := GitHub.pr_head a; GitHub.pr_base := GitHub.pr_base a;
     GitHub.pr_per_page := n |}.

Definition with_pr_state (st : option string) (a : GitHub.GitHubPRArgs) : GitHub.GitHubPRArgs :=
  {| GitHub.pr_repo := GitHub.pr_repo a; GitHub.pr_state := st;
     GitHub.pr_head := GitHub.pr_head a; GitHub.pr_base := GitHub.pr_base a;
     GitHub.pr_per_page := GitHub.pr_per_page a |}.

Definition with_search_page (n : option float) (a : GitHub.GitHubSearchArgs)
  : GitHub.GitHubSearchArgs :=
  {| GitHub.query := GitHub.query a; GitHub.type := GitHub.type a;
     GitHub.search_per_page := n |}.

(** *** Lemmas *)

Lemma supabase_initialize_outcome ws sm s :
  (outcome (Supabase.initialize ws sm s) = Ok true
   <-> exists c h, Secrets.getSupabaseConfig sm = Some c
         /\ Secrets.hasSupabase sm = true
         /\ Supabase.createClient ws (Secrets.url c) (Secrets.anonKey c) = Ok h)
  /\ (outcome (Supabase.initialize ws sm s) = Ok true ->
      Supabase.isAvailable (final_state (Supabase.initialize ws sm s)) = true)
  /\ (forall e, outcome (Supabase.initialize ws sm s) = Throw e ->
        final_state (Supabase.initialize ws sm s) = s)
  /\ (forall c e,
        Secrets.getSupabaseConfig sm = Some c ->
        Secrets.hasSupabase sm = true ->
        Supabase.createClient ws (Secrets.url c) (Secrets.anonKey c) = Throw e ->
        Supabase.initialize ws sm s
        = (s, [Supabase.CreateClient (Secrets.url c) (Secrets.anonKey c)], Throw e))
  /\ (Secrets.hasSupabase sm = false ->
      Supabase.initialize ws sm s = (s, [], Ok false)).
Proof.
  unfold Supabase.initialize, Secrets.hasSupabase, Secrets.getSupabaseConfig.
  destruct (Secrets.supabase (Secrets.secrets sm)) as [c|]; simpl.
  2: { split; [split; [done|]|done]. by intros (c & h & [=] & _). }
  destruct (Js.str_truthy (Secrets.url c)) eqn:Hu;
    destruct (Js.str_truthy (Secrets.anonKey c)) eqn:Hk; simpl.
  2-4: split; [split; [done|]|split; [done|split; [done|split; [|done]]]];
    [by intros (c' & h & _ & [=] & _)|by intros c' e _ [=]].
  run. destruct (Supabase.createClient ws _ _) as [h|e] eqn:Hc; simpl.
  - split; [|split; [done|split; [done|split; [|done]]]].
    + split; [|done]. intros _. exists c, h. by rewrite Hc.
    + intros c' e [= <-] _ Hc'. by rewrite Hc in Hc'.
  - split; [|split; [done|split; [done|split; [|done]]]].
    + split; [done|]. intros (c' & h & [= <-] & _ & Hc'). by rewrite Hc in Hc'.
    + intros c' e' [= <-] _ Hc'. rewrite Hc in Hc'. by injection Hc' as <-.
Qed.

Lemma github_initialize_outcome wg sm g :
  (outcome (GitHub.initialize wg sm g) = Ok true
   <-> exists t h, Secrets.getGitHubToken sm = Some t
         /\ Secrets.hasGitHub sm = true
         /\ GitHub.newOctokit wg t = Ok h)
  /\ (outcome (GitHub.initialize wg sm g) = Ok true ->
      GitHub.isAvailable (final_state (GitHub.initialize wg sm g)) = true)
  /\ (forall e, outcome (GitHub.initialize wg sm g) = Throw e ->
        final_state (GitHub.initialize wg sm g) = g)
  /\ (forall t e,
        Secrets.getGitHubToken sm = Some t ->
        Secrets.hasGitHub sm = true ->
        GitHub.newOctokit wg t = Throw e ->
        GitHub.initialize wg sm g = (g, [GitHub.NewOctokit t], Throw e))
  /\ (Secrets.hasGitHub sm = false ->
      GitHub.initialize wg sm g = (g, [], Ok false)).
Proof.
  unfold GitHub.initialize, Secrets.hasGitHub, Secrets.getGitHubToken.
  destruct (Secrets.github (Secrets.secrets sm)) as [[t]|]; simpl.
  2: { split; [split; [done|]|done]. by intros (c & h & [=] & _). }
  destruct (Js.str_truthy t) eqn:Ht; simpl.
  2: { split; [split; [done|]|split; [done|split; [done|split; [|done]]]].
       - by intros (t' & h & _ & [=] & _).
       - by intros t' e _ [=]. }
  run. destruct (GitHub.newOctokit wg t) as [h|e] eqn:Hc; simpl.
  - split; [|split; [done|split; [done|split; [|done]]]].
    + split; [|done]. intros _. exists t, h. by rewrite Hc.
    + intros t' e [= <-] _ Hc'. by rewrite Hc in Hc'.
  - split; [|split; [done|split; [done|split; [|done]]]].
    + split; [done|]. intros (t' & h & [= <-] & _ & Hc'). by rewrite Hc in Hc'.
    + intros t' e' [= <-] _ Hc'. rewrite Hc in Hc'. by injection Hc' as <-.
Qed.

(** *** Properties *)

(** X9.  The database and source-hosting adapters initialise exactly when
    the secrets manager holds their credentials and the client library
    builds a client; the adapter is then available.  When the library
    raises instead, [initialize] has made that one call, raises the same
    error and leaves the adapter as it was.  Without the credentials it
    returns false, makes no call and leaves the adapter as it was. *)
Theorem initialize_needs_credentials_and_a_client
    (ws : Supabase.World) (wg : GitHub.World) (sm : Secrets.SecretsManager)
    (s : Supabase.SupabaseIntegration) (g : GitHub.GitHubIntegration) :
  ((outcome (Supabase.initialize ws sm s) = Ok true
    <-> exists c h, Secrets.getSupabaseConfig sm = Some c
          /\ Secrets.hasSupabase sm = true
          /\ Supabase.createClient ws (Secrets.url c) (Secrets.anonKey c) = Ok h)
   /\ (outcome (Supabase.initialize ws sm s) = Ok true ->
       Supabase.isAvailable (final_state (Supabase.initialize ws sm s)) = true)
   /\ (forall e, outcome (Supabase.initialize ws sm s) = Throw e ->
         final_state (Supabase.initialize ws sm s) = s)
   /\ (forall c e,
         Secrets.getSupabaseConfig sm = Some c ->
         Secrets.hasSupabase sm = true ->
         Supabase.createClient ws (Secrets.url c) (Secrets.anonKey c) = Throw e ->
         Supabase.initialize ws sm s
         = (s, [Supabase.CreateClient (Secrets.url c) (Secrets.anonKey c)], Throw e))
   /\ (Secrets.hasSupabase sm = false ->
       Supabase.initialize ws sm s = (s, [], Ok false)))
  /\ ((outcome (GitHub.initialize wg sm g) = Ok true
       <-> exists t h, Secrets.getGitHubToken sm = Some t
             /\ Secrets.hasGitHub sm = true
             /\ GitHub.newOctokit wg t = Ok h)
      /\ (outcome (GitHub.initialize wg sm g) = Ok true ->
          GitHub.isAvailable (final_state (GitHub.initialize wg sm g)) = true)
      /\ (forall e, outcome (GitHub.initialize wg sm g) = Throw e ->
            final_state (GitHub.initialize wg sm g) = g)
      /\ (forall t e,
            Secrets.getGitHubToken sm = Some t ->
            Secrets.hasGitHub sm = true ->
            GitHub.newOctokit wg t = Throw e ->
            GitHub.initialize wg sm g = (g, [GitHub.NewOctokit t], Throw e))
      /\ (Secrets.hasGitHub sm = false ->
          GitHub.initialize wg sm g = (g, [], Ok false))).
Proof.
  split; [apply supabase_initialize_outcome|apply github_initialize_outcome].
Qed.

Lemma initialize_needs_credentials_and_a_client_witness :
  outcome (Supabase.initialize supabase_world loaded_manager Supabase.fresh) = Ok true
  /\ Supabase.isAvailable
       (final_state (Supabase.initialize supabase_world loaded_manager Supabase.fresh))
     = true
  /\ outcome (GitHub.initialize github_world loaded_manager GitHub.fresh) = Ok true
  /\ Supabase.initialize world_no_client loaded_manager Supabase.fresh
     = (Supabase.fresh, [Supabase.CreateClient "https://db.example" "key"],
        Throw (Js.error "Invalid URL"))
  /\ GitHub.initialize github_world Secrets.fresh GitHub.fresh
     = (GitHub.fresh, [], Ok false).
Proof.
  destruct (initialize_needs_credentials_and_a_client supabase_world github_world
              loaded_manager Supabase.fresh GitHub.fresh)
    as [(Hs & Hsa & _) (Hg & _)].
  destruct (initialize_needs_credentials_and_a_client world_no_client github_world
              loaded_manager Supabase.fresh GitHub.fresh)
    as [(_ & _ & _ & Hraise & _) _].
  destruct (initialize_needs_credentials_and_a_client supabase_world github_world
              Secrets.fresh Supabase.fresh GitHub.fresh)
    as [_ (_ & _ & _ & _ & Hnone)].
  assert (H1 : outcome (Supabase.initialize supabase_world loaded_manager Supabase.fresh)
               = Ok true).
  { apply Hs. eexists _, _. repeat split. }
  split; [exact H1|]. split; [exact (Hsa H1)|].
  split; [apply Hg; eexists _, _; repeat split|].
  split; [exact (Hraise _ _ eq_refl eq_refl eq_refl)|exact (Hnone eq_refl)].
Defined.

(** X10.  [initialize] of the cloud adapter never raises.  It returns true
    exactly when the secrets manager holds a project and both client
    libraries build their client, and the adapter is then available.  When
    the storage client is built and the secret-manager client is not, it
    returns false and logs the error after the two attempts, yet keeps the
    storage handle: the adapter is then available exactly when it held a
    secret-manager client before, so that one which held none (a fresh
    one) stays unavailable, while its storage operations pass their guard
    and reach the network.  When the storage client is not built, it
    returns false and logs the error without trying the secret-manager
    client, and keeps the handles it had. *)
Theorem cloud_initialize_outcomes (w : GCloud.World) (sm : Secrets.SecretsManager)
    (this : GCloud.GCloudIntegration) :
  (exists b, outcome (GCloud.initialize w sm this) = Ok b)
  /\ (outcome (GCloud.initialize w sm this) = Ok true
      <-> exists c h k, Secrets.getGCloudConfig sm = Some c
            /\ Secrets.hasGCloud sm = true
            /\ GCloud.newStorage w (Secrets.projectId c) = Ok h
            /\ GCloud.newSecretManagerServiceClient w = Ok k)
  /\ (outcome (GCloud.initialize w sm this) = Ok true ->
      GCloud.isAvailable (final_state (GCloud.initialize w sm this)) = true)
  /\ (forall c h e,
        Secrets.getGCloudConfig sm = Some c ->
        Secrets.hasGCloud sm = true ->
        GCloud.newStorage w (Secrets.projectId c) = Ok h ->
        GCloud.newSecretManagerServiceClient w = Throw e ->
        let after := final_state (GCloud.initialize w sm this) in
        outcome (GCloud.initialize w sm this) = Ok false
        /\ GCloud.storage after = Some h
        /\ (GCloud.secretClient this = None -> GCloud.isAvailable after = false)
        /\ (forall a, trace (GCloud.readFile w a after)
                      = [GCloud.Download (GCloud.read_bucket a) (GCloud.read_file a)])
        /\ trace (GCloud.initialize w sm this)
           = [GCloud.NewStorage (Secrets.projectId c);
              GCloud.NewSecretManagerServiceClient;
              GCloud.ConsoleError "Failed to initialize Google Cloud clients:" e]
        /\ GCloud.isAvailable after = bool_decide (is_Some (GCloud.secretClient this)))
  /\ (forall c e,
        Secrets.getGCloudConfig sm = Some c ->
        Secrets.hasGCloud sm = true ->
        GCloud.newStorage w (Secrets.projectId c) = Throw e ->
        GCloud.initialize w sm this
        = (GCloud.set_projectId (Secrets.projectId c) this,
           [GCloud.NewStorage (Secrets.projectId c);
            GCloud.ConsoleError "Failed to initialize Google Cloud clients:" e],
           Ok false))
  /\ (Secrets.hasGCloud sm = false ->
      GCloud.initialize w sm this = (this, [], Ok false)).
Proof.
  unfold GCloud.initialize, Secrets.hasGCloud, Secrets.getGCloudConfig.
  destruct (Secrets.gcloud (Secrets.secrets sm)) as [c|]; simpl.
  2: { split; [by eexists|]. split; [|done]. split; [done|].
       by intros (c & h & k & [=] & _). }
  destruct (Js.str_truthy (Secrets.projectId c)) eqn:Hp; simpl.
  2: { split; [by eexists|]. split; [|split; [done|split; [|split; [|done]]]].
       - split; [done|]. by intros (c' & h & k & _ & [=] & _).
       - by intros c' h e _ [=].
       - by intros c' e _ [=]. }
  run.
  destruct (GCloud.newStorage w (Secrets.projectId c)) as [h|e1] eqn:Hs; simpl.
  - destruct (GCloud.newSecretManagerServiceClient w) as [k|e2] eqn:Hk; simpl.
    + split; [by eexists|]. split; [|split; [|split; [|split; [|done]]]].
      * split; [|done]. intros _. exists c, h, k. by rewrite Hs.
      * intros _. unfold GCloud.isAvailable. simpl. by rewrite Hp.
      * by intros c' h' e [= <-] _ _ [=].
      * intros c' e [= <-] _ Hs'. by rewrite Hs in Hs'.
    + split; [by eexists|]. split; [|split; [done|split; [|split; [|done]]]].
      * split; [done|]. by intros (c' & h' & k & _ & _ & _ & [=]).
      * intros c' h' e [= <-] _ Hs' He. rewrite Hs in Hs'. injection Hs' as <-.
        injection He as <-.
        split; [done|]. split; [done|]. split; [|split; [done|split; [done|]]].
        -- intros Hnone. unfold GCloud.isAvailable. simpl. by rewrite Hnone.
        -- unfold GCloud.isAvailable. simpl. rewrite Hp.
           by rewrite andb_true_r.
      * intros c' e [= <-] _ Hs'. by rewrite Hs in Hs'.
  - split; [by eexists|]. split; [|split; [done|split; [|split; [|done]]]].
    + split; [done|]. intros (c' & h & k & [= <-] & _ & Hs' & _). by rewrite Hs in Hs'.
    + intros c' h e [= <-] _ Hs'. by rewrite Hs in Hs'.
    + intros c' e [= <-] _ Hs'. rewrite Hs in Hs'. by injection Hs' as <-.
Qed.

Lemma cloud_initialize_outcomes_witness :
  GCloud.initialize world_half_built loaded_manager GCloud.fresh
  = (half_built,
     [GCloud.NewStorage "demo"; GCloud.NewSecretManagerServiceClient;
      GCloud.ConsoleError "Failed to initialize Google Cloud clients:"
        (Js.error "Could not load credentials")],
     Ok false)
  /\ GCloud.isAvailable half_built = false
  /\ GCloud.readFile world_half_built
       {| GCloud.read_bucket := "assets"; GCloud.read_file := "notes.txt" |} half_built
     = (half_built, [GCloud.Download "assets" "notes.txt"], Ok "contents")
  /\ trace (GCloud.initialize world_half_built loaded_manager GCloud.fresh)
     = [GCloud.NewStorage "demo"; GCloud.NewSecretManagerServiceClient;
        GCloud.ConsoleError "Failed to initialize Google Cloud clients:"
          (Js.error "Could not load credentials")]
  /\ GCloud.isAvailable
       (final_state (GCloud.initialize world_half_built loaded_manager cloud_ready))
     = true.
Proof.
  destruct (cloud_initialize_outcomes world_half_built loaded_manager GCloud.fresh)
    as (_ & _ & _ & Hhalf & _).
  destruct (Hhalf _ _ _ eq_refl eq_refl eq_refl eq_refl) as (_ & _ & Hun & _ & Hlog & _).
  destruct (cloud_initialize_outcomes world_half_built loaded_manager cloud_ready)
    as (_ & _ & _ & Hready & _).
  destruct (Hready _ _ _ eq_refl eq_refl eq_refl eq_refl) as (_ & _ & _ & _ & _ & Hav).
  split; [reflexivity|]. split; [exact (Hun eq_refl)|]. split; [reflexivity|].
  split; [exact Hlog|exact Hav].
Defined.

(** X11.  On a cloud adapter with a secret-manager client and a project,
    [getSecret] makes one request, for the version asked for or for the
    latest one, and never returns an empty text: a version with no data or
    with empty data raises a not-found error naming the secret, and a
    failing request raises its own error unchanged. *)
Theorem cloud_secret_is_never_empty (w : GCloud.World) (this : GCloud.GCloudIntegration)
    (a : GCloud.GCloudSecretArgs) (p : string) :
  is_Some (GCloud.secretClient this) ->
  GCloud.projectId this = Some p ->
  Js.str_truthy p = true ->
  trace (GCloud.getSecret w a this) = [GCloud.AccessSecretVersion (version_name p a)]
  /\ final_state (GCloud.getSecret w a this) = this
  /\ (forall v, outcome (GCloud.getSecret w a this) = Ok v ->
        Js.str_truthy v = true
        /\ exists version,
             GCloud.accessSecretVersion w (version_name p a) = Ok version
             /\ Secrets.payload version ≫= Secrets.data = Some v)
  /\ (forall version,
        GCloud.accessSecretVersion w (version_name p a) = Ok version ->
        Js.opt_truthy (Secrets.payload version ≫= Secrets.data) = false ->
        outcome (GCloud.getSecret w a this)
        = Throw (Js.error ("Secret " +:+ GCloud.secretId a +:+ " not found or empty")))
  /\ (forall e,
        GCloud.accessSecretVersion w (version_name p a) = Throw e ->
        outcome (GCloud.getSecret w a this) = Throw e).
Proof.
  intros [c Hc] Hp Ht. unfold GCloud.getSecret, version_name. run.
  rewrite Hc, Hp, Ht. simpl.
  destruct (GCloud.accessSecretVersion w _) as [version|e]; simpl.
  - destruct (Secrets.payload version ≫= Secrets.data) as [v|] eqn:Hv; simpl;
      [destruct (Js.str_truthy v) eqn:Htv; simpl|];
      (split; [done|]); (split; [done|]); (split; [|split]).
    + intros v' [= <-]. split; [done|]. by exists version.
    + intros version' [= <-]. rewrite Hv. simpl. by rewrite Htv.
    + by intros e [=].
    + by intros v' [=].
    + by intros version' [= <-].
    + by intros e [=].
    + by intros v' [=].
    + by intros version' [= <-].
    + by intros e [=].
  - split; [done|]. split; [done|]. split; [by intros v [=]|].
    split; [by intros version [=]|]. by intros e' [= <-].
Qed.

Lemma cloud_secret_is_never_empty_witness :
  GCloud.getSecret
    (world_one_secret "projects/demo/secrets/api-key/versions/latest" "")
    {| GCloud.secretId := "api-key"; GCloud.version := None |} cloud_ready
  = (cloud_ready,
     [GCloud.AccessSecretVersion "projects/demo/secrets/api-key/versions/latest"],
     Throw (Js.error "Secret api-key not found or empty")).
Proof.
  destruct (cloud_secret_is_never_empty
              (world_one_secret "projects/demo/secrets/api-key/versions/latest" "")
              cloud_ready {| GCloud.secretId := "api-key"; GCloud.version := None |}
              "demo" (ex_intro _ _ eq_refl) eq_refl eq_refl)
    as (Htrace & Hstate & _ & Hempty & _).
  specialize (Hempty _ eq_refl eq_refl).
  destruct (GCloud.getSecret _ _ cloud_ready) as [[s t] r].
  unfold trace, final_state, outcome in *. simpl in *. by subst.
Defined.

(** X12.  On an initialised source-hosting adapter, [getFileContent] makes
    one request.  A request that fails with status 404 raises a
    file-not-found error naming the path; any other failure is raised
    unchanged.  A directory listing raises the not-a-file error.  A file
    is returned with its content decoded from base64. *)
Theorem file_content_outcomes (w : GitHub.World) (this : GitHub.GitHubIntegration)
    (a : GitHub.GitHubFileArgs) :
  is_Some (GitHub.octokit this) ->
  trace (GitHub.getFileContent w a this)
  = [GitHub.Request GitHub.repos_getContent (file_parameters a)]
  /\ (forall e,
        GitHub.request w GitHub.repos_getContent (file_parameters a) = Throw e ->
        outcome (GitHub.getFileContent w a this)
        = Throw (if bool_decide (Js.status e = Some 404%Z)
                 then Js.error ("File not found: " +:+ GitHub.path a)
                 else e))
  /\ (forall items,
        GitHub.request w GitHub.repos_getContent (file_parameters a) = Ok (Js.Arr items) ->
        outcome (GitHub.getFileContent w a this) = Throw (Js.error "Path is not a file"))
  /\ (forall fields text,
        GitHub.request w GitHub.repos_getContent (file_parameters a) = Ok (Js.Obj fields) ->
        is_Some (Js.assoc "content" fields) ->
        Js.assoc "type" fields = Some (Js.Str "file") ->
        GitHub.fromBase64 w (Js.prop (Js.Obj fields) "content") = Ok text ->
        outcome (GitHub.getFileContent w a this)
        = Ok (file_summary (Js.Obj fields) text)).
Proof.
  intros [o Ho]. unfold GitHub.getFileContent, GitHub.call, file_parameters. run.
  rewrite Ho.
  destruct (GitHub.request w GitHub.repos_getContent _) as [data|e]; simpl.
  - split.
    { destruct (GitHub.has_content data) as [[]|]; simpl; [destruct (GitHub.is_file data)|..];
        simpl; try done.
      - destruct (Js.object _) as [v|e]; simpl; [done|]. by destruct (bool_decide _).
      - by destruct (bool_decide _). }
    split; [done|]. split.
    + by intros items [= ->].
    + intros fields text [= ->] [c Hcontent] Htype Htext.
      unfold GitHub.is_file, file_summary. simpl in *.
      rewrite Hcontent, Htype in *. simpl in *.
      unfold Js.object. simpl. by rewrite Htext.
  - split; [by destruct (bool_decide _)|]. split; [|done].
    intros e' [= <-]. by destruct (bool_decide _).
Qed.

Lemma file_content_outcomes_witness :
  GitHub.getFileContent world_not_found readme github_ready
  = (github_ready,
     [GitHub.Request GitHub.repos_getContent
        (Js.Obj [("owner", Js.Str "anandroid"); ("repo", Js.Str "pulse");
                 ("path", Js.Str "README.md"); ("ref", Js.Undefined)])],
     Throw (Js.error "File not found: README.md")).
Proof.
  destruct (file_content_outcomes world_not_found github_ready readme
              (ex_intro _ _ eq_refl)) as (Htrace & Hfail & _).
  specialize (Hfail _ eq_refl).
  destruct (GitHub.getFileContent world_not_found readme github_ready) as [[s t] r] eqn:E.
  assert (s = github_ready) as -> by (by vm_compute in E; injection E as <- _ _).
  unfold trace, outcome in *. simpl in *. by subst.
Defined.

(** X13.  In [listIssues], [listPullRequests] and [search] a page size
    that is missing, zero or not a number is sent as 30, and in the two
    listings a state that is missing or empty is sent as open: the call
    behaves as if the default had been given. *)
Theorem page_size_and_state_defaults (w : GitHub.World) (this : GitHub.GitHubIntegration)
    (n : float) (st : string)
    (i : GitHub.GitHubIssueArgs) (p : GitHub.GitHubPRArgs) (s : GitHub.GitHubSearchArgs) :
  Js.num_truthy n = false ->
  Js.str_truthy st = false ->
  (GitHub.listIssues w (with_issue_page (Some n) i) this
   = GitHub.listIssues w (with_issue_page (Some 30%float) i) this
   /\ GitHub.listIssues w (with_issue_page None i) this
      = GitHub.listIssues w (with_issue_page (Some 30%float) i) this
   /\ GitHub.listIssues w (with_issue_state (Some st) i) this
      = GitHub.listIssues w (with_issue_state (Some "open") i) this
   /\ GitHub.listIssues w (with_issue_state None i) this
      = GitHub.listIssues w (with_issue_state (Some "open") i) this)
  /\ (GitHub.listPullRequests w (with_pr_page (Some n) p) this
      = GitHub.listPullRequests w (with_pr_page (Some 30%float) p) this
      /\ GitHub.listPullRequests w (with_pr_page None p) this
         = GitHub.listPullRequests w (with_pr_page (Some 30%float) p) this
      /\ GitHub.listPullRequests w (with_pr_state (Some st) p) this
         = GitHub.listPullRequests w (with_pr_state (Some "open") p) this
      /\ GitHub.listPullRequests w (with_pr_state None p) this
         = GitHub.listPullRequests w (with_pr_state (Some "open") p) this)
  /\ (GitHub.search w (with_search_page (Some n) s) this
      = GitHub.search w (with_search_page (Some 30%float) s) this
      /\ GitHub.search w (with_search_page None s) this
         = GitHub.search w (with_search_page (Some 30%float) s) this).
Proof.
  intros Hn Hst.
  assert (H30 : Js.num_or (Some 30%float) 30 = 30%float).
  { unfold Js.num_or. by destruct (Js.num_truthy 30). }
  assert (Hnum : Js.num_or (Some n) 30 = 30%float).
  { unfold Js.num_or. by rewrite Hn. }
  assert (Hstr : Js.str_or (Some st) "open" = "open").
  { unfold Js.str_or. by rewrite Hst. }
  unfold GitHub.listIssues, GitHub.listPullRequests, GitHub.search,
    with_issue_page, with_issue_state, with_pr_page, with_pr_state, with_search_page.
  cbn [GitHub.issue_repo GitHub.issue_state GitHub.issue_labels GitHub.assignee
       GitHub.creator GitHub.issue_per_page GitHub.pr_repo GitHub.pr_state GitHub.pr_head
       GitHub.pr_base GitHub.pr_per_page GitHub.query GitHub.type GitHub.search_per_page].
  rewrite H30, Hnum, Hstr.
  repeat split.
Qed.

Lemma page_size_and_state_defaults_witness :
  GitHub.search github_world
    {| GitHub.query := "pulse"; GitHub.type := GitHub.code;
       GitHub.search_per_page := Some 0%float |} github_ready
  = GitHub.search github_world
      {| GitHub.query := "pulse"; GitHub.type := GitHub.code;
         GitHub.search_per_page := Some 30%float |} github_ready.
Proof.
  exact (proj1 (proj2 (proj2
    (page_size_and_state_defaults github_world github_ready 0%float ""
       {| GitHub.issue_repo := {| GitHub.owner := "anandroid"; GitHub.repo := "pulse" |};
          GitHub.issue_state := None; GitHub.issue_labels := None;
          GitHub.assignee := None; GitHub.creator := None;
          GitHub.issue_per_page := None |}
       {| GitHub.pr_repo := {| GitHub.owner := "anandroid"; GitHub.repo := "pulse" |};
          GitHub.pr_state := None; GitHub.pr_head := None; GitHub.pr_base := None;
          GitHub.pr_per_page := None |}
       {| GitHub.query := "pulse"; GitHub.type := GitHub.code;
          GitHub.search_per_page := None |}
       eq_refl eq_refl)))).
Defined.

End AdaptersMore.

(** ** The cloning script: what a run clones *)

Module SetupReposMore.
Import SetupRepos SetupReposTheory.

#[local] Set Warnings "-clear-no-such-hyp".

(** *** Vocabulary of the statements *)

Definition final_dirs (r : gset string * list Event * bool) : gset string := fst (fst r).

(** The target directory can be made and entered. *)
Definition target_ok (w : World) : Prop :=
  forall d, mkdir_p w d = true /\ cd w d = true.

(** The directory the script works in: its first argument, or the current
    directory when there is none or it is empty. *)
Definition target_of (arg : option string) : string :=
  match arg with
  | Some (String c s) => String c s
  | _ => "."
  end.

(** The line with which the script ends. *)
Definition ready_report (arg : option string) : Event :=
  Echo ("[INFO] All repositories are ready in " +:+ target_of arg).

(** The names of the list that are no directory yet. *)
Definition missing (repos : list string) (dirs : gset string) : list string :=
  filter (fun r => r ∉ dirs) repos.

(** Every command succeeds but the clone of pulse-apis. *)
Definition apis_unreachable : World :=
  {| mkdir_p := fun _ => true;
     cd := fun _ => true;
     git_clone := fun _ dir => negb (bool_decide (dir = "pulse-apis")) |}.

(** *** Lemmas *)

Lemma cloned_app t1 t2 : cloned (t1 ++ t2) = cloned t1 ++ cloned t2.
Proof. unfold cloned. apply omap_app. Qed.

Lemma main_with_target w arg dirs :
  target_ok w ->
  final_dirs (main w arg dirs) = final_dirs (clone_loop w REPOS dirs)
  /\ cloned (commands (main w arg dirs)) = cloned (commands (clone_loop w REPOS dirs))
  /\ completed (main w arg dirs) = completed (clone_loop w REPOS dirs)
  /\ (completed (clone_loop w REPOS dirs) = false ->
      forall e, last (commands (clone_loop w REPOS dirs)) = Some e ->
                last (commands (main w arg dirs)) = Some e).
Proof.
  intros Hok. unfold main.
  set (target := match arg with Some (String c s) => String c s | _ => "." end).
  destruct (Hok target) as [-> ->]. cbn [negb].
  destruct (clone_loop w REPOS dirs) as [[d t] [|]];
    unfold final_dirs, commands, completed; cbn [fst snd].
  - repeat split; [|done].
    change (Mkdir target :: Cd target :: t ++ [Echo ("[INFO] All repositories are ready in " +:+ target)])
      with ([Mkdir target; Cd target] ++ t ++ [Echo ("[INFO] All repositories are ready in " +:+ target)]).
    rewrite !cloned_app. cbn. by rewrite app_nil_r.
  - repeat split. intros _ e He.
    by rewrite !last_cons, He.
Qed.

Lemma clone_loop_safe w repos dirs :
  sublist (cloned (commands (clone_loop w repos dirs))) repos
  /\ Forall (fun d => d ∉ dirs) (cloned (commands (clone_loop w repos dirs)))
  /\ dirs ⊆ final_dirs (clone_loop w repos dirs).
Proof.
  revert dirs. induction repos as [|repo rest IH]; intros dirs; simpl.
  - repeat split; [constructor|constructor|done].
  - destruct (decide (repo ∈ dirs)) as [Hin|Hin].
    + rewrite bool_decide_true by done. destruct (IH dirs) as (H1 & H2 & H3).
      destruct (clone_loop w rest dirs) as [[d t] ok].
      unfold final_dirs, commands, cloned in *. simpl in *.
      split; [by apply sublist_cons|done].
    + rewrite bool_decide_false by done.
      destruct (git_clone w (clone_url repo) repo).
      * destruct (IH ({[repo]} ∪ dirs)) as (H1 & H2 & H3).
        destruct (clone_loop w rest ({[repo]} ∪ dirs)) as [[d t] ok].
        unfold final_dirs, commands, cloned in *. simpl in *.
        split; [by apply sublist_skip|]. split.
        { constructor; [done|]. eapply Forall_impl; [exact H2|]. set_solver. }
        set_solver.
      * unfold final_dirs, commands, cloned. simpl.
        split; [apply sublist_skip, sublist_nil_l|]. split; [|done].
        by repeat constructor.
Qed.

Lemma clone_loop_fail_fast w before repo after dirs :
  NoDup (before ++ repo :: after) ->
  (forall r, r ∈ before -> r ∈ dirs \/ git_clone w (clone_url r) r = true) ->
  repo ∉ dirs ->
  git_clone w (clone_url repo) repo = false ->
  cloned (commands (clone_loop w (before ++ repo :: after) dirs))
  = filter (fun r => r ∉ dirs) before ++ [repo]
  /\ completed (clone_loop w (before ++ repo :: after) dirs) = false
  /\ last (commands (clone_loop w (before ++ repo :: after) dirs))
     = Some (GitClone (clone_url repo) repo).
Proof.
  revert dirs. induction before as [|r before IH]; intros dirs Hnd Hbefore Hnew Hfail.
  - simpl. rewrite bool_decide_false by done. rewrite Hfail. done.
  - simpl in Hnd. apply NoDup_cons in Hnd as [Hr Hnd].
    assert ((r ∉ before) /\ (r ≠ repo)) as [Hrb Hne].
    { split; [set_solver|]. intros ->. set_solver. }
    simpl. rewrite filter_cons. destruct (decide (r ∈ dirs)) as [Hin|Hin].
    + rewrite bool_decide_true by done. rewrite decide_False by (intros H; by apply H).
      destruct (IH dirs Hnd) as (IH1 & IH2 & IH3); [set_solver|done|done|].
      destruct (clone_loop w (before ++ repo :: after) dirs) as [[d t] ok].
      unfold commands, completed, cloned in *. simpl in *.
      repeat split; [done|done|]. by rewrite !last_cons, IH3.
    + rewrite bool_decide_false by done. rewrite decide_True by done.
      destruct (Hbefore r) as [?|Hok]; [set_solver|done|]. rewrite Hok.
      destruct (IH ({[r]} ∪ dirs) Hnd) as (IH1 & IH2 & IH3);
        [set_solver|set_solver|done|].
      destruct (clone_loop w (before ++ repo :: after) ({[r]} ∪ dirs)) as [[d t] ok].
      unfold commands, completed, cloned in *. simpl in *.
      split; [|split; [done|by rewrite !last_cons, IH3]].
      f_equal. etrans; [exact IH1|].
      by rewrite filter_missing_after_clone.
Qed.

Lemma clone_loop_completed_iff w repos dirs :
  completed (clone_loop w repos dirs) = true
  <-> (forall r, r ∈ repos -> r ∉ dirs -> git_clone w (clone_url r) r = true).
Proof.
  revert dirs. induction repos as [|repo rest IH]; intros dirs; simpl.
  - split; [|done]. intros _ r Hr. by apply elem_of_nil in Hr.
  - destruct (decide (repo ∈ dirs)) as [Hin|Hin].
    + rewrite bool_decide_true by done. specialize (IH dirs).
      destruct (clone_loop w rest dirs) as [[d t] ok].
      unfold completed in *. simpl in *. rewrite IH. split.
      * intros H r Hr Hnew. apply elem_of_cons in Hr as [->|Hr]; [done|by apply H].
      * intros H r Hr. apply H. by apply elem_of_cons; right.
    + rewrite bool_decide_false by done.
      destruct (git_clone w (clone_url repo) repo) eqn:Hclone.
      * specialize (IH ({[repo]} ∪ dirs)).
        destruct (clone_loop w rest ({[repo]} ∪ dirs)) as [[d t] ok].
        unfold completed in *. simpl in *. rewrite IH. split.
        -- intros H r Hr Hnew. apply elem_of_cons in Hr as [->|Hr]; [done|].
           destruct (decide (r = repo)) as [->|Hne]; [done|].
           apply H; [done|]. apply not_elem_of_union. split; [|done].
           by apply not_elem_of_singleton.
        -- intros H r Hr Hnew. apply not_elem_of_union in Hnew as [_ Hnew].
           apply H; [|done]. by apply elem_of_cons; right.
      * unfold completed. simpl. split; [done|]. intros H.
        rewrite <- Hclone. apply H; [|done]. by apply elem_of_cons; left.
Qed.

Lemma clone_loop_completed w repos dirs :
  NoDup repos ->
  completed (clone_loop w repos dirs) = true ->
  cloned (commands (clone_loop w repos dirs)) = missing repos dirs
  /\ final_dirs (clone_loop w repos dirs) = dirs ∪ list_to_set repos.
Proof.
  unfold missing. intros Hnd. revert dirs.
  induction repos as [|repo rest IH]; intros dirs; simpl.
  - intros _. unfold final_dirs. simpl. split; [done|]. set_solver.
  - apply NoDup_cons in Hnd as [Hnotin Hnd]. rewrite filter_cons.
    destruct (decide (repo ∈ dirs)) as [Hin|Hin].
    + rewrite bool_decide_true by done. rewrite decide_False by (intros H; by apply H).
      specialize (IH Hnd dirs).
      destruct (clone_loop w rest dirs) as [[d t] ok].
      unfold final_dirs, commands, completed, cloned in *. simpl in *.
      intros Hok. destruct (IH Hok) as [IH1 IH2]. split; [done|]. set_solver.
    + rewrite bool_decide_false by done. rewrite decide_True by done.
      destruct (git_clone w (clone_url repo) repo); [|done].
      specialize (IH Hnd ({[repo]} ∪ dirs)).
      destruct (clone_loop w rest ({[repo]} ∪ dirs)) as [[d t] ok].
      unfold final_dirs, commands, completed, cloned in *. simpl in *.
      intros Hok. destruct (IH Hok) as [IH1 IH2]. split; [|set_solver].
      f_equal. etrans; [exact IH1|]. by apply filter_missing_after_clone.
Qed.

Lemma missing_nothing repos (dirs : gset string) :
  list_to_set repos ⊆ dirs -> missing repos dirs = [].
Proof.
  unfold missing. induction repos as [|r rest IH]; intros Hsub; [done|].
  rewrite filter_cons, decide_False by set_solver. apply IH. set_solver.
Qed.

Lemma main_completed w arg dirs :
  completed (main w arg dirs) = true ->
  mkdir_p w (target_of arg) = true /\ cd w (target_of arg) = true
  /\ completed (clone_loop w REPOS dirs) = true
  /\ commands (main w arg dirs)
     = Mkdir (target_of arg) :: Cd (target_of arg)
         :: commands (clone_loop w REPOS dirs) ++ [ready_report arg]
  /\ final_dirs (main w arg dirs) = final_dirs (clone_loop w REPOS dirs).
Proof.
  unfold main, ready_report. fold (target_of arg).
  destruct (mkdir_p w (target_of arg)); [|done].
  destruct (cd w (target_of arg)); [|done]. cbn [negb].
  destruct (clone_loop w REPOS dirs) as [[d t] [|]]; done.
Qed.

Lemma main_safe w arg dirs :
  sublist (cloned (commands (main w arg dirs))) REPOS
  /\ Forall (fun d => d ∉ dirs) (cloned (commands (main w arg dirs)))
  /\ dirs ⊆ final_dirs (main w arg dirs).
Proof.
  destruct (clone_loop_safe w REPOS dirs) as (H1 & H2 & H3).
  unfold main. fold (target_of arg).
  destruct (mkdir_p w (target_of arg));
    [|cbn; split; [apply sublist_nil_l|split; [constructor|done]]].
  destruct (cd w (target_of arg));
    [|cbn; split; [apply sublist_nil_l|split; [constructor|done]]].
  cbn [negb].
  destruct (clone_loop w REPOS dirs) as [[d t] [|]];
    unfold final_dirs, commands in *; cbn [fst snd] in *; [|done].
  match goal with |- context [?a :: ?b :: t ++ ?c] =>
    change (a :: b :: t ++ c) with ([a; b] ++ t ++ c) end.
  rewrite !cloned_app. cbn. by rewrite app_nil_r.
Qed.

(** *** What a run clones *)

(** X14.  The cloning script exits with success exactly when the target
    directory can be made and entered and [git clone] succeeds for every
    listed name that is no directory there yet; whether the clone of a
    name that is a directory already would succeed does not matter. *)
Theorem run_completes_iff_missing_clones_succeed w arg dirs :
  completed (main w arg dirs) = true
  <-> mkdir_p w (target_of arg) = true
      /\ cd w (target_of arg) = true
      /\ (forall r, r ∈ REPOS -> r ∉ dirs -> git_clone w (clone_url r) r = true).
Proof.
  rewrite <- clone_loop_completed_iff. split.
  - intros H. by destruct (main_completed _ _ _ H) as (? & ? & ? & _).
  - intros (Hmk & Hcd & Hloop). unfold main. fold (target_of arg).
    rewrite Hmk, Hcd. cbn [negb].
    destruct (clone_loop w REPOS dirs) as [[d t] ok].
    unfold completed in *. simpl in *. by subst ok.
Qed.

Lemma run_completes_iff_missing_clones_succeed_witness :
  completed (main apis_unreachable None {[ "pulse-apis" ]}) = true.
Proof.
  apply run_completes_iff_missing_clones_succeed.
  split; [reflexivity|]. split; [reflexivity|].
  intros r _ Hnew. simpl. rewrite bool_decide_false; [done|].
  intros ->. apply Hnew. by apply elem_of_singleton.
Defined.

(** X15.  A run of the cloning script that exits with success has run
    [git clone] for exactly the listed names that were no directory, in
    the order of the list; afterwards every listed name is a directory
    beside the ones that were there; its last command is the report that
    all repositories are ready; and a second run in the directory it
    leaves, whatever the commands do then, clones nothing. *)
Theorem completed_run_leaves_every_repository w arg dirs :
  completed (main w arg dirs) = true ->
  cloned (commands (main w arg dirs)) = missing REPOS dirs
  /\ final_dirs (main w arg dirs) = dirs ∪ list_to_set REPOS
  /\ last (commands (main w arg dirs)) = Some (ready_report arg)
  /\ forall w' arg',
       cloned (commands (main w' arg' (final_dirs (main w arg dirs)))) = [].
Proof.
  intros H. destruct (main_completed _ _ _ H) as (_ & _ & Hloop & Hcmd & Hdirs).
  destruct (clone_loop_completed w REPOS dirs REPOS_NoDup Hloop) as [Hcl Hfin].
  rewrite Hcmd, Hdirs, Hfin. split; [|split; [done|split]].
  - change (cloned ([Mkdir (target_of arg); Cd (target_of arg)]
                      ++ commands (clone_loop w REPOS dirs) ++ [ready_report arg])
            = missing REPOS dirs).
    rewrite !cloned_app, Hcl. cbn. by rewrite app_nil_r.
  - rewrite !last_cons, last_snoc. done.
  - intros w' arg'.
    destruct (main_safe w' arg' (dirs ∪ list_to_set REPOS)) as (Hsub & Hnew & _).
    destruct (cloned (commands (main w' arg' (dirs ∪ list_to_set REPOS))))
      as [|d rest]; [done|].
    exfalso. apply Forall_cons in Hnew as [Hd _]. apply Hd.
    apply elem_of_union. right. apply elem_of_list_to_set.
    eapply elem_of_sublist; [|exact Hsub]. by apply elem_of_cons; left.
Qed.

Lemma completed_run_leaves_every_repository_witness :
  cloned (commands (main all_succeed (Some "work") {[ "pulse-ui" ]}))
  = missing REPOS {[ "pulse-ui" ]}
  /\ final_dirs (main all_succeed (Some "work") {[ "pulse-ui" ]})
     = {[ "pulse-ui" ]} ∪ list_to_set REPOS
  /\ last (commands (main all_succeed (Some "work") {[ "pulse-ui" ]}))
     = Some (ready_report (Some "work"))
  /\ forall w' arg',
       cloned (commands (main w' arg'
                 (final_dirs (main all_succeed (Some "work") {[ "pulse-ui" ]})))) = [].
Proof.
  apply completed_run_leaves_every_repository. by vm_compute.
Defined.

(** X16.  The cloning script stops at the first clone that fails.  When
    the list is [before ++ repo :: after], every name of [before] is a
    directory or clones fine, and [repo] is no directory and its clone
    fails, then the clones run are the missing names of [before] followed
    by [repo], the failing clone is the last command of the run, the
    script exits with a failure, and no name of [after] becomes a
    directory. *)
Theorem first_failing_clone_ends_the_run w arg dirs before repo after :
  REPOS = before ++ repo :: after ->
  target_ok w ->
  (forall r, r ∈ before -> r ∈ dirs \/ git_clone w (clone_url r) r = true) ->
  repo ∉ dirs ->
  git_clone w (clone_url repo) repo = false ->
  cloned (commands (main w arg dirs)) = missing before dirs ++ [repo]
  /\ last (commands (main w arg dirs)) = Some (GitClone (clone_url repo) repo)
  /\ completed (main w arg dirs) = false
  /\ final_dirs (main w arg dirs) ⊆ dirs ∪ list_to_set before.
Proof.
  intros Hrepos Hok Hbefore Hnew Hfail.
  destruct (main_with_target w arg dirs Hok) as (Hdirs & Hcl & Hdone & Hlast).
  assert (Hnd : NoDup (before ++ repo :: after)) by (rewrite <- Hrepos; apply REPOS_NoDup).
  destruct (clone_loop_fail_fast w before repo after dirs Hnd Hbefore Hnew Hfail)
    as (F1 & F2 & F3).
  rewrite Hdirs, Hcl, Hdone, Hrepos. split; [done|]. split.
  { rewrite <- Hrepos in F2, F3. apply (Hlast F2 _ F3). }
  split; [done|]. clear -Hnew Hfail.
  revert dirs Hnew. induction before as [|r before IH]; intros dirs Hnew; simpl.
  - rewrite bool_decide_false by done. rewrite Hfail. unfold final_dirs. simpl. set_solver.
  - destruct (decide (r ∈ dirs)) as [Hin|Hin].
    + rewrite bool_decide_true by done. specialize (IH dirs Hnew).
      destruct (clone_loop w (before ++ repo :: after) dirs) as [[d t] ok].
      unfold final_dirs in *. simpl in *. set_solver.
    + rewrite bool_decide_false by done.
      destruct (git_clone w (clone_url r) r) eqn:Hr.
      * destruct (decide (repo = r)) as [->|Hne]; [congruence|].
        assert (Hnew' : repo ∉ {[r]} ∪ dirs) by set_solver.
        specialize (IH _ Hnew').
        destruct (clone_loop w (before ++ repo :: after) ({[r]} ∪ dirs)) as [[d t] ok].
        unfold final_dirs in *. simpl in *. set_solver.
      * unfold final_dirs. simpl. set_solver.
Qed.

Lemma first_failing_clone_ends_the_run_witness :
  cloned (commands (main apis_unreachable None {[ "pulse" ]}))
  = missing ["pulse"; "pulse-ui"] {[ "pulse" ]} ++ ["pulse-apis"]
  /\ last (commands (main apis_unreachable None {[ "pulse" ]}))
     = Some (GitClone (clone_url "pulse-apis") "pulse-apis")
  /\ completed (main apis_unreachable None {[ "pulse" ]}) = false
  /\ final_dirs (main apis_unreachable None {[ "pulse" ]})
       ⊆ {[ "pulse" ]} ∪ list_to_set ["pulse"; "pulse-ui"].
Proof.
  apply (first_failing_clone_ends_the_run apis_unreachable None {[ "pulse" ]}
           ["pulse"; "pulse-ui"] "pulse-apis"
           ["pulse-type-registry"; "terraform-gcp,"; "n8n-sync"]).
  - reflexivity.
  - intros d. by split.
  - intros r Hr. right. simpl. rewrite bool_decide_false; [done|]. intros ->.
    apply elem_of_cons in Hr as [Hr|Hr]; [discriminate Hr|].
    apply elem_of_cons in Hr as [Hr|Hr]; [discriminate Hr|]. by apply elem_of_nil in Hr.
  - intros H. apply elem_of_singleton in H. discriminate H.
  - reflexivity.
Defined.

(** X17.  Whatever the commands do, the cloning script runs [git clone]
    only for names of its list, each at most once and in the order of the
    list, never for a name that was a directory when it started, and it
    removes no directory. *)
Theorem run_clones_only_missing_listed_names w arg dirs :
  sublist (cloned (commands (main w arg dirs))) REPOS
  /\ NoDup (cloned (commands (main w arg dirs)))
  /\ Forall (fun d => d ∉ dirs) (cloned (commands (main w arg dirs)))
  /\ dirs ⊆ final_dirs (main w arg dirs).
Proof.
  destruct (main_safe w arg dirs) as (Hsub & Hnew & Hkeep).
  split; [done|]. split; [|done].
  eapply sublist_NoDup; [apply REPOS_NoDup|exact Hsub].
Qed.

End SetupReposMore.

(** ** The wrapper script: credentials, the helper, and the cloning script *)

Module SetupMore.
Import Setup.

(** *** Vocabulary of the statements *)

Definition machine (r : Machine * list Event * bool) : Machine := fst (fst r).
Definition commands (r : Machine * list Event * bool) : list Event := snd (fst r).
Definition succeeded (r : Machine * list Event * bool) : bool := snd r.

(** A variable that is unset or empty. *)
Definition blank (v : option string) : Prop := v = None \/ v = Some "".

(** The helper the script means to leave behind: the one it found, none
    when it found none or an empty one. *)
Definition restored (m : Machine) : option string :=
  if is_set (helper m) then helper m else None.

(** Whether the command that puts the helper back exits with status 0. *)
Definition restore_ok (w : World) (m : Machine) : bool :=
  if is_set (helper m) then config_set_ok w (default "" (helper m)) else true.

(** The commands of [cleanup]. *)
Definition cleanup_commands (w : World) (m : Machine) (temp : string) : list Event :=
  if is_set (helper m) then
    if config_set_ok w (default "" (helper m))
    then [ConfigSet (default "" (helper m)); Rm temp]
    else [ConfigSet (default "" (helper m))]
  else [ConfigUnset; Rm temp].

(** The commands up to the call of the cloning script. *)
Definition preamble (w : World) (temp : string) : list Event :=
  [ConfigGet; Mktemp; Write temp (credentials w); ConfigSet (store_helper temp); ScriptDir].

(** The commands of the cloning script among those of a run. *)
Definition child_commands (t : list Event) : list SetupRepos.Event :=
  omap (fun e => match e with Repos e => Some e | _ => None end) t.

(** The call of the cloning script. *)
Definition child (w : World) (arg : option string) (m : Machine)
  : gset string * list SetupRepos.Event * bool :=
  SetupRepos.main (repos w) arg (dirs m).

(** Both variables set, a helper configured that cannot be put back, and
    a clone that fails. *)
Definition world_restore_fails : World :=
  {| GITHUB_USERNAME := Some "ada";
     GITHUB_TOKEN := Some "t0ken";
     mktemp := Some "/tmp/tmp.1";
     write_ok := true;
     config_set_ok := fun v => bool_decide (v = store_helper "/tmp/tmp.1");
     config_unset_ok := true;
     script_dir_ok := true;
     rm_ok := true;
     repos := SetupReposMore.apis_unreachable |}.

(** Every command succeeds. *)
Definition world_fine : World :=
  {| GITHUB_USERNAME := Some "ada";
     GITHUB_TOKEN := Some "t0ken";
     mktemp := Some "/tmp/tmp.1";
     write_ok := true;
     config_set_ok := fun _ => true;
     config_unset_ok := true;
     script_dir_ok := true;
     rm_ok := true;
     repos := SetupReposTheory.all_succeed |}.

(** The token is not in the environment. *)
Definition world_no_token : World :=
  {| GITHUB_USERNAME := Some "ada";
     GITHUB_TOKEN := Some "";
     mktemp := Some "/tmp/tmp.1";
     write_ok := true;
     config_set_ok := fun _ => true;
     config_unset_ok := true;
     script_dir_ok := true;
     rm_ok := true;
     repos := SetupReposTheory.all_succeed |}.

Definition with_helper (h : option string) : Machine :=
  {| helper := h; files := ∅; dirs := ∅ |}.

(** *** Lemmas *)

Lemma is_set_blank v : is_set v = false <-> blank v.
Proof.
  unfold blank. destruct v as [[|c s]|]; simpl; split; try done.
  - by right.
  - intros [H|H]; discriminate H.
  - by left.
Qed.

Lemma child_target w arg m :
  SetupRepos.main (repos w)
    (Some match arg with Some (String c s) => String c s | _ => "." end) (dirs m)
  = child w arg m.
Proof. unfold child. by destruct arg as [[|c s]|]. Qed.

Lemma child_commands_app t1 t2 :
  child_commands (t1 ++ t2) = child_commands t1 ++ child_commands t2.
Proof. apply omap_app. Qed.

Lemma child_commands_fmap t : child_commands (Repos <$> t) = t.
Proof. induction t as [|e t IH]; [done|]. cbn. by f_equal. Qed.

Lemma child_commands_cleanup w m temp : child_commands (cleanup_commands w m temp) = [].
Proof.
  unfold cleanup_commands.
  destruct (is_set (helper m)); [destruct (config_set_ok w _)|]; done.
Qed.

(** [cleanup], by cases. *)
Lemma cleanup_run w m0 temp m :
  cleanup w (default "" (helper m0)) temp m
  = (if restore_ok w m0
     then (if rm_ok w then remove_file temp else id)
            (if is_set (helper m0) then set_helper (helper m0) m
             else if config_unset_ok w then set_helper None m else m)
     else m,
     cleanup_commands w m0 temp,
     restore_ok w m0 && rm_ok w).
Proof.
  unfold cleanup, cleanup_commands, restore_ok.
  destruct (helper m0) as [[|c s]|]; simpl.
  - by destruct (config_unset_ok w), (rm_ok w).
  - by destruct (config_set_ok w _), (rm_ok w).
  - by destruct (config_unset_ok w), (rm_ok w).
Qed.

(** The script after a successful [mktemp]. *)
Lemma main_run w arg m temp :
  is_set (GITHUB_USERNAME w) = true ->
  is_set (GITHUB_TOKEN w) = true ->
  mktemp w = Some temp ->
  main w arg m
  = (machine (cleanup w (default "" (helper m)) temp
                (machine (body w arg temp (set_file temp "" m)))),
     [ConfigGet; Mktemp] ++ commands (body w arg temp (set_file temp "" m))
       ++ cleanup_commands w m temp,
     succeeded (body w arg temp (set_file temp "" m)) && (restore_ok w m && rm_ok w)).
Proof.
  intros Hu Ht Hm. unfold main. rewrite Hu, Ht, Hm. cbn [negb orb].
  destruct (body w arg temp (set_file temp "" m)) as [[m2 t2] ok2].
  unfold machine, commands, succeeded. cbn [fst snd]. by rewrite cleanup_run.
Qed.

Lemma main_machine w arg m temp :
  is_set (GITHUB_USERNAME w) = true ->
  is_set (GITHUB_TOKEN w) = true ->
  mktemp w = Some temp ->
  machine (main w arg m)
  = machine (cleanup w (default "" (helper m)) temp
               (machine (body w arg temp (set_file temp "" m)))).
Proof. intros Hu Ht Hm. by rewrite (main_run w arg m temp Hu Ht Hm). Qed.

Lemma main_commands w arg m temp :
  is_set (GITHUB_USERNAME w) = true ->
  is_set (GITHUB_TOKEN w) = true ->
  mktemp w = Some temp ->
  commands (main w arg m)
  = [ConfigGet; Mktemp] ++ commands (body w arg temp (set_file temp "" m))
      ++ cleanup_commands w m temp.
Proof. intros Hu Ht Hm. by rewrite (main_run w arg m temp Hu Ht Hm). Qed.

Lemma main_succeeded w arg m temp :
  is_set (GITHUB_USERNAME w) = true ->
  is_set (GITHUB_TOKEN w) = true ->
  mktemp w = Some temp ->
  succeeded (main w arg m)
  = succeeded (body w arg temp (set_file temp "" m)) && (restore_ok w m && rm_ok w).
Proof. intros Hu Ht Hm. by rewrite (main_run w arg m temp Hu Ht Hm). Qed.

(** What [body] leaves: the files other than the temporary one are
    untouched, and the helper is the store helper once it was set. *)
Lemma body_parts w arg temp m :
  delete temp (files (machine (body w arg temp m))) = delete temp (files m)
  /\ (write_ok w = true ->
      files (machine (body w arg temp m)) !! temp = Some (credentials w))
  /\ helper (machine (body w arg temp m))
     = (if write_ok w && config_set_ok w (store_helper temp)
        then Some (store_helper temp) else helper m).
Proof.
  unfold body.
  destruct (write_ok w); cbn [negb andb]; [|done].
  destruct (config_set_ok w (store_helper temp)); cbn [negb].
  2: { unfold machine. simpl. by rewrite delete_insert_eq, lookup_insert_eq. }
  destruct (script_dir_ok w); cbn [negb].
  2: { unfold machine. simpl. by rewrite delete_insert_eq, lookup_insert_eq. }
  destruct (SetupRepos.main _ _ _) as [[d t] ok].
  unfold machine. simpl. by rewrite delete_insert_eq, lookup_insert_eq.
Qed.

(** [body] when the commands before the cloning script succeed. *)
Lemma body_run w arg temp m :
  write_ok w = true ->
  config_set_ok w (store_helper temp) = true ->
  script_dir_ok w = true ->
  body w arg temp m
  = (set_dirs (fst (fst (child w arg m)))
       (set_helper (Some (store_helper temp)) (set_file temp (credentials w) m)),
     [Write temp (credentials w); ConfigSet (store_helper temp); ScriptDir]
       ++ (Repos <$> snd (fst (child w arg m))),
     snd (child w arg m)).
Proof.
  intros Hw Hc Hs. unfold body. rewrite Hw, Hc, Hs. cbn [negb].
  change (dirs (set_helper (Some (store_helper temp)) (set_file temp (credentials w) m)))
    with (dirs m).
  rewrite child_target. by destruct (child w arg m) as [[d t] ok].
Qed.

Lemma body_no_rm w arg temp m path : Rm path ∉ commands (body w arg temp m).
Proof.
  unfold body.
  destruct (write_ok w); cbn [negb].
  2: { unfold commands. simpl. intros H. apply list_elem_of_singleton in H. discriminate H. }
  destruct (config_set_ok w (store_helper temp)); cbn [negb].
  2: { unfold commands. simpl. intros H.
       repeat (apply elem_of_cons in H as [H|H]; [discriminate H|]).
       by apply elem_of_nil in H. }
  destruct (script_dir_ok w); cbn [negb].
  2: { unfold commands. simpl. intros H.
       repeat (apply elem_of_cons in H as [H|H]; [discriminate H|]).
       by apply elem_of_nil in H. }
  destruct (SetupRepos.main _ _ _) as [[d t] ok]. unfold commands. simpl. intros H.
  repeat (apply elem_of_cons in H as [H|H]; [discriminate H|]).
  apply list_elem_of_fmap in H as (e & He & _). discriminate He.
Qed.

(** *** The wrapper script *)

(** X18.  With both variables set and a temporary file that did not exist
    before, once the commands of [cleanup] succeed the wrapper leaves the
    credential helper it found (none, when it found none or an empty one)
    and the files it found, and its last command removes the temporary
    file: whether writing the credentials, setting the store helper,
    finding the script directory or the cloning script failed makes no
    difference. *)
Theorem cleanup_puts_back_helper_and_files w arg m temp :
  is_set (GITHUB_USERNAME w) = true ->
  is_set (GITHUB_TOKEN w) = true ->
  mktemp w = Some temp ->
  files m !! temp = None ->
  restore_ok w m = true ->
  config_unset_ok w = true ->
  rm_ok w = true ->
  helper (machine (main w arg m)) = restored m
  /\ files (machine (main w arg m)) = files m
  /\ last (commands (main w arg m)) = Some (Rm temp).
Proof.
  intros Hu Ht Hm Hfresh Hrestore Hunset Hrm.
  rewrite (main_machine w arg m temp Hu Ht Hm), (main_commands w arg m temp Hu Ht Hm).
  rewrite cleanup_run, Hrestore, Hrm, Hunset. unfold machine at 1 3. cbn [fst].
  destruct (body_parts w arg temp (set_file temp "" m)) as (Hfiles & _ & _).
  set (m2 := machine (body w arg temp (set_file temp "" m))) in *.
  assert (Hdel : delete temp (files m2) = files m).
  { rewrite Hfiles. simpl. by apply delete_insert_id. }
  unfold restored, cleanup_commands. unfold restore_ok in Hrestore.
  destruct (is_set (helper m)); [rewrite Hrestore|].
  - split; [done|]. split; [exact Hdel|].
    by rewrite !app_assoc, last_app.
  - split; [done|]. split; [exact Hdel|].
    by rewrite !app_assoc, last_app.
Qed.

Lemma cleanup_puts_back_helper_and_files_witness :
  helper (machine (main world_fine (Some "work") (with_helper (Some "osxkeychain"))))
  = restored (with_helper (Some "osxkeychain"))
  /\ files (machine (main world_fine (Some "work") (with_helper (Some "osxkeychain"))))
     = files (with_helper (Some "osxkeychain"))
  /\ last (commands (main world_fine (Some "work") (with_helper (Some "osxkeychain"))))
     = Some (Rm "/tmp/tmp.1").
Proof.
  apply (cleanup_puts_back_helper_and_files world_fine (Some "work")
           (with_helper (Some "osxkeychain")) "/tmp/tmp.1"); reflexivity.
Defined.

(** X19.  When a helper was configured and the command that puts it back
    fails, [cleanup] ends there: the temporary file is never removed and
    still holds the credentials, git is left with the store helper that
    points to it (if that was set), and the wrapper exits with a
    failure. *)
Theorem failed_restore_leaves_the_credentials w arg m temp :
  is_set (GITHUB_USERNAME w) = true ->
  is_set (GITHUB_TOKEN w) = true ->
  mktemp w = Some temp ->
  write_ok w = true ->
  is_set (helper m) = true ->
  config_set_ok w (default "" (helper m)) = false ->
  files (machine (main w arg m)) !! temp = Some (credentials w)
  /\ helper (machine (main w arg m))
     = (if config_set_ok w (store_helper temp) then Some (store_helper temp) else helper m)
  /\ (Rm temp ∉ commands (main w arg m))
  /\ succeeded (main w arg m) = false.
Proof.
  intros Hu Ht Hm Hw Hset Hfail.
  rewrite (main_machine w arg m temp Hu Ht Hm), (main_commands w arg m temp Hu Ht Hm),
    (main_succeeded w arg m temp Hu Ht Hm), cleanup_run.
  unfold restore_ok, cleanup_commands. rewrite Hset, Hfail.
  unfold machine at 1 3. cbn [fst].
  destruct (body_parts w arg temp (set_file temp "" m)) as (_ & Hcreds & Hhelper).
  rewrite Hw in Hhelper. cbn [andb] in Hhelper.
  split; [by apply Hcreds|]. split; [exact Hhelper|]. split.
  - intros H. apply elem_of_cons in H as [H|H]; [discriminate H|].
    apply elem_of_cons in H as [H|H]; [discriminate H|].
    apply elem_of_app in H as [H|H]; [by apply body_no_rm in H|].
    apply list_elem_of_singleton in H. discriminate H.
  - by rewrite andb_false_r.
Qed.

Lemma failed_restore_leaves_the_credentials_witness :
  files (machine (main world_restore_fails None (with_helper (Some "osxkeychain"))))
    !! "/tmp/tmp.1" = Some (credentials world_restore_fails)
  /\ helper (machine (main world_restore_fails None (with_helper (Some "osxkeychain"))))
     = (if config_set_ok world_restore_fails (store_helper "/tmp/tmp.1")
        then Some (store_helper "/tmp/tmp.1")
        else helper (with_helper (Some "osxkeychain")))
  /\ (Rm "/tmp/tmp.1"
        ∉ commands (main world_restore_fails None (with_helper (Some "osxkeychain"))))
  /\ succeeded (main world_restore_fails None (with_helper (Some "osxkeychain"))) = false.
Proof.
  apply (failed_restore_leaves_the_credentials world_restore_fails None
           (with_helper (Some "osxkeychain")) "/tmp/tmp.1"); reflexivity.
Defined.

(** X20.  Once the credentials are written, the store helper is set and
    the script directory is found, the wrapper runs the cloning script
    as if it had been called with the wrapper's own argument in the same
    directory: its commands are those of that call, between the five
    commands of the preamble and those of [cleanup]; the directories left
    are those the call leaves; and the wrapper succeeds exactly when the
    call and [cleanup] do. *)
Theorem wrapper_runs_the_cloning_script_as_called w arg m temp :
  is_set (GITHUB_USERNAME w) = true ->
  is_set (GITHUB_TOKEN w) = true ->
  mktemp w = Some temp ->
  write_ok w = true ->
  config_set_ok w (store_helper temp) = true ->
  script_dir_ok w = true ->
  commands (main w arg m)
  = preamble w temp ++ (Repos <$> SetupReposTheory.commands (child w arg m))
      ++ cleanup_commands w m temp
  /\ child_commands (commands (main w arg m)) = SetupReposTheory.commands (child w arg m)
  /\ dirs (machine (main w arg m)) = SetupReposMore.final_dirs (child w arg m)
  /\ succeeded (main w arg m)
     = SetupReposTheory.completed (child w arg m) && (restore_ok w m && rm_ok w).
Proof.
  intros Hu Ht Hm Hw Hc Hs.
  rewrite (main_machine w arg m temp Hu Ht Hm), (main_commands w arg m temp Hu Ht Hm),
    (main_succeeded w arg m temp Hu Ht Hm), (body_run w arg temp _ Hw Hc Hs).
  change (child w arg (set_file temp "" m)) with (child w arg m).
  unfold commands, succeeded, machine. cbn [fst snd].
  assert (Hcmd : [ConfigGet; Mktemp]
                 ++ ([Write temp (credentials w); ConfigSet (store_helper temp); ScriptDir]
                       ++ (Repos <$> snd (fst (child w arg m))))
                 ++ cleanup_commands w m temp
                 = preamble w temp
                     ++ (Repos <$> SetupReposTheory.commands (child w arg m))
                     ++ cleanup_commands w m temp).
  { unfold preamble, SetupReposTheory.commands. by rewrite <- !app_assoc. }
  rewrite Hcmd. split; [done|]. split.
  { rewrite !child_commands_app, child_commands_fmap, child_commands_cleanup.
    cbn. by rewrite app_nil_r. }
  split; [|done].
  rewrite cleanup_run. cbn [fst].
  unfold SetupReposMore.final_dirs.
  destruct (restore_ok w m); [|done].
  destruct (rm_ok w), (is_set (helper m)), (config_unset_ok w); done.
Qed.

Lemma wrapper_runs_the_cloning_script_as_called_witness :
  commands (main world_restore_fails None (with_helper None))
  = preamble world_restore_fails "/tmp/tmp.1"
      ++ (Repos <$> SetupReposTheory.commands
                      (child world_restore_fails None (with_helper None)))
      ++ cleanup_commands world_restore_fails (with_helper None) "/tmp/tmp.1"
  /\ child_commands (commands (main world_restore_fails None (with_helper None)))
     = SetupReposTheory.commands (child world_restore_fails None (with_helper None))
  /\ dirs (machine (main world_restore_fails None (with_helper None)))
     = SetupReposMore.final_dirs (child world_restore_fails None (with_helper None))
  /\ succeeded (main world_restore_fails None (with_helper None))
     = SetupReposTheory.completed (child world_restore_fails None (with_helper None))
       && (restore_ok world_restore_fails (with_helper None)
           && rm_ok world_restore_fails).
Proof.
  apply (wrapper_runs_the_cloning_script_as_called world_restore_fails None
           (with_helper None) "/tmp/tmp.1"); reflexivity.
Defined.

(** X21.  The wrapper exits with success exactly when both variables are
    set and non-empty, [mktemp] gives a file, the credentials are
    written, the store helper is set, the script directory is found, the
    cloning script called with the wrapper's argument succeeds, and
    [cleanup] can put back a helper that was configured and remove the
    temporary file.  A failing removal of the helper, when none was
    configured, does not count. *)
Theorem wrapper_succeeds_iff_every_step_does w arg m :
  succeeded (main w arg m) = true
  <-> is_set (GITHUB_USERNAME w) = true
      /\ is_set (GITHUB_TOKEN w) = true
      /\ (exists temp, mktemp w = Some temp
                       /\ config_set_ok w (store_helper temp) = true)
      /\ write_ok w = true
      /\ script_dir_ok w = true
      /\ SetupReposTheory.completed (child w arg m) = true
      /\ restore_ok w m = true
      /\ rm_ok w = true.
Proof.
  split.
  - intros H.
    destruct (is_set (GITHUB_USERNAME w)) eqn:Hu;
      [|unfold main in H; by rewrite Hu in H].
    destruct (is_set (GITHUB_TOKEN w)) eqn:Ht;
      [|unfold main in H; by rewrite Hu, Ht in H].
    destruct (mktemp w) as [temp|] eqn:Hm;
      [|unfold main in H; by rewrite Hu, Ht, Hm in H].
    rewrite (main_succeeded w arg m temp Hu Ht Hm) in H.
    apply andb_true_iff in H as [Hbody H]. apply andb_true_iff in H as [Hre Hrm].
    destruct (write_ok w) eqn:Hw; [|unfold body in Hbody; by rewrite Hw in Hbody].
    destruct (config_set_ok w (store_helper temp)) eqn:Hc;
      [|unfold body in Hbody; by rewrite Hw, Hc in Hbody].
    destruct (script_dir_ok w) eqn:Hs;
      [|unfold body in Hbody; by rewrite Hw, Hc, Hs in Hbody].
    rewrite (body_run w arg temp _ Hw Hc Hs) in Hbody.
    repeat split; try done. by exists temp.
  - intros (Hu & Ht & (temp & Hm & Hc) & Hw & Hs & Hchild & Hre & Hrm).
    rewrite (main_succeeded w arg m temp Hu Ht Hm), (body_run w arg temp _ Hw Hc Hs).
    unfold succeeded. cbn [snd].
    change (child w arg (set_file temp "" m)) with (child w arg m).
    unfold SetupReposTheory.completed in Hchild. by rewrite Hchild, Hre, Hrm.
Qed.

Lemma wrapper_succeeds_iff_every_step_does_witness :
  succeeded (main world_fine None (with_helper None)) = true.
Proof.
  apply wrapper_succeeds_iff_every_step_does.
  split; [reflexivity|]. split; [reflexivity|].
  split; [exists "/tmp/tmp.1"; by split|].
  repeat split; by vm_compute.
Defined.

(** X22.  With [GITHUB_USERNAME] or [GITHUB_TOKEN] unset or empty, the
    wrapper prints the error and exits with a failure before any other
    command: it does not read or change the credential helper, creates
    no file and does not call the cloning script. *)
Theorem wrapper_needs_both_variables w arg m :
  blank (GITHUB_USERNAME w) \/ blank (GITHUB_TOKEN w) ->
  main w arg m = (m, [EchoError missing_credentials], false).
Proof.
  intros H. unfold main.
  assert (Hguard : negb (is_set (GITHUB_USERNAME w)) || negb (is_set (GITHUB_TOKEN w)) = true).
  { destruct H as [H|H]; apply is_set_blank in H; rewrite H; [done|].
    by rewrite orb_true_r. }
  by rewrite Hguard.
Qed.

Lemma wrapper_needs_both_variables_witness :
  main world_no_token None (with_helper None)
  = (with_helper None, [EchoError missing_credentials], false).
Proof.
  apply wrapper_needs_both_variables. right. by right.
Defined.

End SetupMore.

(** ** The adapters: operations only read the adapter *)

Module OperationsMore.

(** *** Vocabulary of the statements *)

Section ReadOnly.
Context {E S : Type}.

(** A computation that leaves the fields of [this] as they were and makes
    at most [n] external calls, whatever it returns or raises. *)
Definition read_only {A} (n : nat) (m : M E S A) : Prop :=
  forall s, final_state (m s) = s /\ length (trace (m s)) <= n.

(** *** Lemmas *)

Lemma read_only_ret {A} (a : A) : read_only 0 (ret a).
Proof. intros s. by split. Qed.

Lemma read_only_throw {A} e : read_only 0 (throw (A := A) e).
Proof. intros s. by split. Qed.

Lemma read_only_lift {A} (r : result A) : read_only 0 (lift r).
Proof. intros s. by split. Qed.

Lemma read_only_gets {A} (f : S -> A) : read_only 0 (gets f).
Proof. intros s. by split. Qed.

Lemma read_only_get : read_only 0 (get (E := E) (S := S)).
Proof. intros s. by split. Qed.

Lemma read_only_external {A} ev (answer : result A) : read_only 1 (external ev answer).
Proof. intros s. by split. Qed.

Lemma read_only_mono {A} n n' (m : M E S A) : n <= n' -> read_only n m -> read_only n' m.
Proof. intros Hle H s. destruct (H s) as [H1 H2]. split; [done|lia]. Qed.

Lemma read_only_bind {A B} n1 n2 (m : M E S A) (f : A -> M E S B) :
  read_only n1 m -> (forall a, read_only n2 (f a)) -> read_only (n1 + n2) (bind m f).
Proof.
  intros Hm Hf s. unfold bind. destruct (Hm s) as [H1 H2].
  destruct (m s) as [[s1 t1] [a|e]]; unfold final_state, trace in *; simpl in *.
  - subst s1. destruct (Hf a s) as [H3 H4].
    destruct (f a s) as [[s2 t2] r]. unfold final_state, trace in *. simpl in *.
    split; [done|]. rewrite length_app. lia.
  - split; [done|lia].
Qed.

Lemma read_only_try_catch {A} n1 n2 (body : M E S A) (handler : Js.Error -> M E S A) :
  read_only n1 body -> (forall e, read_only n2 (handler e)) ->
  read_only (n1 + n2) (try_catch body handler).
Proof.
  intros Hm Hf s. unfold try_catch. destruct (Hm s) as [H1 H2].
  destruct (body s) as [[s1 t1] [a|e]]; unfold final_state, trace in *; simpl in *.
  - split; [done|lia].
  - subst s1. destruct (Hf e s) as [H3 H4].
    destruct (handler e s) as [[s2 t2] r]. unfold final_state, trace in *. simpl in *.
    split; [done|]. rewrite length_app. lia.
Qed.

End ReadOnly.

(** A guard on a handle of [this], then one external call, then a
    computation that makes none. *)
Lemma read_only_guarded {E S H A B} (field : S -> option H) (e : Js.Error)
    (request : M E S A) (rest : A -> M E S B) :
  read_only 1 request ->
  (forall a, read_only 0 (rest a)) ->
  read_only 1 (bind (gets field)
                 (fun h => match h with
                           | None => throw e
                           | Some _ => bind request rest
                           end)).
Proof.
  intros Hreq Hrest. apply (read_only_bind 0 1); [apply read_only_gets|].
  intros [h|].
  - by apply (read_only_bind 1 0).
  - apply (read_only_mono 0); [lia|apply read_only_throw].
Qed.

Lemma supabase_unwrap_read_only what r : read_only 0 (Supabase.unwrap what r).
Proof.
  unfold Supabase.unwrap. destruct (Supabase.error r);
    [apply read_only_throw|apply read_only_ret].
Qed.

(** *** The operations *)

(** X23.  No operation of the three adapters other than [initialize]
    changes the adapter, and each makes at most one external call,
    whatever the outside answers and whether the operation returns or
    raises: an adapter stays as available as [initialize] left it, and no
    request is ever repeated. *)
Theorem operations_only_read_the_adapter
    (ws : Supabase.World) (wg : GitHub.World) (wc : GCloud.World) :
  ((forall a, read_only 1 (Supabase.query ws a))
   /\ (forall a, read_only 1 (Supabase.insert ws a))
   /\ (forall a, read_only 1 (Supabase.update ws a))
   /\ (forall a, read_only 1 (Supabase.delete ws a))
   /\ (forall a, read_only 1 (Supabase.rpc ws a)))
  /\ ((forall a, read_only 1 (GitHub.getRepository wg a))
      /\ (forall a, read_only 1 (GitHub.listIssues wg a))
      /\ (forall a, read_only 1 (GitHub.createIssue wg a))
      /\ (forall a, read_only 1 (GitHub.listPullRequests wg a))
      /\ (forall a, read_only 1 (GitHub.createPullRequest wg a))
      /\ (forall a, read_only 1 (GitHub.getFileContent wg a))
      /\ (forall a, read_only 1 (GitHub.search wg a)))
  /\ ((forall a, read_only 1 (GCloud.listBucketContents wc a))
      /\ (forall a, read_only 1 (GCloud.readFile wc a))
      /\ (forall a, read_only 1 (GCloud.writeFile wc a))
      /\ (forall a, read_only 1 (GCloud.getSecret wc a))
      /\ (forall a, read_only 1 (GCloud.executeGCloudCommand wc a))).
Proof.
  apply conj; [|apply conj].
  - repeat apply conj; intros a.
    + apply read_only_guarded; [apply read_only_external|].
      intros r. apply supabase_unwrap_read_only.
    + apply read_only_guarded; [apply read_only_external|].
      intros r. apply supabase_unwrap_read_only.
    + apply read_only_guarded; [apply read_only_external|].
      intros r. apply supabase_unwrap_read_only.
    + apply read_only_guarded; [apply read_only_external|].
      intros r. apply supabase_unwrap_read_only.
    + apply read_only_guarded; [apply read_only_external|].
      intros r. destruct (Supabase.error r); [apply read_only_throw|apply read_only_ret].
  - repeat apply conj; intros a.
    + apply read_only_guarded; [apply read_only_external|]. intros d. apply read_only_lift.
    + apply read_only_guarded; [apply read_only_external|]. intros d. apply read_only_lift.
    + apply read_only_guarded; [apply read_only_external|]. intros d. apply read_only_lift.
    + apply read_only_guarded; [apply read_only_external|]. intros d. apply read_only_lift.
    + apply read_only_guarded; [apply read_only_external|]. intros d. apply read_only_lift.
    + unfold GitHub.getFileContent.
      apply (read_only_bind 0 1); [apply read_only_gets|]. intros [h|].
      * apply (read_only_try_catch 1 0).
        -- apply (read_only_bind 1 0); [apply read_only_external|]. intros d.
           apply (read_only_bind 0 0); [apply read_only_lift|]. intros present.
           destruct (present && GitHub.is_file d);
             [apply read_only_lift|apply read_only_throw].
        -- intros e. destruct (bool_decide _); apply read_only_throw.
      * apply (read_only_mono 0); [lia|apply read_only_throw].
    + apply read_only_guarded; [apply read_only_external|]. intros d. apply read_only_lift.
  - repeat apply conj; intros a.
    + apply read_only_guarded; [apply read_only_external|]. intros d. apply read_only_lift.
    + unfold GCloud.readFile.
      apply (read_only_bind 0 1); [apply read_only_gets|]. intros [h|].
      * apply read_only_external.
      * apply (read_only_mono 0); [lia|apply read_only_throw].
    + unfold GCloud.writeFile.
      apply (read_only_bind 0 1); [apply read_only_gets|]. intros [h|].
      * apply read_only_external.
      * apply (read_only_mono 0); [lia|apply read_only_throw].
    + unfold GCloud.getSecret.
      apply (read_only_bind 0 1); [apply read_only_get|]. intros this.
      destruct (GCloud.secretClient this);
        [|apply (read_only_mono 0); [lia|apply read_only_throw]].
      destruct (GCloud.projectId this) as [p|];
        [|apply (read_only_mono 0); [lia|apply read_only_throw]].
      destruct (negb (Js.str_truthy p));
        [apply (read_only_mono 0); [lia|apply read_only_throw]|].
      apply (read_only_bind 1 0); [apply read_only_external|]. intros v.
      destruct (Js.opt_truthy _); [apply read_only_ret|apply read_only_throw].
    + unfold GCloud.executeGCloudCommand.
      apply (read_only_try_catch 1 0).
      * apply (read_only_bind 1 0); [apply read_only_external|]. intros out.
        apply read_only_ret.
      * intros e. apply read_only_throw.
Qed.

End OperationsMore.
